(** * StatementedNode: the statement-container mixin of ts-simple-ast

    A shallow embedding of [src/compiler/ast/statement/StatementedNode.ts].
    The mixin's methods mutate [this] and may throw; they are embedded in a
    state-and-exception monad over the container node, in which the state
    reached before a [throw] is kept, as it is in JavaScript. *)

From Stdlib Require Import List ZArith Lia Bool String Arith Permutation.
Import ListNotations.

Set Warnings "-register-all".

(** ** Syntax kinds and nodes *)

Module SyntaxKind.

Inductive t : Set :=
| SourceFile | CaseClause | DefaultClause | Block
| ModuleDeclaration | FunctionDeclaration | MethodDeclaration
| ArrowFunction | FunctionExpression
| ClassDeclaration | EnumDeclaration | InterfaceDeclaration
| TypeAliasDeclaration | VariableStatement | VariableDeclaration
| ExpressionStatement | ReturnStatement.

Definition eq_dec (a b : t) : {a = b} + {a <> b}.
Proof. decide equality. Defined.

Definition eqb (a b : t) : bool := if eq_dec a b then true else false.

End SyntaxKind.

(** A node of the tree.  A wrapped node and its compiler node are kept in
    one-to-one correspondence by the node factory, so the model has one type
    for both; [nodeId] is the identity of the object.  [syntaxList] holds the
    children of the node's child syntax list: the statements of a source
    file, clause or block, or of the body of a bodied or bodyable node.  It
    is [None] when there is no statement list: a bodyable node without a
    body, or a bodied node whose body is not a block, as the expression body
    of an arrow function. *)
Inductive Node : Type := mkNode {
  nodeId : nat;
  kind : SyntaxKind.t;
  name : option string;
  ambient : bool;
  syntaxList : option (list Node);
  declarations : list Node
}.

Definition withSyntaxList (n : Node) (l : option (list Node)) : Node :=
  mkNode (nodeId n) (kind n) (name n) (ambient n) l (declarations n).

Definition withId (id : nat) (n : Node) : Node :=
  mkNode id (kind n) (name n) (ambient n) (syntaxList n) (declarations n).

(** [compilerNode.statements] of a node that has a statement list. *)
Definition statementsOf (n : Node) : list Node :=
  match syntaxList n with Some l => l | None => [] end.

(** ** Type guards *)

Module TypeGuards.

Definition isKind (k : SyntaxKind.t) (n : Node) : bool := SyntaxKind.eqb (kind n) k.

Definition isSourceFile := isKind SyntaxKind.SourceFile.
Definition isCaseClause := isKind SyntaxKind.CaseClause.
Definition isDefaultClause := isKind SyntaxKind.DefaultClause.
Definition isBlock := isKind SyntaxKind.Block.
Definition isNamespaceDeclaration := isKind SyntaxKind.ModuleDeclaration.
Definition isFunctionDeclaration := isKind SyntaxKind.FunctionDeclaration.
Definition isTypeAliasDeclaration := isKind SyntaxKind.TypeAliasDeclaration.
Definition isVariableStatement := isKind SyntaxKind.VariableStatement.

(** Modelled from the spec: the optionally-bodied containers of section 3,
    whose body may be absent (a function or method declaration). *)
Definition isBodyableNode (n : Node) : bool :=
  match kind n with
  | SyntaxKind.FunctionDeclaration | SyntaxKind.MethodDeclaration => true
  | _ => false
  end.

(** Modelled from the spec: the always-bodied containers of section 3 (a
    namespace, an arrow function, a function expression). *)
Definition isBodiedNode (n : Node) : bool :=
  match kind n with
  | SyntaxKind.ModuleDeclaration | SyntaxKind.ArrowFunction
  | SyntaxKind.FunctionExpression => true
  | _ => false
  end.

Definition hasName (n : Node) : bool :=
  match name n with Some _ => true | None => false end.

End TypeGuards.

(** ** Declaration structures and the code writer *)

(** The properties of a declaration structure that the container reads. *)
Record Structure : Type := {
  sname : option string;
  hasDeclareKeyword : option bool
}.

Inductive StructurePrinter : Set :=
| forClassDeclaration (isAmbient : bool)
| forEnumDeclaration
| forFunctionDeclaration (isAmbient : bool)
| forInterfaceDeclaration
| forNamespaceDeclaration (isAmbient : bool)
| forTypeAliasDeclaration
| forVariableStatement.

(** The calls made on a [CodeBlockWriter], oldest first. *)
Inductive WriterCall : Type :=
| BlankLine
| NewLine
| ConditionalNewLine (condition : bool)
| Write (text : string)
| PrintTexts (printer : StructurePrinter) (structures : list Structure).

Definition CodeBlockWriter : Type := list WriterCall.

Definition blankLine (writer : CodeBlockWriter) : CodeBlockWriter := writer ++ [BlankLine].
Definition newLine (writer : CodeBlockWriter) : CodeBlockWriter := writer ++ [NewLine].
Definition conditionalNewLine (condition : bool) (writer : CodeBlockWriter) : CodeBlockWriter :=
  writer ++ [ConditionalNewLine condition].
Definition write (text : string) (writer : CodeBlockWriter) : CodeBlockWriter :=
  writer ++ [Write text].
Definition printTexts (printer : StructurePrinter) (structures : list Structure)
  (writer : CodeBlockWriter) : CodeBlockWriter :=
  writer ++ [PrintTexts printer structures].

Inductive TextOrWriterFunction : Type :=
| Text (text : string)
| WriterFunction (f : CodeBlockWriter -> CodeBlockWriter).

(** Modelled from the spec: a text input is a literal text or a generator
    that writes to the writer (section 9). *)
Definition printTextFromStringOrWriter (writer : CodeBlockWriter)
  (textOrWriterFunction : TextOrWriterFunction) : CodeBlockWriter :=
  match textOrWriterFunction with
  | Text s => write s writer
  | WriterFunction f => f writer
  end.

(** ** Errors and the monad of the methods *)

Inductive Error : Type :=
| OutOfBounds
| NotFound (message : string)
| NotImplemented (message : string)
| TypeError.

Inductive Outcome (A : Type) : Type :=
| Return (a : A)
| Throw (e : Error).

Arguments Return {A} a.
Arguments Throw {A} e.

(** One splice of the source text: the index it was made at and the calls
    the write callback made on the writer. *)
Record Insertion : Type := {
  insertIndex : nat;
  newText : CodeBlockWriter
}.

(** The container the mixin is applied to, with the text spliced into its
    source file so far, oldest first. *)
Record State : Type := {
  this : Node;
  insertions : list Insertion
}.

Definition M (A : Type) : Type := State -> Outcome A * State.

Definition ret {A} (a : A) : M A := fun st => (Return a, st).
Definition throw {A} (e : Error) : M A := fun st => (Throw e, st).

Definition bind {A B} (m : M A) (k : A -> M B) : M B :=
  fun st =>
    match m st with
    | (Return a, st') => k a st'
    | (Throw e, st') => (Throw e, st')
    end.

Declare Scope m_scope.
Delimit Scope m_scope with m.
Notation "x <- m ;; k" := (bind m (fun x => k))
  (at level 100, m at next level, right associativity) : m_scope.
Notation "m ;;; k" := (bind m (fun _ => k))
  (at level 100, right associativity) : m_scope.
Local Open Scope m_scope.

Definition getThis : M Node := fun st => (Return (this st), st).
Definition setThis (n : Node) : M unit :=
  fun st => (Return tt, {| this := n; insertions := insertions st |}).
Definition recordInsertion (i : Insertion) : M unit :=
  fun st => (Return tt, {| this := this st; insertions := insertions st ++ [i] |}).

(** An outcome computed without touching [this]. *)
Definition liftOutcome {A} (o : Outcome A) : M A := fun st => (o, st).

Definition when (b : bool) (m : M unit) : M unit := if b then m else ret tt.

Fixpoint forEach {A} (l : list A) (f : A -> M unit) : M unit :=
  match l with
  | [] => ret tt
  | a :: l' => f a ;;; forEach l' f
  end.

Definition outcome {A} (r : Outcome A * State) : Outcome A := fst r.
Definition finalState {A} (r : Outcome A * State) : State := snd r.

(** ** Helpers of the errors, utils and manipulation modules *)

(** Modelled from the spec: [verifyAndGetIndex] of the manipulation module
    (the validateIndex of section 4.1).  A negative index counts from the end,
    -1 being the last position [maxInclusive]; the normalised index is then
    rejected when it is below 0 or above [maxInclusive]. *)
Definition verifyAndGetIndex (index maxInclusive : Z) : Outcome nat :=
  let newIndex := if (index <? 0)%Z then (maxInclusive + 1 + index)%Z else index in
  if ((newIndex <? 0) || (maxInclusive <? newIndex))%Z then Throw OutOfBounds
  else Return (Z.to_nat newIndex).

(** Modelled from the spec: [errors.throwIfRangeOutOfRange] (the validateRange
    of section 4.1): it fails when the start is greater than the end or when
    either bound lies outside the half-open range. *)
Definition throwIfRangeOutOfRange (actualRange range : Z * Z) : Outcome unit :=
  let outside (value : Z) := ((value <? fst range) || (snd range <=? value))%Z in
  if (snd actualRange <? fst actualRange)%Z then Throw OutOfBounds
  else if outside (fst actualRange) then Throw OutOfBounds
  else if outside (snd actualRange) then Throw OutOfBounds
  else Return tt.

(** Modelled from the spec: [errors.throwIfNullOrUndefined], the wrapper of
    every throwing lookup: NotFound with the given message when there is no
    value, the value itself otherwise. *)
Definition throwIfNullOrUndefined {A} (value : option A) (message : string) : Outcome A :=
  match value with
  | Some a => Return a
  | None => Throw (NotFound message)
  end.

Inductive NameOrFindFunction : Type :=
| Name (name : string)
| FindFunction (findFunction : Node -> bool).

(** Modelled from the spec: [getNodeByNameOrFindFunction] of the utils module
    (the findByNameOrPredicate of section 4.3): a string is matched against
    the declared name of each item, an item without a name never matching; a
    predicate is applied as it is; the first match is returned. *)
Definition getNodeByNameOrFindFunction (items : list Node)
  (nameOrFindFunction : NameOrFindFunction) : option Node :=
  let findFunc :=
    match nameOrFindFunction with
    | Name s => fun dec =>
        TypeGuards.hasName dec &&
        match name dec with Some n => String.eqb n s | None => false end
    | FindFunction f => f
    end in
  find findFunc items.

(** Modelled from the spec: the message of a failed lookup names what was
    sought (section 4.3). *)
Definition getNotFoundErrorMessageForNameOrFindFunction (findName : string)
  (nameOrFindFunction : NameOrFindFunction) : string :=
  match nameOrFindFunction with
  | Name s => ("Expected to find " ++ findName ++ " named '" ++ s ++ "'.")%string
  | FindFunction _ =>
      ("Expected to find " ++ findName ++ " that matched the provided condition.")%string
  end.

Definition getSyntaxKindName (k : SyntaxKind.t) : string :=
  match k with
  | SyntaxKind.SourceFile => "SourceFile"
  | SyntaxKind.CaseClause => "CaseClause"
  | SyntaxKind.DefaultClause => "DefaultClause"
  | SyntaxKind.Block => "Block"
  | SyntaxKind.ModuleDeclaration => "ModuleDeclaration"
  | SyntaxKind.FunctionDeclaration => "FunctionDeclaration"
  | SyntaxKind.MethodDeclaration => "MethodDeclaration"
  | SyntaxKind.ArrowFunction => "ArrowFunction"
  | SyntaxKind.FunctionExpression => "FunctionExpression"
  | SyntaxKind.ClassDeclaration => "ClassDeclaration"
  | SyntaxKind.EnumDeclaration => "EnumDeclaration"
  | SyntaxKind.InterfaceDeclaration => "InterfaceDeclaration"
  | SyntaxKind.TypeAliasDeclaration => "TypeAliasDeclaration"
  | SyntaxKind.VariableStatement => "VariableStatement"
  | SyntaxKind.VariableDeclaration => "VariableDeclaration"
  | SyntaxKind.ExpressionStatement => "ExpressionStatement"
  | SyntaxKind.ReturnStatement => "ReturnStatement"
  end%string.

(** [Array.prototype.slice] on a list. *)
Definition slice {A} (startIndex endIndex : Z) (l : list A) : list A :=
  let len := Z.of_nat (List.length l) in
  let relative (i : Z) := if (i <? 0)%Z then Z.max (len + i) 0 else Z.min i len in
  let k := relative startIndex in
  let final := relative endIndex in
  firstn (Z.to_nat (Z.max (final - k) 0)) (skipn (Z.to_nat k) l).

(** ** Methods of [Node] used by the mixin *)

(** Modelled from the spec: [Node.getChildSyntaxList]; there is none when an
    optionally-bodied node has no body (section 4.6). *)
Definition getChildSyntaxList : M (option (list Node)) :=
  n <- getThis ;; ret (syntaxList n).

Definition getChildSyntaxListOrThrow : M (list Node) :=
  n <- getThis ;;
  liftOutcome (throwIfNullOrUndefined (syntaxList n) "A child syntax list was expected.").

Definition getChildrenOfKind (k : SyntaxKind.t) (children : list Node) : list Node :=
  filter (TypeGuards.isKind k) children.

Definition getFirstChildIfKind (k : SyntaxKind.t) (children : list Node) : option Node :=
  match children with
  | first :: _ => if TypeGuards.isKind k first then Some first else None
  | [] => None
  end.

Definition getBody (n : Node) : option (list Node) := syntaxList n.
Definition hasBody (n : Node) : bool :=
  match getBody n with Some _ => true | None => false end.

(** Modelled from the spec: the kind classifiers of section 6.  A function
    declaration is an implementation when it has a body, and is ambient when
    it is declared so or stands in an ambient context. *)
Definition isImplementation (f : Node) : bool := hasBody f.
Definition isAmbient (f : Node) : bool := ambient f.
Definition isNodeAmbientOrInAmbientContext (n : Node) : bool := ambient n.

(** Modelled from the spec: [BodyableNode.addBody] synthesises an empty body
    in place, and [BodyableNode.removeBody] removes the body entirely. *)
Definition addBody : M unit :=
  n <- getThis ;; setThis (withSyntaxList n (Some [])).
Definition removeBody : M unit :=
  n <- getThis ;; setThis (withSyntaxList n None).

Definition isOneOf (nodes : list Node) (s : Node) : bool :=
  existsb (Nat.eqb (nodeId s)) (map nodeId nodes).

(** Modelled from the spec: [removeStatementedNodeChildren] of the
    manipulation module (section 4.5): the given statements are deleted from
    the container's statement list and nothing else is. *)
Definition removeStatementedNodeChildren (nodes : list Node) : M unit :=
  n <- getThis ;;
  setThis (withSyntaxList n
             (option_map (filter (fun s => negb (isOneOf nodes s))) (syntaxList n))).

(** Modelled from the spec: [remove] of a declaration that is a statement of
    the container removes that declaration (section 3, lifecycle). *)
Definition remove (declaration : Node) : M unit :=
  removeStatementedNodeChildren [declaration].

(** Modelled from the spec: the base classes' [set] reconciles what lies
    outside the statement collection (section 1, non-goal); being handed a
    copy without [bodyText], it leaves the body as it is. *)
Definition callBaseSet : M unit := ret tt.

(** ** Insertion engine *)

Record WriteInfo : Type := {
  previousMember : option Node;
  nextMember : option Node;
  isStartOfFile : bool
}.

Record InsertChildrenOptions : Type := {
  expectedKind : SyntaxKind.t;
  index : Z;
  structures : list Structure;
  writeOf : CodeBlockWriter -> WriteInfo -> Outcome CodeBlockWriter
}.

Record StandardWriteOptions : Type := {
  previousNewLine : option (Node -> Outcome bool);
  nextNewLine : option (Node -> Outcome bool)
}.

Definition noStandardWriteOptions : StandardWriteOptions :=
  {| previousNewLine := None; nextNewLine := None |}.

(** The identity of the first node a splice creates: one not held by any of
    the children. *)
Definition freshId (children : list Node) : nat :=
  S (list_max (map nodeId children)).

(** [structure.hasDeclareKeyword] holds. *)
Definition declared (s : Structure) : bool :=
  match hasDeclareKeyword s with Some true => true | _ => false end.

(** Modelled from the spec: the structure printer of a kind followed by the
    re-parse of the spliced span (section 4.4, steps 4 and 5, and section 6):
    each structure yields one declaration of the expected kind, with the
    structure's name; it is ambient when the container is or when the
    structure says so, and an ambient function has no body. *)
Definition declarationOf (parent : Node) (expected : SyntaxKind.t) (id : nat)
  (s : Structure) : Node :=
  let isAmbient := isNodeAmbientOrInAmbientContext parent || declared s in
  {| nodeId := id;
     kind := expected;
     name := sname s;
     ambient := isAmbient;
     syntaxList :=
       match expected with
       | SyntaxKind.FunctionDeclaration => if isAmbient then None else Some []
       | SyntaxKind.TypeAliasDeclaration | SyntaxKind.VariableStatement => None
       | _ => Some []
       end;
     declarations := [] |}.

Fixpoint declarationsOf (parent : Node) (expected : SyntaxKind.t) (id : nat)
  (ss : list Structure) : list Node :=
  match ss with
  | [] => []
  | s :: ss' => declarationOf parent expected id s :: declarationsOf parent expected (S id) ss'
  end.

Fixpoint renumber (id : nat) (nodes : list Node) : list Node :=
  match nodes with
  | [] => []
  | n :: nodes' => withId id n :: renumber (S id) nodes'
  end.

(** Modelled from the spec: the syntactic kind of the declarations a
    structure printer prints (section 6). *)
Definition kindOfPrinter (printer : StructurePrinter) : SyntaxKind.t :=
  match printer with
  | forClassDeclaration _ => SyntaxKind.ClassDeclaration
  | forEnumDeclaration => SyntaxKind.EnumDeclaration
  | forFunctionDeclaration _ => SyntaxKind.FunctionDeclaration
  | forInterfaceDeclaration => SyntaxKind.InterfaceDeclaration
  | forNamespaceDeclaration _ => SyntaxKind.ModuleDeclaration
  | forTypeAliasDeclaration => SyntaxKind.TypeAliasDeclaration
  | forVariableStatement => SyntaxKind.VariableStatement
  end.

(** Modelled from the spec: the re-parse of the text a write callback wrote
    (section 4.4, step 4).  The statements of the text are the declarations
    printed into it, one per structure, of the kind of the printer and in the
    order they were printed; the separators hold no statement, and so does
    what was not printed from a structure. *)
Fixpoint declarationsWritten (parent : Node) (id : nat) (text : CodeBlockWriter)
  : list Node :=
  match text with
  | [] => []
  | PrintTexts printer ss :: text' =>
      declarationsOf parent (kindOfPrinter printer) id ss
      ++ declarationsWritten parent (id + List.length ss) text'
  | _ :: text' => declarationsWritten parent id text'
  end.

(** Modelled from the spec: the new children at the index are re-resolved
    into the expected count of declarations of the expected kind (section
    4.4, step 5); a span that does not hold them is a failure. *)
Definition getRangeFromArray (children : list Node) (i count : nat)
  (expected : SyntaxKind.t) : Outcome (list Node) :=
  let range := firstn count (skipn i children) in
  if (List.length range =? count) && forallb (TypeGuards.isKind expected) range
  then Return range
  else Throw (NotImplemented
                "Unexpected! The inserted children are not of the expected count and kind.").

(** Modelled from the spec: the statement before and the statement after the
    insertion point, if any, and whether the point is the start of the source
    file (section 4.4, step 2). *)
Definition writeInfoAt (parent : Node) (children : list Node) (i : nat) : WriteInfo :=
  {| previousMember := if i =? 0 then None else nth_error children (i - 1);
     nextMember := nth_error children i;
     isStartOfFile := TypeGuards.isSourceFile parent && (i =? 0) |}.

Definition spliceAt (i : nat) (nodes children : list Node) : list Node :=
  firstn i children ++ nodes ++ skipn i children.

(** Modelled from the spec: [insertIntoBracesOrSourceFileWithGetChildren] of
    the manipulation module, the insertion engine of section 4.4.  The
    insertion point lies in the child syntax list of the container, which
    must be there; the index is validated against the current statement count
    before any text is written; the write callback is run on a new writer
    with the neighbours of the insertion point; the text it wrote is spliced
    in and re-parsed, and the new children at the index are re-resolved into
    one declaration of the expected kind per structure, in order.  An empty
    list of structures inserts nothing. *)
Definition insertIntoBracesOrSourceFileWithGetChildren
  (getIndexedChildren : M (list Node)) (opts : InsertChildrenOptions) : M (list Node) :=
  match structures opts with
  | [] => ret []
  | _ :: _ =>
      startChildren <- getIndexedChildren ;;
      getChildSyntaxListOrThrow ;;;
      i <- liftOutcome (verifyAndGetIndex (index opts) (Z.of_nat (List.length startChildren))) ;;
      parent <- getThis ;;
      text <- liftOutcome (writeOf opts [] (writeInfoAt parent startChildren i)) ;;
      let nodes := declarationsWritten parent (freshId startChildren) text in
      let children := spliceAt i nodes startChildren in
      setThis (withSyntaxList parent (Some children)) ;;;
      recordInsertion {| insertIndex := i; newText := text |} ;;;
      liftOutcome (getRangeFromArray children i (List.length (structures opts))
                     (expectedKind opts))
  end.

(** ** The mixin: general part *)

(** The wrapper of a compiler node; the node factory hands out one wrapper
    per compiler node. *)
Definition getNodeFromCompilerNode (s : Node) : Node := s.
Definition getNodeFromCompilerNodeIfExists (s : option Node) : option Node :=
  option_map getNodeFromCompilerNode s.

(** [compilerNode.statements] read off a node or off its body: undefined
    where there is no statement list. *)
Definition compilerNodeStatements (n : Node) : option (list Node) := syntaxList n.

(** The value [getCompilerStatements()] returns.  Only the branch of the
    bodyable nodes looks whether there is a body; the other branches hand on
    what [statements] holds, which is undefined for a body without a statement
    list.  The message of the last branch ends, in the source, with the text
    of the node, which the nodes of the model do not carry. *)
Definition compilerStatementsOrUndefined : M (option (list Node)) :=
  n <- getThis ;;
  if TypeGuards.isSourceFile n || TypeGuards.isCaseClause n || TypeGuards.isDefaultClause n
  then ret (compilerNodeStatements n)
  else if TypeGuards.isNamespaceDeclaration n then ret (compilerNodeStatements n)
  else if TypeGuards.isBodyableNode n then
    match getBody n with
    | None => ret (Some [])
    | Some statements => ret (Some statements)
    end
  else if TypeGuards.isBodiedNode n then ret (compilerNodeStatements n)
  else if TypeGuards.isBlock n then ret (compilerNodeStatements n)
  else throw (NotImplemented ("Could not find the statements for node kind: "
                              ++ getSyntaxKindName (kind n))%string).

(** [this.getCompilerStatements()] as the methods of the mixin use it: each
    of them reads [length] of the array, maps over it or searches it at once,
    which throws a TypeError when the value is undefined. *)
Definition getCompilerStatements : M (list Node) :=
  statements <- compilerStatementsOrUndefined ;;
  match statements with
  | Some array => ret array
  | None => throw TypeError
  end.

Definition getStatements : M (list Node) :=
  statements <- getCompilerStatements ;;
  ret (map getNodeFromCompilerNode statements).

Definition getStatement (findFunction : Node -> bool) : M (option Node) :=
  statements <- getStatements ;;
  ret (find findFunction statements).

Definition getStatementOrThrow (findFunction : Node -> bool) : M Node :=
  statement <- getStatement findFunction ;;
  liftOutcome (throwIfNullOrUndefined statement
                 "Expected to find a statement matching the provided condition.").

Definition getStatementByKind (k : SyntaxKind.t) : M (option Node) :=
  statements <- getCompilerStatements ;;
  ret (getNodeFromCompilerNodeIfExists (find (fun s => SyntaxKind.eqb (kind s) k) statements)).

Definition getStatementByKindOrThrow (k : SyntaxKind.t) : M Node :=
  statement <- getStatementByKind k ;;
  liftOutcome (throwIfNullOrUndefined statement
                 ("Expected to find a statement with syntax kind " ++ getSyntaxKindName k ++ ".")%string).

Definition addBodyIfNotExists : M unit :=
  node <- getThis ;;
  if TypeGuards.isBodyableNode node && negb (hasBody node) then addBody else ret tt.

Definition removeStatements (indexRange : Z * Z) : M unit :=
  statements <- getStatements ;;
  liftOutcome (throwIfRangeOutOfRange indexRange (0%Z, Z.of_nat (List.length statements))) ;;;
  removeStatementedNodeChildren (slice (fst indexRange) (snd indexRange + 1) statements).

Definition removeStatement (i : Z) : M unit :=
  statements <- getCompilerStatements ;;
  i' <- liftOutcome (verifyAndGetIndex i (Z.of_nat (List.length statements) - 1)) ;;
  removeStatements (Z.of_nat i', Z.of_nat i').

Definition _insertChildren (opts : InsertChildrenOptions) : M (list Node) :=
  addBodyIfNotExists ;;;
  insertIntoBracesOrSourceFileWithGetChildren getStatements opts.

Definition newLineWanted (predicate : option (Node -> Outcome bool)) (member : Node)
  : Outcome bool :=
  match predicate with
  | None => Return false
  | Some p => p member
  end.

Definition _standardWrite (writer : CodeBlockWriter) (info : WriteInfo)
  (writeStructures : CodeBlockWriter -> CodeBlockWriter) (opts : StandardWriteOptions)
  : Outcome CodeBlockWriter :=
  let before :=
    match previousMember info with
    | Some previous =>
        match newLineWanted (previousNewLine opts) previous with
        | Throw e => Throw e
        | Return false => Return (blankLine writer)
        | Return true =>
            Return (if negb (isStartOfFile info) then newLine writer else writer)
        end
    | None => Return (if negb (isStartOfFile info) then newLine writer else writer)
    end in
  match before with
  | Throw e => Throw e
  | Return writer1 =>
      let writer2 := writeStructures writer1 in
      match nextMember info with
      | Some next =>
          match newLineWanted (nextNewLine opts) next with
          | Throw e => Throw e
          | Return false => Return (blankLine writer2)
          | Return true => Return (newLine writer2)
          end
      | None => Return (newLine writer2)
      end
  end.

(** ** Classes *)

Definition insertClasses (i : Z) (ss : list Structure) : M (list Node) :=
  n <- getThis ;;
  _insertChildren
    {| expectedKind := SyntaxKind.ClassDeclaration;
       index := i;
       structures := ss;
       writeOf := fun writer info =>
         _standardWrite writer info
           (printTexts (forClassDeclaration (isNodeAmbientOrInAmbientContext n)) ss)
           noStandardWriteOptions |}.

Definition addClasses (ss : list Structure) : M (list Node) :=
  statements <- getCompilerStatements ;;
  insertClasses (Z.of_nat (List.length statements)) ss.

(** [nodes[0]]: undefined when the array is empty. *)
Definition first {A} (nodes : list A) : M (option A) := ret (nth_error nodes 0).

Definition addClass (s : Structure) : M (option Node) :=
  nodes <- addClasses [s] ;; first nodes.

Definition insertClass (i : Z) (s : Structure) : M (option Node) :=
  nodes <- insertClasses i [s] ;; first nodes.

Definition getClasses : M (list Node) :=
  childSyntaxList <- getChildSyntaxList ;;
  match childSyntaxList with
  | None => ret []
  | Some children => ret (getChildrenOfKind SyntaxKind.ClassDeclaration children)
  end.

Definition getClass (nameOrFindFunction : NameOrFindFunction) : M (option Node) :=
  items <- getClasses ;;
  ret (getNodeByNameOrFindFunction items nameOrFindFunction).

Definition getClassOrThrow (nameOrFindFunction : NameOrFindFunction) : M Node :=
  found <- getClass nameOrFindFunction ;;
  liftOutcome (throwIfNullOrUndefined found
    (getNotFoundErrorMessageForNameOrFindFunction "class" nameOrFindFunction)).

(** ** Enums *)

Definition insertEnums (i : Z) (ss : list Structure) : M (list Node) :=
  _insertChildren
    {| expectedKind := SyntaxKind.EnumDeclaration;
       index := i;
       structures := ss;
       writeOf := fun writer info =>
         _standardWrite writer info (printTexts forEnumDeclaration ss)
           noStandardWriteOptions |}.

Definition addEnums (ss : list Structure) : M (list Node) :=
  statements <- getCompilerStatements ;;
  insertEnums (Z.of_nat (List.length statements)) ss.

Definition addEnum (s : Structure) : M (option Node) :=
  nodes <- addEnums [s] ;; first nodes.

Definition insertEnum (i : Z) (s : Structure) : M (option Node) :=
  nodes <- insertEnums i [s] ;; first nodes.

Definition getEnums : M (list Node) :=
  childSyntaxList <- getChildSyntaxList ;;
  match childSyntaxList with
  | None => ret []
  | Some children => ret (getChildrenOfKind SyntaxKind.EnumDeclaration children)
  end.

Definition getEnum (nameOrFindFunction : NameOrFindFunction) : M (option Node) :=
  items <- getEnums ;;
  ret (getNodeByNameOrFindFunction items nameOrFindFunction).

Definition getEnumOrThrow (nameOrFindFunction : NameOrFindFunction) : M Node :=
  found <- getEnum nameOrFindFunction ;;
  liftOutcome (throwIfNullOrUndefined found
    (getNotFoundErrorMessageForNameOrFindFunction "enum" nameOrFindFunction)).

(** ** Functions *)

(** [hasDeclareKeyword === true] *)
Definition isTrue (o : option bool) : bool :=
  match o with Some true => true | _ => false end.

(** Reading a property of [structures[i]] throws when there is no such
    element. *)
Definition elementAt (ss : list Structure) (i : nat) : Outcome Structure :=
  match nth_error ss i with
  | Some s => Return s
  | None => Throw TypeError
  end.

Definition functionPreviousNewLine (ss : list Structure) (previous : Node) : Outcome bool :=
  match elementAt ss 0 with
  | Throw e => Throw e
  | Return s =>
      Return (isTrue (hasDeclareKeyword s)
              && TypeGuards.isFunctionDeclaration previous
              && negb (hasBody previous))
  end.

Definition functionNextNewLine (ss : list Structure) (next : Node) : Outcome bool :=
  match elementAt ss (List.length ss - 1) with
  | Throw e => Throw e
  | Return s =>
      Return (isTrue (hasDeclareKeyword s)
              && TypeGuards.isFunctionDeclaration next
              && negb (hasBody next))
  end.

Definition functionWrite (isAmbientContext : bool) (ss : list Structure)
  (writer : CodeBlockWriter) (info : WriteInfo) : Outcome CodeBlockWriter :=
  _standardWrite writer info
    (printTexts (forFunctionDeclaration isAmbientContext) ss)
    {| previousNewLine := Some (functionPreviousNewLine ss);
       nextNewLine := Some (functionNextNewLine ss) |}.

Definition insertFunctions (i : Z) (ss : list Structure) : M (list Node) :=
  n <- getThis ;;
  _insertChildren
    {| expectedKind := SyntaxKind.FunctionDeclaration;
       index := i;
       structures := ss;
       writeOf := functionWrite (isNodeAmbientOrInAmbientContext n) ss |}.

Definition addFunctions (ss : list Structure) : M (list Node) :=
  statements <- getCompilerStatements ;;
  insertFunctions (Z.of_nat (List.length statements)) ss.

Definition addFunction (s : Structure) : M (option Node) :=
  nodes <- addFunctions [s] ;; first nodes.

Definition insertFunction (i : Z) (s : Structure) : M (option Node) :=
  nodes <- insertFunctions i [s] ;; first nodes.

Definition getFunctions : M (list Node) :=
  childSyntaxList <- getChildSyntaxList ;;
  match childSyntaxList with
  | None => ret []
  | Some children =>
      ret (filter (fun f => isAmbient f || isImplementation f)
             (getChildrenOfKind SyntaxKind.FunctionDeclaration children))
  end.

Definition getFunction (nameOrFindFunction : NameOrFindFunction) : M (option Node) :=
  items <- getFunctions ;;
  ret (getNodeByNameOrFindFunction items nameOrFindFunction).

Definition getFunctionOrThrow (nameOrFindFunction : NameOrFindFunction) : M Node :=
  found <- getFunction nameOrFindFunction ;;
  liftOutcome (throwIfNullOrUndefined found
    (getNotFoundErrorMessageForNameOrFindFunction "function" nameOrFindFunction)).

(** ** Interfaces *)

Definition insertInterfaces (i : Z) (ss : list Structure) : M (list Node) :=
  _insertChildren
    {| expectedKind := SyntaxKind.InterfaceDeclaration;
       index := i;
       structures := ss;
       writeOf := fun writer info =>
         _standardWrite writer info (printTexts forInterfaceDeclaration ss)
           noStandardWriteOptions |}.

Definition addInterfaces (ss : list Structure) : M (list Node) :=
  statements <- getCompilerStatements ;;
  insertInterfaces (Z.of_nat (List.length statements)) ss.

Definition addInterface (s : Structure) : M (option Node) :=
  nodes <- addInterfaces [s] ;; first nodes.

Definition insertInterface (i : Z) (s : Structure) : M (option Node) :=
  nodes <- insertInterfaces i [s] ;; first nodes.

Definition getInterfaces : M (list Node) :=
  childSyntaxList <- getChildSyntaxList ;;
  match childSyntaxList with
  | None => ret []
  | Some children => ret (getChildrenOfKind SyntaxKind.InterfaceDeclaration children)
  end.

Definition getInterface (nameOrFindFunction : NameOrFindFunction) : M (option Node) :=
  items <- getInterfaces ;;
  ret (getNodeByNameOrFindFunction items nameOrFindFunction).

Definition getInterfaceOrThrow (nameOrFindFunction : NameOrFindFunction) : M Node :=
  found <- getInterface nameOrFindFunction ;;
  liftOutcome (throwIfNullOrUndefined found
    (getNotFoundErrorMessageForNameOrFindFunction "interface" nameOrFindFunction)).

(** ** Namespaces *)

Definition insertNamespaces (i : Z) (ss : list Structure) : M (list Node) :=
  n <- getThis ;;
  _insertChildren
    {| expectedKind := SyntaxKind.ModuleDeclaration;
       index := i;
       structures := ss;
       writeOf := fun writer info =>
         _standardWrite writer info
           (printTexts (forNamespaceDeclaration (isNodeAmbientOrInAmbientContext n)) ss)
           noStandardWriteOptions |}.

Definition addNamespaces (ss : list Structure) : M (list Node) :=
  statements <- getCompilerStatements ;;
  insertNamespaces (Z.of_nat (List.length statements)) ss.

Definition addNamespace (s : Structure) : M (option Node) :=
  nodes <- addNamespaces [s] ;; first nodes.

Definition insertNamespace (i : Z) (s : Structure) : M (option Node) :=
  nodes <- insertNamespaces i [s] ;; first nodes.

Definition getNamespaces : M (list Node) :=
  childSyntaxList <- getChildSyntaxList ;;
  match childSyntaxList with
  | None => ret []
  | Some children => ret (getChildrenOfKind SyntaxKind.ModuleDeclaration children)
  end.

Definition getNamespace (nameOrFindFunction : NameOrFindFunction) : M (option Node) :=
  items <- getNamespaces ;;
  ret (getNodeByNameOrFindFunction items nameOrFindFunction).

Definition getNamespaceOrThrow (nameOrFindFunction : NameOrFindFunction) : M Node :=
  found <- getNamespace nameOrFindFunction ;;
  liftOutcome (throwIfNullOrUndefined found
    (getNotFoundErrorMessageForNameOrFindFunction "namespace" nameOrFindFunction)).

(** ** Type aliases *)

Definition typeAliasWrite (ss : list Structure) (writer : CodeBlockWriter) (info : WriteInfo)
  : Outcome CodeBlockWriter :=
  _standardWrite writer info (printTexts forTypeAliasDeclaration ss)
    {| previousNewLine := Some (fun previous => Return (TypeGuards.isTypeAliasDeclaration previous));
       nextNewLine := Some (fun next => Return (TypeGuards.isTypeAliasDeclaration next)) |}.

Definition insertTypeAliases (i : Z) (ss : list Structure) : M (list Node) :=
  _insertChildren
    {| expectedKind := SyntaxKind.TypeAliasDeclaration;
       index := i;
       structures := ss;
       writeOf := typeAliasWrite ss |}.

Definition addTypeAliases (ss : list Structure) : M (list Node) :=
  statements <- getCompilerStatements ;;
  insertTypeAliases (Z.of_nat (List.length statements)) ss.

Definition addTypeAlias (s : Structure) : M (option Node) :=
  nodes <- addTypeAliases [s] ;; first nodes.

Definition insertTypeAlias (i : Z) (s : Structure) : M (option Node) :=
  nodes <- insertTypeAliases i [s] ;; first nodes.

Definition getTypeAliases : M (list Node) :=
  childSyntaxList <- getChildSyntaxList ;;
  match childSyntaxList with
  | None => ret []
  | Some children => ret (getChildrenOfKind SyntaxKind.TypeAliasDeclaration children)
  end.

Definition getTypeAlias (nameOrFindFunction : NameOrFindFunction) : M (option Node) :=
  items <- getTypeAliases ;;
  ret (getNodeByNameOrFindFunction items nameOrFindFunction).

Definition getTypeAliasOrThrow (nameOrFindFunction : NameOrFindFunction) : M Node :=
  found <- getTypeAlias nameOrFindFunction ;;
  liftOutcome (throwIfNullOrUndefined found
    (getNotFoundErrorMessageForNameOrFindFunction "type alias" nameOrFindFunction)).

(** ** Variable statements and variable declarations *)

Definition getVariableStatements : M (list Node) :=
  childSyntaxList <- getChildSyntaxList ;;
  match childSyntaxList with
  | None => ret []
  | Some children => ret (getChildrenOfKind SyntaxKind.VariableStatement children)
  end.

Definition getVariableStatement (findFunction : Node -> bool) : M (option Node) :=
  items <- getVariableStatements ;;
  ret (find findFunction items).

Definition getVariableStatementOrThrow (findFunction : Node -> bool) : M Node :=
  found <- getVariableStatement findFunction ;;
  liftOutcome (throwIfNullOrUndefined found
    "Expected to find a variable statement that matched the provided condition.").

Definition variableStatementWrite (ss : list Structure) (writer : CodeBlockWriter)
  (info : WriteInfo) : Outcome CodeBlockWriter :=
  _standardWrite writer info (printTexts forVariableStatement ss)
    {| previousNewLine := Some (fun previous => Return (TypeGuards.isVariableStatement previous));
       nextNewLine := Some (fun next => Return (TypeGuards.isVariableStatement next)) |}.

Definition insertVariableStatements (i : Z) (ss : list Structure) : M (list Node) :=
  _insertChildren
    {| expectedKind := SyntaxKind.VariableStatement;
       index := i;
       structures := ss;
       writeOf := variableStatementWrite ss |}.

Definition addVariableStatements (ss : list Structure) : M (list Node) :=
  statements <- getCompilerStatements ;;
  insertVariableStatements (Z.of_nat (List.length statements)) ss.

Definition addVariableStatement (s : Structure) : M (option Node) :=
  nodes <- addVariableStatements [s] ;; first nodes.

Definition insertVariableStatement (i : Z) (s : Structure) : M (option Node) :=
  nodes <- insertVariableStatements i [s] ;; first nodes.

Definition getDeclarations (variableStatement : Node) : list Node :=
  declarations variableStatement.

Definition getVariableDeclarations : M (list Node) :=
  statements <- getVariableStatements ;;
  ret (fold_left (fun variables list => variables ++ getDeclarations list) statements []).

Definition getVariableDeclaration (nameOrFindFunction : NameOrFindFunction) : M (option Node) :=
  items <- getVariableDeclarations ;;
  ret (getNodeByNameOrFindFunction items nameOrFindFunction).

Definition getVariableDeclarationOrThrow (nameOrFindFunction : NameOrFindFunction) : M Node :=
  found <- getVariableDeclaration nameOrFindFunction ;;
  liftOutcome (throwIfNullOrUndefined found
    (getNotFoundErrorMessageForNameOrFindFunction "variable declaration" nameOrFindFunction)).

(** ** Statements as text, and [set] *)

(** The keys of [StatementedNodeStructure] and [BodiedNodeStructure].  A list
    is [None] when the key is absent, undefined or null.  For [bodyText] the
    outer option tells whether the structure has the key as its own property
    and the inner one whether its value is neither null nor undefined. *)
Record StatementedNodeStructure : Type := {
  classes : option (list Structure);
  enums : option (list Structure);
  functions : option (list Structure);
  interfaces : option (list Structure);
  namespaces : option (list Structure);
  typeAliases : option (list Structure);
  bodyText : option (option TextOrWriterFunction)
}.

Definition hasOwnBodyText (structure : StatementedNodeStructure) : bool :=
  match bodyText structure with Some _ => true | None => false end.

Definition bodyTextValue (structure : StatementedNodeStructure) : option TextOrWriterFunction :=
  match bodyText structure with Some v => v | None => None end.

(** The syntax list statements are inserted into: the container's own, or
    that of the block a case or default clause starts with. *)
Inductive SyntaxListOwner : Set := OwnSyntaxList | FirstChildBlock.

Definition childrenOfOwner (owner : SyntaxListOwner) (n : Node) : list Node :=
  match owner with
  | OwnSyntaxList => statementsOf n
  | FirstChildBlock =>
      match statementsOf n with
      | block :: _ => statementsOf block
      | [] => []
      end
  end.

Definition withChildrenOfOwner (owner : SyntaxListOwner) (n : Node) (children : list Node)
  : Node :=
  match owner with
  | OwnSyntaxList => withSyntaxList n (Some children)
  | FirstChildBlock =>
      match statementsOf n with
      | block :: rest => withSyntaxList n (Some (withSyntaxList block (Some children) :: rest))
      | [] => n
      end
  end.

Section Parser.

(** The host compiler's parser, together with the writer's rendering: the
    statements that the written text parses to. *)
Variable parseStatements : CodeBlockWriter -> list Node.

(** Modelled from the spec: [insertChildText] of the syntax list.  The index
    is validated against the number of children, the text is written and
    spliced in at the index, and the statements it parses to are the new
    children there. *)
Definition insertChildText (owner : SyntaxListOwner) (i : Z)
  (textOrWriterFunction : TextOrWriterFunction) : M (list Node) :=
  n <- getThis ;;
  let children := childrenOfOwner owner n in
  i' <- liftOutcome (verifyAndGetIndex i (Z.of_nat (List.length children))) ;;
  let text := printTextFromStringOrWriter [] textOrWriterFunction in
  let nodes := renumber (freshId children) (parseStatements text) in
  setThis (withChildrenOfOwner owner n (spliceAt i' nodes children)) ;;;
  recordInsertion {| insertIndex := i'; newText := text |} ;;;
  ret nodes.

Definition insertStatements_getChildSyntaxList : M SyntaxListOwner :=
  childSyntaxList <- getChildSyntaxListOrThrow ;;
  n <- getThis ;;
  if TypeGuards.isCaseClause n || TypeGuards.isDefaultClause n then
    match getFirstChildIfKind SyntaxKind.Block childSyntaxList with
    | Some block =>
        liftOutcome (throwIfNullOrUndefined (syntaxList block)
                       "A child syntax list was expected.") ;;;
        ret FirstChildBlock
    | None => ret OwnSyntaxList
    end
  else ret OwnSyntaxList.

Definition insertStatements (i : Z) (textOrWriterFunction : TextOrWriterFunction)
  : M (list Node) :=
  addBodyIfNotExists ;;;
  owner <- insertStatements_getChildSyntaxList ;;
  insertChildText owner i textOrWriterFunction.

Definition addStatements (textOrWriterFunction : TextOrWriterFunction) : M (list Node) :=
  statements <- getCompilerStatements ;;
  insertStatements (Z.of_nat (List.length statements)) textOrWriterFunction.

(** [set], first part: "remove the body text first if necessary". *)
Definition set_removeBodyText (structure : StatementedNodeStructure) : M unit :=
  let bodyText := bodyTextValue structure in
  n <- getThis ;;
  if TypeGuards.isBodiedNode n || TypeGuards.isBodyableNode n then
    match bodyText with
    | Some _ =>
        statements <- getCompilerStatements ;;
        let statementCount := Z.of_nat (List.length statements) in
        if (0 <? statementCount)%Z then removeStatements (0%Z, (statementCount - 1)%Z)
        else ret tt
    | None =>
        if TypeGuards.isBodyableNode n && hasOwnBodyText structure then removeBody
        else ret tt
    end
  else ret tt.

(** [set], second part: the lists of the structure, kind by kind. *)
Definition set_declarations (structure : StatementedNodeStructure) : M unit :=
  (match classes structure with
   | Some l => cs <- getClasses ;; forEach cs remove ;;; addClasses l ;;; ret tt
   | None => ret tt
   end) ;;;
  (match enums structure with
   | Some l => es <- getEnums ;; forEach es remove ;;; addEnums l ;;; ret tt
   | None => ret tt
   end) ;;;
  (match functions structure with
   | Some l => fs <- getFunctions ;; forEach fs remove ;;; addFunctions l ;;; ret tt
   | None => ret tt
   end) ;;;
  (match interfaces structure with
   | Some l => ifs <- getInterfaces ;; forEach ifs remove ;;; addInterfaces l ;;; ret tt
   | None => ret tt
   end) ;;;
  (match namespaces structure with
   | Some l => ns <- getNamespaces ;; forEach ns remove ;;; addNamespaces l ;;; ret tt
   | None => ret tt
   end) ;;;
  (match typeAliases structure with
   | Some l => ts <- getTypeAliases ;; forEach ts remove ;;; addTypeAliases l ;;; ret tt
   | None => ret tt
   end).

(** [set], last part: "set the body text after adding everything else".  The
    writer function handed to [addStatements] reads the statement count when
    it runs, after the body was ensured and before the splice; the count is
    the one read just before the call. *)
Definition set_bodyText (structure : StatementedNodeStructure) : M unit :=
  let bodyText := bodyTextValue structure in
  n <- getThis ;;
  if TypeGuards.isBodiedNode n || TypeGuards.isBodyableNode n then
    match bodyText with
    | Some text =>
        statements <- getCompilerStatements ;;
        addStatements (WriterFunction (fun writer =>
          printTextFromStringOrWriter
            (conditionalNewLine (0 <? List.length statements) writer) text)) ;;;
        ret tt
    | None => ret tt
    end
  else ret tt.

Definition set (structure : StatementedNodeStructure) : M unit :=
  set_removeBodyText structure ;;;
  callBaseSet ;;;
  set_declarations structure ;;;
  set_bodyText structure.

End Parser.

(** ** Vocabulary of the properties *)

(** The node kinds [getCompilerStatements] finds statements for. *)
Definition isStatementContainer (n : Node) : bool :=
  TypeGuards.isSourceFile n || TypeGuards.isCaseClause n || TypeGuards.isDefaultClause n
  || TypeGuards.isNamespaceDeclaration n || TypeGuards.isBodyableNode n
  || TypeGuards.isBodiedNode n || TypeGuards.isBlock n.

(** The containers whose statements can be read: a node of one of these
    kinds that holds a statement list, or is bodyable. *)
Definition canReadStatements (n : Node) : bool :=
  isStatementContainer n && (TypeGuards.isBodyableNode n || hasBody n).

(** The node [addBodyIfNotExists] leaves behind. *)
Definition ensureBody (n : Node) : Node :=
  if TypeGuards.isBodyableNode n && negb (hasBody n) then withSyntaxList n (Some []) else n.

Definition withThis (st : State) (n : Node) : State :=
  {| this := n; insertions := insertions st |}.

Fixpoint distinctIds (ids : list nat) : bool :=
  match ids with
  | [] => true
  | i :: ids' => negb (existsb (Nat.eqb i) ids') && distinctIds ids'
  end.

(** No two statements of the container are the same object. *)
Definition distinctStatements (n : Node) : bool :=
  distinctIds (map nodeId (statementsOf n)).

(** The declaration kinds that have an [insertKs] and an [addKs]. *)
Inductive DeclarationKind : Set :=
| Classes | Enums | Functions | Interfaces | Namespaces | TypeAliases | VariableStatements.

Definition syntaxKindOf (K : DeclarationKind) : SyntaxKind.t :=
  match K with
  | Classes => SyntaxKind.ClassDeclaration
  | Enums => SyntaxKind.EnumDeclaration
  | Functions => SyntaxKind.FunctionDeclaration
  | Interfaces => SyntaxKind.InterfaceDeclaration
  | Namespaces => SyntaxKind.ModuleDeclaration
  | TypeAliases => SyntaxKind.TypeAliasDeclaration
  | VariableStatements => SyntaxKind.VariableStatement
  end.

Definition insertOfKind (K : DeclarationKind) : Z -> list Structure -> M (list Node) :=
  match K with
  | Classes => insertClasses
  | Enums => insertEnums
  | Functions => insertFunctions
  | Interfaces => insertInterfaces
  | Namespaces => insertNamespaces
  | TypeAliases => insertTypeAliases
  | VariableStatements => insertVariableStatements
  end.

Definition addOfKind (K : DeclarationKind) : list Structure -> M (list Node) :=
  match K with
  | Classes => addClasses
  | Enums => addEnums
  | Functions => addFunctions
  | Interfaces => addInterfaces
  | Namespaces => addNamespaces
  | TypeAliases => addTypeAliases
  | VariableStatements => addVariableStatements
  end.

Definition getAllOfKind (K : DeclarationKind) : M (list Node) :=
  match K with
  | Classes => getClasses
  | Enums => getEnums
  | Functions => getFunctions
  | Interfaces => getInterfaces
  | Namespaces => getNamespaces
  | TypeAliases => getTypeAliases
  | VariableStatements => getVariableStatements
  end.

Definition insertOneOfKind (K : DeclarationKind) : Z -> Structure -> M (option Node) :=
  match K with
  | Classes => insertClass
  | Enums => insertEnum
  | Functions => insertFunction
  | Interfaces => insertInterface
  | Namespaces => insertNamespace
  | TypeAliases => insertTypeAlias
  | VariableStatements => insertVariableStatement
  end.

Definition addOneOfKind (K : DeclarationKind) : Structure -> M (option Node) :=
  match K with
  | Classes => addClass
  | Enums => addEnum
  | Functions => addFunction
  | Interfaces => addInterface
  | Namespaces => addNamespace
  | TypeAliases => addTypeAlias
  | VariableStatements => addVariableStatement
  end.

(** The write callback [insertKs] hands to [_insertChildren]. *)
Definition writeOfKind (K : DeclarationKind) (n : Node) (ss : list Structure)
  : CodeBlockWriter -> WriteInfo -> Outcome CodeBlockWriter :=
  match K with
  | Classes => fun writer info =>
      _standardWrite writer info
        (printTexts (forClassDeclaration (isNodeAmbientOrInAmbientContext n)) ss)
        noStandardWriteOptions
  | Enums => fun writer info =>
      _standardWrite writer info (printTexts forEnumDeclaration ss) noStandardWriteOptions
  | Functions => functionWrite (isNodeAmbientOrInAmbientContext n) ss
  | Interfaces => fun writer info =>
      _standardWrite writer info (printTexts forInterfaceDeclaration ss) noStandardWriteOptions
  | Namespaces => fun writer info =>
      _standardWrite writer info
        (printTexts (forNamespaceDeclaration (isNodeAmbientOrInAmbientContext n)) ss)
        noStandardWriteOptions
  | TypeAliases => typeAliasWrite ss
  | VariableStatements => variableStatementWrite ss
  end.

Definition printerOfKind (K : DeclarationKind) (n : Node) : StructurePrinter :=
  match K with
  | Classes => forClassDeclaration (isNodeAmbientOrInAmbientContext n)
  | Enums => forEnumDeclaration
  | Functions => forFunctionDeclaration (isNodeAmbientOrInAmbientContext n)
  | Interfaces => forInterfaceDeclaration
  | Namespaces => forNamespaceDeclaration (isNodeAmbientOrInAmbientContext n)
  | TypeAliases => forTypeAliasDeclaration
  | VariableStatements => forVariableStatement
  end.

(** The kinds whose [insertKs] passes no options to [_standardWrite]. *)
Definition hasNoNewLinePredicate (K : DeclarationKind) : bool :=
  match K with
  | Classes | Enums | Interfaces | Namespaces => true
  | _ => false
  end.

(** The statements [getKs] returns: the direct children of the kind and,
    for functions, only the ambient ones and the implementations. *)
Definition visibleOfKind (K : DeclarationKind) (n : Node) : bool :=
  TypeGuards.isKind (syntaxKindOf K) n
  && match K with
     | Functions => isAmbient n || isImplementation n
     | _ => true
     end.

(** The kinds that have a [getK] and a [getKOrThrow] taking a name or a
    find function. *)
Inductive LookupKind : Set :=
| AClass | AnEnum | AFunction | AnInterface | ANamespace | ATypeAlias | AVariableDeclaration.

Definition getItemsOfKind (K : LookupKind) : M (list Node) :=
  match K with
  | AClass => getClasses
  | AnEnum => getEnums
  | AFunction => getFunctions
  | AnInterface => getInterfaces
  | ANamespace => getNamespaces
  | ATypeAlias => getTypeAliases
  | AVariableDeclaration => getVariableDeclarations
  end.

Definition getOfKind (K : LookupKind) : NameOrFindFunction -> M (option Node) :=
  match K with
  | AClass => getClass
  | AnEnum => getEnum
  | AFunction => getFunction
  | AnInterface => getInterface
  | ANamespace => getNamespace
  | ATypeAlias => getTypeAlias
  | AVariableDeclaration => getVariableDeclaration
  end.

Definition getOfKindOrThrow (K : LookupKind) : NameOrFindFunction -> M Node :=
  match K with
  | AClass => getClassOrThrow
  | AnEnum => getEnumOrThrow
  | AFunction => getFunctionOrThrow
  | AnInterface => getInterfaceOrThrow
  | ANamespace => getNamespaceOrThrow
  | ATypeAlias => getTypeAliasOrThrow
  | AVariableDeclaration => getVariableDeclarationOrThrow
  end.

Definition findNameOf (K : LookupKind) : string :=
  match K with
  | AClass => "class"
  | AnEnum => "enum"
  | AFunction => "function"
  | AnInterface => "interface"
  | ANamespace => "namespace"
  | ATypeAlias => "type alias"
  | AVariableDeclaration => "variable declaration"
  end%string.

(** The declaration kind whose [getKs] a lookup searches; variable
    declarations are gathered from the variable statements instead. *)
Definition declarationKindOf (K : LookupKind) : option DeclarationKind :=
  match K with
  | AClass => Some Classes
  | AnEnum => Some Enums
  | AFunction => Some Functions
  | AnInterface => Some Interfaces
  | ANamespace => Some Namespaces
  | ATypeAlias => Some TypeAliases
  | AVariableDeclaration => None
  end.

(** A node matches a name when it is its declared name, and a find function
    when the function accepts it. *)
Definition matchesNameOrFindFunction (x : NameOrFindFunction) (n : Node) : bool :=
  match x with
  | Name s => match name n with Some m => String.eqb m s | None => false end
  | FindFunction f => f n
  end.

(** The leading and trailing writer call of [_standardWrite] without options. *)
Definition standardLeading (info : WriteInfo) (writer : CodeBlockWriter) : CodeBlockWriter :=
  match previousMember info with
  | Some _ => blankLine writer
  | None => if isStartOfFile info then writer else newLine writer
  end.

Definition standardTrailing (info : WriteInfo) (writer : CodeBlockWriter) : CodeBlockWriter :=
  match nextMember info with
  | Some _ => blankLine writer
  | None => newLine writer
  end.




(** A container whose statements can be read, that has a body unless it is
    bodyable, and whose statements are distinct objects. *)
Definition wellFormedContainer (n : Node) : bool :=
  isStatementContainer n && (TypeGuards.isBodyableNode n || hasBody n)
  && distinctStatements n.

(** The state in which the statement list, where there is one, went through
    [f]. *)
Definition mapStatements (f : list Node -> list Node) (st : State) : State :=
  withThis st (withSyntaxList (this st) (option_map f (syntaxList (this st)))).

(** The list of a structure for a kind; there is none for variable
    statements. *)
Definition listOf (structure : StatementedNodeStructure) (K : DeclarationKind)
  : option (list Structure) :=
  match K with
  | Classes => classes structure
  | Enums => enums structure
  | Functions => functions structure
  | Interfaces => interfaces structure
  | Namespaces => namespaces structure
  | TypeAliases => typeAliases structure
  | VariableStatements => None
  end.

(** The statements after one kind was reconciled: without a list they are
    the same; with a list, what [getKs] returned is gone and the declarations
    of the list stand at the end. *)
Definition reconcileKind (parent : Node) (structure : StatementedNodeStructure)
  (statements : list Node) (K : DeclarationKind) : list Node :=
  match listOf structure K with
  | None => statements
  | Some ss =>
      let kept := filter (fun n => negb (visibleOfKind K n)) statements in
      kept ++ declarationsOf parent (syntaxKindOf K) (freshId kept) ss
  end.

Definition kindsInOrder : list DeclarationKind :=
  [Classes; Enums; Functions; Interfaces; Namespaces; TypeAliases].

Definition reconcileAll (parent : Node) (structure : StatementedNodeStructure)
  (statements : list Node) : list Node :=
  fold_left (reconcileKind parent structure) kindsInOrder statements.

(** Whether [set] empties or removes the body before anything else. *)
Definition clearsBody (structure : StatementedNodeStructure) (n : Node) : bool :=
  (TypeGuards.isBodiedNode n || TypeGuards.isBodyableNode n)
  && match bodyTextValue structure with
     | Some _ => true
     | None => TypeGuards.isBodyableNode n && hasOwnBodyText structure
     end.

(** The container after the first part of [set]. *)
Definition afterBodyTextRemoval (structure : StatementedNodeStructure) (n : Node) : Node :=
  if TypeGuards.isBodiedNode n || TypeGuards.isBodyableNode n then
    match bodyTextValue structure with
    | Some _ => if 0 <? List.length (statementsOf n) then withSyntaxList n (Some []) else n
    | None =>
        if TypeGuards.isBodyableNode n && hasOwnBodyText structure
        then withSyntaxList n None else n
    end
  else n.

(** The statements the last part of [set] appends after the given ones. *)
Definition bodyStatements (parseStatements : CodeBlockWriter -> list Node)
  (structure : StatementedNodeStructure) (n : Node) (statements : list Node) : list Node :=
  if TypeGuards.isBodiedNode n || TypeGuards.isBodyableNode n then
    match bodyTextValue structure with
    | Some text =>
        renumber (freshId statements)
          (parseStatements
             (printTextFromStringOrWriter
                [ConditionalNewLine (0 <? List.length statements)] text))
    | None => []
    end
  else [].

(** The same container node, apart from its statements; a body that was
    there still is. *)
Definition sameContainer (n n' : Node) : Prop :=
  kind n' = kind n /\ ambient n' = ambient n
  /\ (TypeGuards.isBodyableNode n || hasBody n = true -> TypeGuards.isBodyableNode n' || hasBody n' = true).

(** What [set] does for one kind. *)
Definition reconcileBlock (structure : StatementedNodeStructure) (K : DeclarationKind)
  : M unit :=
  match listOf structure K with
  | Some l => items <- getAllOfKind K ;; forEach items remove ;;; addOfKind K l ;;; ret tt
  | None => ret tt
  end.

(** ** Example containers *)

Definition structureNamed (s : string) : Structure :=
  {| sname := Some s; hasDeclareKeyword := None |}.


Definition sourceFileOf (statements : list Node) : State :=
  {| this := mkNode 0 SyntaxKind.SourceFile None false (Some statements) [];
     insertions := [] |}.


(** [function f(): void;], an overload signature on its own *)
Definition overloadSignatureF : Node :=
  mkNode 1 SyntaxKind.FunctionDeclaration (Some "f"%string) false None [].

(** [class A {}] *)
Definition classA : Node :=
  mkNode 1 SyntaxKind.ClassDeclaration (Some "A"%string) false (Some []) [].

(** [x;] *)
Definition expressionX : Node :=
  mkNode 2 SyntaxKind.ExpressionStatement None false None [].

(** [function h() { class A {} x; }] *)
Definition functionWithBody : State :=
  {| this := mkNode 0 SyntaxKind.FunctionDeclaration (Some "h"%string) false
               (Some [classA; expressionX]) [];
     insertions := [] |}.

(** [function h();], a function declaration without a body *)
Definition functionWithoutBody : State :=
  {| this := mkNode 0 SyntaxKind.FunctionDeclaration (Some "h"%string) false None [];
     insertions := [] |}.

(** A structure with a body text and no list. *)
Definition bodyTextOnly (text : string) : StatementedNodeStructure :=
  {| classes := None; enums := None; functions := None; interfaces := None;
     namespaces := None; typeAliases := None; bodyText := Some (Some (Text text)) |}.

(** A structure with a list of classes and nothing else. *)
Definition classesOnly (l : list Structure) : StatementedNodeStructure :=
  {| classes := Some l; enums := None; functions := None; interfaces := None;
     namespaces := None; typeAliases := None; bodyText := None |}.

(** A structure with a list of functions and nothing else. *)
Definition functionsOnly (l : list Structure) : StatementedNodeStructure :=
  {| classes := None; enums := None; functions := Some l; interfaces := None;
     namespaces := None; typeAliases := None; bodyText := None |}.

(** [return;] *)
Definition returnStatement : Node :=
  mkNode 3 SyntaxKind.ReturnStatement None false None [].

(** A parser that finds one expression statement in any text. *)
Definition oneStatementParser (text : CodeBlockWriter) : list Node :=
  [mkNode 0 SyntaxKind.ExpressionStatement None false None []].

(** ** Vocabulary of the further properties *)

(** Whether [insertStatements] inserts into the block a case or default
    clause starts with, instead of the clause's own statements. *)
Definition insertsIntoBlock (n : Node) : bool :=
  (TypeGuards.isCaseClause n || TypeGuards.isDefaultClause n)
  && match statementsOf n with
     | first :: _ => TypeGuards.isBlock first
     | [] => false
     end.

(** The kinds whose [insertKs] asks for a single new line next to a member
    of the same kind. *)
Definition joinsSameKind (K : DeclarationKind) : bool :=
  match K with
  | TypeAliases | VariableStatements => true
  | _ => false
  end.

(** The structure without its [bodyText] key. *)
Definition withoutBodyText (structure : StatementedNodeStructure) : StatementedNodeStructure :=
  {| classes := classes structure; enums := enums structure;
     functions := functions structure; interfaces := interfaces structure;
     namespaces := namespaces structure; typeAliases := typeAliases structure;
     bodyText := None |}.

(** A structure whose only key is [bodyText], with the value undefined. *)
Definition bodyTextUndefined : StatementedNodeStructure :=
  {| classes := None; enums := None; functions := None; interfaces := None;
     namespaces := None; typeAliases := None; bodyText := Some None |}.

(** [class C { }] taken as a container: a node kind the mixin finds no
    statements for. *)
Definition classAsContainer : State :=
  {| this := mkNode 0 SyntaxKind.ClassDeclaration (Some "C"%string) false (Some []) [];
     insertions := [] |}.

(** [type T = number;] *)
Definition typeAliasT : Node :=
  mkNode 1 SyntaxKind.TypeAliasDeclaration (Some "T"%string) false None [].

(** [const a = 1, b = 2;] *)
Definition variableStatementAB : Node :=
  mkNode 2 SyntaxKind.VariableStatement None false None
    [mkNode 0 SyntaxKind.VariableDeclaration (Some "a"%string) false None [];
     mkNode 0 SyntaxKind.VariableDeclaration (Some "b"%string) false None []].

(** [case 1: { x; }] *)
Definition caseClauseWithBlock : State :=
  {| this := mkNode 0 SyntaxKind.CaseClause None false
               (Some [mkNode 1 SyntaxKind.Block None false (Some [expressionX]) []]) [];
     insertions := [] |}.

(** [() => 5], an arrow function whose body is an expression *)
Definition arrowFunctionWithExpressionBody : State :=
  {| this := mkNode 0 SyntaxKind.ArrowFunction None false None [];
     insertions := [] |}.

(** [case 1: { }] *)
Definition caseClauseWithEmptyBlock : State :=
  {| this := mkNode 0 SyntaxKind.CaseClause None false
               (Some [mkNode 1 SyntaxKind.Block None false (Some []) []]) [];
     insertions := [] |}.

(** * Properties *)

(** ** Running the monad *)

Ltac run :=
  unfold bind, ret, throw, getThis, setThis, liftOutcome, recordInsertion, when; simpl.

Lemma bind_Return {A B} {m : M A} (k : A -> M B) {st a st'} :
  m st = (Return a, st') -> bind m k st = k a st'.
Proof. intros H. unfold bind. rewrite H. reflexivity. Qed.

Lemma bind_Throw {A B} {m : M A} (k : A -> M B) {st e st'} :
  m st = (Throw e, st') -> bind m k st = (Throw e, st').
Proof. intros H. unfold bind. rewrite H. reflexivity. Qed.

Lemma isKind_true k n : TypeGuards.isKind k n = true <-> kind n = k.
Proof.
  unfold TypeGuards.isKind, SyntaxKind.eqb.
  destruct (SyntaxKind.eq_dec (kind n) k); split; congruence.
Qed.

(** ** Reads *)

Lemma canReadStatements_iff n :
  canReadStatements n = true
  <-> isStatementContainer n = true /\ TypeGuards.isBodyableNode n || hasBody n = true.
Proof. unfold canReadStatements. apply andb_true_iff. Qed.

Lemma getCompilerStatements_container st :
  canReadStatements (this st) = true ->
  getCompilerStatements st = (Return (statementsOf (this st)), st).
Proof.
  destruct st as [[id k nm amb sl ds] ins].
  destruct k, sl; simpl; try discriminate; intros _; reflexivity.
Qed.

Lemma getCompilerStatements_other st :
  isStatementContainer (this st) = false ->
  exists message, getCompilerStatements st = (Throw (NotImplemented message), st).
Proof.
  destruct st as [[id k nm amb sl ds] ins]. unfold isStatementContainer.
  destruct k; simpl; try discriminate; intros _;
    unfold getCompilerStatements, compilerStatementsOrUndefined; run; eexists; reflexivity.
Qed.

(** On a node of a known kind that holds no statement list and is not
    bodyable, the statements are undefined and their use throws. *)
Lemma getCompilerStatements_undefined st :
  isStatementContainer (this st) = true ->
  canReadStatements (this st) = false ->
  getCompilerStatements st = (Throw TypeError, st).
Proof.
  destruct st as [[id k nm amb sl ds] ins].
  destruct k, sl; simpl; try discriminate; intros _ _; reflexivity.
Qed.

Lemma getStatements_container st :
  canReadStatements (this st) = true ->
  getStatements st = (Return (statementsOf (this st)), st).
Proof.
  intros H. unfold getStatements.
  rewrite (bind_Return _ (getCompilerStatements_container st H)).
  unfold ret, getNodeFromCompilerNode. rewrite map_id. reflexivity.
Qed.

Lemma getStatements_other st :
  isStatementContainer (this st) = false ->
  exists message, getStatements st = (Throw (NotImplemented message), st).
Proof.
  intros H. destruct (getCompilerStatements_other st H) as [m Hm].
  exists m. unfold getStatements. apply bind_Throw. exact Hm.
Qed.

Lemma getAllOfKind_filter K st :
  getAllOfKind K st = (Return (filter (visibleOfKind K) (statementsOf (this st))), st).
Proof.
  unfold statementsOf.
  destruct K; simpl;
    unfold getClasses, getEnums, getFunctions, getInterfaces, getNamespaces,
      getTypeAliases, getVariableStatements, getChildSyntaxList; run;
    destruct (syntaxList (this st)) as [l|]; simpl; try reflexivity;
    unfold getChildrenOfKind, visibleOfKind; simpl;
    try (do 2 f_equal; apply filter_ext; intros a; rewrite andb_true_r; reflexivity).
  do 2 f_equal. induction l as [|a l IH]; simpl; [reflexivity|].
  destruct (TypeGuards.isKind SyntaxKind.FunctionDeclaration a); simpl.
  - destruct (isAmbient a || isImplementation a); rewrite IH; reflexivity.
  - exact IH.
Qed.

(** ** Claim C5: adding is inserting at the statement count *)

(** C5. For each of the seven declaration kinds, [addKs] is [insertKs] at the
    number of statements [getCompilerStatements] returns, [addK] is [insertK]
    at that number, and [addStatements] is [insertStatements] at that number:
    the two calls have the same outcome (the declarations returned, or the
    error) and leave the same state (the statements and the text spliced in).
    Where the statement count cannot be read, [addKs] throws the error of that
    read and changes nothing. *)
Theorem C5_add_is_insert_at_count (parseStatements : CodeBlockWriter -> list Node)
  (st : State) :
  match getCompilerStatements st with
  | (Return statements, _) =>
      (forall K ss,
          addOfKind K ss st = insertOfKind K (Z.of_nat (List.length statements)) ss st)
      /\ (forall K s,
          addOneOfKind K s st = insertOneOfKind K (Z.of_nat (List.length statements)) s st)
      /\ (forall text,
          addStatements parseStatements text st
          = insertStatements parseStatements (Z.of_nat (List.length statements)) text st)
      /\ statements = statementsOf (this st)
  | (Throw e, _) =>
      (forall K ss, addOfKind K ss st = (Throw e, st))
      /\ (forall text, addStatements parseStatements text st = (Throw e, st))
  end.
Proof.
  assert (Hthrow : forall e, getCompilerStatements st = (Throw e, st) ->
    (forall K ss, addOfKind K ss st = (Throw e, st))
    /\ (forall text, addStatements parseStatements text st = (Throw e, st))).
  { intros e H. split; [intros K ss | intros text].
    - destruct K; simpl;
        unfold addClasses, addEnums, addFunctions, addInterfaces, addNamespaces,
          addTypeAliases, addVariableStatements;
        apply bind_Throw; exact H.
    - unfold addStatements. apply bind_Throw. exact H. }
  destruct (canReadStatements (this st)) eqn:E.
  - pose proof (getCompilerStatements_container st E) as H. rewrite H.
    assert (Hadd : forall K ss,
      addOfKind K ss st
      = insertOfKind K (Z.of_nat (List.length (statementsOf (this st)))) ss st).
    { intros K ss. destruct K; simpl;
        unfold addClasses, addEnums, addFunctions, addInterfaces, addNamespaces,
          addTypeAliases, addVariableStatements;
        rewrite (bind_Return _ H); reflexivity. }
    split; [|split; [|split]]; [exact Hadd | intros K s | intros text | reflexivity].
    + destruct K; simpl;
        unfold addClass, addEnum, addFunction, addInterface, addNamespace, addTypeAlias,
          addVariableStatement, insertClass, insertEnum, insertFunction, insertInterface,
          insertNamespace, insertTypeAlias, insertVariableStatement, bind;
        first [ rewrite (Hadd Classes [s] : addClasses [s] st = _)
              | rewrite (Hadd Enums [s] : addEnums [s] st = _)
              | rewrite (Hadd Functions [s] : addFunctions [s] st = _)
              | rewrite (Hadd Interfaces [s] : addInterfaces [s] st = _)
              | rewrite (Hadd Namespaces [s] : addNamespaces [s] st = _)
              | rewrite (Hadd TypeAliases [s] : addTypeAliases [s] st = _)
              | rewrite (Hadd VariableStatements [s] : addVariableStatements [s] st = _) ];
        reflexivity.
    + unfold addStatements. rewrite (bind_Return _ H). reflexivity.
  - destruct (isStatementContainer (this st)) eqn:Ec.
    + pose proof (getCompilerStatements_undefined st Ec E) as H. rewrite H.
      apply Hthrow. exact H.
    + destruct (getCompilerStatements_other st Ec) as [m H]. rewrite H.
      apply Hthrow. exact H.
Qed.

(** ** Claim C6: the functions a container shows *)

(** C6. [getFunctions] changes nothing and returns, in statement order,
    exactly the direct children that are function declarations and are
    ambient or have a body.  So a function declaration that is neither
    ambient nor bodied is left out, and an ambient one without a body and a
    bodied one that is not ambient are both returned. *)
Theorem C6_getFunctions_ambient_or_implementation (st : State) :
  exists fs,
    getFunctions st = (Return fs, st)
    /\ fs = filter (fun f => isAmbient f || isImplementation f)
              (filter TypeGuards.isFunctionDeclaration (statementsOf (this st)))
    /\ (forall f, In f fs <->
                  In f (statementsOf (this st))
                  /\ kind f = SyntaxKind.FunctionDeclaration
                  /\ (isAmbient f = true \/ hasBody f = true))
    /\ (forall f, In f (statementsOf (this st)) ->
                  kind f = SyntaxKind.FunctionDeclaration ->
                  ((isAmbient f = false /\ hasBody f = false -> ~ In f fs)
                   /\ (isAmbient f = true /\ hasBody f = false -> In f fs)
                   /\ (isAmbient f = false /\ hasBody f = true -> In f fs))).
Proof.
  assert (Hin : forall f,
    In f (filter (fun f => isAmbient f || isImplementation f)
            (filter TypeGuards.isFunctionDeclaration (statementsOf (this st)))) <->
    In f (statementsOf (this st)) /\ kind f = SyntaxKind.FunctionDeclaration
    /\ (isAmbient f = true \/ hasBody f = true)).
  { intros f. rewrite !filter_In. unfold TypeGuards.isFunctionDeclaration.
    rewrite isKind_true, orb_true_iff. unfold isImplementation. tauto. }
  eexists. split; [|split; [reflexivity|split]].
  - unfold getFunctions, getChildSyntaxList, statementsOf. run.
    destruct (syntaxList (this st)); reflexivity.
  - exact Hin.
  - intros f Hf Hk. repeat split.
    + intros [Ha Hb] Hc. apply Hin in Hc. destruct Hc as (_ & _ & [Hc|Hc]); congruence.
    + intros [Ha Hb]. apply Hin. tauto.
    + intros [Ha Hb]. apply Hin. tauto.
Qed.

(** ** Claim C9: separators of the kinds without a predicate *)

Lemma standardWrite_noOptions writer info writeStructures :
  _standardWrite writer info writeStructures noStandardWriteOptions
  = Return (standardTrailing info (writeStructures (standardLeading info writer))).
Proof.
  unfold _standardWrite, standardLeading, standardTrailing. simpl.
  destruct (previousMember info), (nextMember info), (isStartOfFile info); reflexivity.
Qed.

(** ** The body of a bodyable container *)

Lemma isStatementContainer_kind a b :
  kind a = kind b -> isStatementContainer a = isStatementContainer b.
Proof.
  intros H. unfold isStatementContainer, TypeGuards.isSourceFile, TypeGuards.isCaseClause,
    TypeGuards.isDefaultClause, TypeGuards.isNamespaceDeclaration, TypeGuards.isBlock,
    TypeGuards.isBodyableNode, TypeGuards.isBodiedNode, TypeGuards.isKind.
  rewrite H. reflexivity.
Qed.

Lemma bodyable_canReadStatements n :
  TypeGuards.isBodyableNode n = true -> canReadStatements n = true.
Proof.
  intros H. unfold canReadStatements, isStatementContainer. rewrite H.
  rewrite !orb_true_r. reflexivity.
Qed.

Lemma statements_canReadStatements n :
  isStatementContainer n = true -> statementsOf n <> [] -> canReadStatements n = true.
Proof.
  intros Hc Hs. unfold canReadStatements, hasBody, getBody. rewrite Hc.
  unfold statementsOf in Hs. destruct (syntaxList n); [apply orb_true_r | congruence].
Qed.

Lemma canReadStatements_withSyntaxList n l :
  isStatementContainer n = true -> canReadStatements (withSyntaxList n (Some l)) = true.
Proof.
  intros H. unfold canReadStatements.
  rewrite (isStatementContainer_kind _ n) by reflexivity. rewrite H. apply orb_true_r.
Qed.

Lemma ensureBody_kind n : kind (ensureBody n) = kind n.
Proof. unfold ensureBody. destruct (_ && _); reflexivity. Qed.

Lemma ensureBody_ambient n : ambient (ensureBody n) = ambient n.
Proof. unfold ensureBody. destruct (_ && _); reflexivity. Qed.

Lemma ensureBody_statementsOf n : statementsOf (ensureBody n) = statementsOf n.
Proof.
  destruct n as [id k nm amb [l|] ds]; unfold ensureBody, hasBody, getBody, statementsOf;
    simpl; destruct (TypeGuards.isBodyableNode _); reflexivity.
Qed.

Lemma withSyntaxList_ensureBody n l : withSyntaxList (ensureBody n) l = withSyntaxList n l.
Proof. unfold ensureBody. destruct (_ && _); reflexivity. Qed.

Lemma ensureBody_hasBody n :
  TypeGuards.isBodyableNode n = true -> hasBody (ensureBody n) = true.
Proof.
  intros H. unfold ensureBody. rewrite H.
  destruct (hasBody n) eqn:E; simpl; [exact E | reflexivity].
Qed.

Lemma addBodyIfNotExists_run st :
  addBodyIfNotExists st = (Return tt, withThis st (ensureBody (this st))).
Proof.
  unfold addBodyIfNotExists, ensureBody, addBody, withThis. run.
  destruct (TypeGuards.isBodyableNode (this st) && negb (hasBody (this st)));
    [reflexivity | destruct st; reflexivity].
Qed.

(** ** Lists: declarations of structures and splices *)

Lemma statementsOf_withSyntaxList n l : statementsOf (withSyntaxList n (Some l)) = l.
Proof. reflexivity. Qed.

Lemma declarationsOf_length p k id ss :
  List.length (declarationsOf p k id ss) = List.length ss.
Proof. revert id. induction ss as [|s ss IH]; intros id; simpl; [|rewrite IH]; reflexivity. Qed.

Lemma declarationsOf_nth p k ss : forall id j,
  nth_error (declarationsOf p k id ss) j
  = option_map (declarationOf p k (id + j)) (nth_error ss j).
Proof.
  induction ss as [|s ss IH]; intros id j; destruct j as [|j]; simpl; try reflexivity.
  - rewrite Nat.add_0_r. reflexivity.
  - rewrite IH. rewrite Nat.add_succ_r. reflexivity.
Qed.

Lemma declarationOf_parent p q k id s :
  ambient p = ambient q -> declarationOf p k id s = declarationOf q k id s.
Proof. intros H. unfold declarationOf, isNodeAmbientOrInAmbientContext. rewrite H. reflexivity. Qed.

Lemma declarationsOf_parent p q k ss :
  ambient p = ambient q -> forall id, declarationsOf p k id ss = declarationsOf q k id ss.
Proof.
  intros H. induction ss as [|s ss IH]; intros id; simpl; [reflexivity|].
  rewrite IH, (declarationOf_parent p q k id s H). reflexivity.
Qed.

Lemma spliceAt_length i (nodes children : list Node) :
  List.length (spliceAt i nodes children) = List.length children + List.length nodes.
Proof.
  unfold spliceAt. rewrite !length_app.
  rewrite <- (firstn_skipn i children) at 3. rewrite length_app. lia.
Qed.

Lemma spliceAt_before i (nodes children : list Node) j :
  j < i -> i <= List.length children ->
  nth_error (spliceAt i nodes children) j = nth_error children j.
Proof.
  intros Hj Hi. unfold spliceAt.
  rewrite nth_error_app1 by (rewrite length_firstn; lia).
  rewrite nth_error_firstn.
  destruct (Nat.ltb_spec j i); [reflexivity | lia].
Qed.

Lemma spliceAt_inserted i (nodes children : list Node) j :
  i <= List.length children ->
  nth_error (spliceAt i nodes children) (i + j)
  = if j <? List.length nodes then nth_error nodes j
    else nth_error children (i + j - List.length nodes).
Proof.
  intros Hi. unfold spliceAt.
  rewrite nth_error_app2 by (rewrite length_firstn; lia).
  rewrite length_firstn, Nat.min_l by assumption.
  replace (i + j - i) with j by lia.
  destruct (j <? List.length nodes) eqn:E.
  - apply Nat.ltb_lt in E. apply nth_error_app1. assumption.
  - apply Nat.ltb_ge in E. rewrite nth_error_app2 by assumption.
    rewrite nth_error_skipn. f_equal. lia.
Qed.

Lemma spliceAt_after i (nodes children : list Node) j :
  i <= j -> i <= List.length children ->
  nth_error (spliceAt i nodes children) (j + List.length nodes) = nth_error children j.
Proof.
  intros Hj Hi.
  replace (j + List.length nodes) with (i + (j - i + List.length nodes)) by lia.
  rewrite spliceAt_inserted by assumption.
  replace (j - i + List.length nodes <? List.length nodes) with false
    by (symmetry; apply Nat.ltb_ge; lia).
  f_equal. lia.
Qed.

(** ** The insertion engine on a valid request *)

Lemma verifyAndGetIndex_valid i m :
  (0 <= i <= m)%Z -> verifyAndGetIndex i m = Return (Z.to_nat i).
Proof.
  intros H. unfold verifyAndGetIndex.
  assert (E0 : (i <? 0)%Z = false) by (apply Z.ltb_ge; lia).
  assert (E1 : (m <? i)%Z = false) by (apply Z.ltb_ge; lia).
  rewrite E0. cbv zeta. rewrite E0, E1. reflexivity.
Qed.

Lemma writeInfoAt_parent p q children i :
  kind p = kind q -> writeInfoAt p children i = writeInfoAt q children i.
Proof.
  intros H. unfold writeInfoAt, TypeGuards.isSourceFile, TypeGuards.isKind.
  rewrite H. reflexivity.
Qed.

Lemma verifyAndGetIndex_le index m i :
  verifyAndGetIndex index (Z.of_nat m) = Return i -> i <= m.
Proof.
  unfold verifyAndGetIndex.
  set (newIndex := if (index <? 0)%Z then (Z.of_nat m + 1 + index)%Z else index).
  destruct (Z.ltb_spec newIndex 0) as [H0|H0]; [discriminate|].
  destruct (Z.ltb_spec (Z.of_nat m) newIndex) as [H1|H1]; [discriminate|].
  simpl. intros H. injection H as <-. lia.
Qed.

Lemma ensureBody_canReadStatements n :
  canReadStatements n = true ->
  canReadStatements (ensureBody n) = true /\ hasBody (ensureBody n) = true.
Proof.
  intros H. apply canReadStatements_iff in H. destruct H as [Hc Hb].
  unfold ensureBody.
  destruct (TypeGuards.isBodyableNode n) eqn:E1; destruct (hasBody n) eqn:E2;
    try discriminate; simpl.
  - split; [|exact E2]. apply canReadStatements_iff. rewrite Hc, E2, orb_true_r. auto.
  - split; [|reflexivity]. apply canReadStatements_withSyntaxList. exact Hc.
  - split; [|exact E2]. apply canReadStatements_iff. rewrite Hc, E2, orb_true_r. auto.
Qed.

Lemma getChildSyntaxListOrThrow_body st :
  hasBody (this st) = true ->
  getChildSyntaxListOrThrow st = (Return (statementsOf (this st)), st).
Proof.
  unfold getChildSyntaxListOrThrow, hasBody, getBody, statementsOf. run.
  destruct (syntaxList (this st)); [reflexivity | discriminate].
Qed.

Lemma declarationsWritten_parent p q :
  ambient p = ambient q ->
  forall text id, declarationsWritten p id text = declarationsWritten q id text.
Proof.
  intros H text. induction text as [|c text IH]; intros id; simpl; [reflexivity|].
  destruct c; try apply IH.
  rewrite IH, (declarationsOf_parent p q _ _ H). reflexivity.
Qed.

Lemma forallb_declarationsOf p k ss : forall id,
  forallb (TypeGuards.isKind k) (declarationsOf p k id ss) = true.
Proof.
  induction ss as [|s ss IH]; intros id; simpl; [reflexivity|].
  rewrite IH, andb_true_r. apply isKind_true. reflexivity.
Qed.

Lemma range_of_spliceAt i (nodes children : list Node) :
  i <= List.length children ->
  firstn (List.length nodes) (skipn i (spliceAt i nodes children)) = nodes.
Proof.
  intros Hi. unfold spliceAt.
  rewrite skipn_app, length_firstn, (Nat.min_l _ _ Hi), Nat.sub_diag.
  rewrite skipn_all2 by (rewrite length_firstn; lia). simpl.
  rewrite firstn_app, Nat.sub_diag, firstn_all. simpl. apply app_nil_r.
Qed.

Lemma getRangeFromArray_inserted p k id ss i children :
  i <= List.length children ->
  getRangeFromArray (spliceAt i (declarationsOf p k id ss) children) i (List.length ss) k
  = Return (declarationsOf p k id ss).
Proof.
  intros Hi. unfold getRangeFromArray.
  assert (Hr : firstn (List.length ss)
                 (skipn i (spliceAt i (declarationsOf p k id ss) children))
               = declarationsOf p k id ss).
  { rewrite <- (declarationsOf_length p k id ss) at 1. apply range_of_spliceAt. exact Hi. }
  cbv zeta. rewrite Hr, declarationsOf_length, Nat.eqb_refl, forallb_declarationsOf.
  reflexivity.
Qed.

Lemma insertChildren_run opts st i text :
  canReadStatements (this st) = true ->
  structures opts <> [] ->
  verifyAndGetIndex (index opts) (Z.of_nat (List.length (statementsOf (this st)))) = Return i ->
  writeOf opts [] (writeInfoAt (this st) (statementsOf (this st)) i) = Return text ->
  declarationsWritten (this st) (freshId (statementsOf (this st))) text
  = declarationsOf (this st) (expectedKind opts)
      (freshId (statementsOf (this st))) (structures opts) ->
  _insertChildren opts st
  = (Return (declarationsOf (this st) (expectedKind opts)
               (freshId (statementsOf (this st))) (structures opts)),
     {| this := withSyntaxList (this st)
                  (Some (spliceAt i
                           (declarationsOf (this st) (expectedKind opts)
                              (freshId (statementsOf (this st))) (structures opts))
                           (statementsOf (this st))));
        insertions := insertions st ++ [{| insertIndex := i; newText := text |}] |}).
Proof.
  intros Hc Hs Hi Hw Hd. unfold _insertChildren.
  rewrite (bind_Return _ (addBodyIfNotExists_run st)).
  unfold insertIntoBracesOrSourceFileWithGetChildren.
  destruct (structures opts) as [|s ss] eqn:Es; [congruence|].
  destruct (ensureBody_canReadStatements _ Hc) as [Hc' Hb'].
  rewrite (bind_Return _ (getStatements_container (withThis st (ensureBody (this st))) Hc')).
  rewrite (bind_Return _ (getChildSyntaxListOrThrow_body
                            (withThis st (ensureBody (this st))) Hb')).
  simpl this. rewrite ensureBody_statementsOf.
  unfold bind at 1. unfold liftOutcome at 1. rewrite Hi.
  unfold bind at 1. unfold getThis at 1. simpl this.
  rewrite (writeInfoAt_parent _ (this st) _ _ (ensureBody_kind _)).
  unfold bind at 1. unfold liftOutcome at 1. rewrite Hw.
  rewrite (declarationsWritten_parent _ (this st) (ensureBody_ambient _)), Hd.
  unfold bind, setThis, recordInsertion, liftOutcome. cbn [this insertions withThis].
  rewrite withSyntaxList_ensureBody.
  rewrite getRangeFromArray_inserted by (exact (verifyAndGetIndex_le _ _ _ Hi)).
  reflexivity.
Qed.

Lemma insertOfKind_unfold K i ss st :
  insertOfKind K i ss st
  = _insertChildren
      {| expectedKind := syntaxKindOf K; index := i; structures := ss;
         writeOf := writeOfKind K (this st) ss |} st.
Proof. destruct K; reflexivity. Qed.

Lemma elementAt_last ss : ss <> [] -> exists s, elementAt ss (List.length ss - 1) = Return s.
Proof.
  intros H. unfold elementAt.
  destruct (nth_error ss (List.length ss - 1)) eqn:E; [eexists; reflexivity|].
  apply nth_error_None in E. destruct ss; [congruence | simpl in E; lia].
Qed.

Lemma standardWrite_total writer info writeStructures opts :
  (forall p, previousMember info = Some p ->
             exists b, newLineWanted (previousNewLine opts) p = Return b) ->
  (forall q, nextMember info = Some q ->
             exists b, newLineWanted (nextNewLine opts) q = Return b) ->
  exists text, _standardWrite writer info writeStructures opts = Return text.
Proof.
  intros Hp Hq. unfold _standardWrite.
  destruct (previousMember info) as [p|].
  - destruct (Hp p eq_refl) as [b ->].
    destruct (nextMember info) as [q|].
    + destruct (Hq q eq_refl) as [c ->]. destruct b, c; eexists; reflexivity.
    + destruct b; eexists; reflexivity.
  - destruct (nextMember info) as [q|].
    + destruct (Hq q eq_refl) as [c ->]. destruct c; eexists; reflexivity.
    + eexists; reflexivity.
Qed.

Lemma writeOfKind_total K n ss writer info :
  ss <> [] -> exists text, writeOfKind K n ss writer info = Return text.
Proof.
  intros H. destruct K; simpl; try (rewrite standardWrite_noOptions; eexists; reflexivity);
    apply standardWrite_total; simpl; intros; try (eexists; reflexivity).
  - unfold functionPreviousNewLine. destruct ss; [congruence|]. eexists; reflexivity.
  - unfold functionNextNewLine. destruct (elementAt_last ss H) as [l ->].
    eexists; reflexivity.
Qed.

Lemma standardWrite_shape writer info printer ss opts text :
  _standardWrite writer info (printTexts printer ss) opts = Return text ->
  exists leading trailing,
    text = writer ++ leading ++ [PrintTexts printer ss] ++ [trailing]
    /\ (leading = [] \/ leading = [BlankLine] \/ leading = [NewLine])
    /\ (trailing = BlankLine \/ trailing = NewLine).
Proof.
  unfold _standardWrite, blankLine, newLine, printTexts.
  assert (Hafter : forall writer1 leading,
    writer1 = writer ++ leading ->
    (leading = [] \/ leading = [BlankLine] \/ leading = [NewLine]) ->
    match nextMember info with
    | Some next =>
        match newLineWanted (nextNewLine opts) next with
        | Return true => Return ((writer1 ++ [PrintTexts printer ss]) ++ [NewLine])
        | Return false => Return ((writer1 ++ [PrintTexts printer ss]) ++ [BlankLine])
        | Throw e => Throw e
        end
    | None => Return ((writer1 ++ [PrintTexts printer ss]) ++ [NewLine])
    end = Return text ->
    exists leading trailing,
      text = writer ++ leading ++ [PrintTexts printer ss] ++ [trailing]
      /\ (leading = [] \/ leading = [BlankLine] \/ leading = [NewLine])
      /\ (trailing = BlankLine \/ trailing = NewLine)).
  { intros writer1 leading -> Hl H.
    destruct (nextMember info) as [q|];
      [destruct (newLineWanted (nextNewLine opts) q) as [[|]|e]; [| |discriminate]|];
      injection H as <-; exists leading; eexists;
      (split; [rewrite <- !app_assoc; reflexivity | split; [exact Hl | auto]]). }
  destruct (previousMember info) as [p|].
  - destruct (newLineWanted (previousNewLine opts) p) as [[|]|e]; [| |discriminate].
    + destruct (isStartOfFile info); simpl.
      * apply (Hafter writer []); [symmetry; apply app_nil_r | auto].
      * apply (Hafter (writer ++ [NewLine]) [NewLine]); auto.
    + apply (Hafter (writer ++ [BlankLine]) [BlankLine]); auto.
  - destruct (isStartOfFile info); simpl.
    + apply (Hafter writer []); [symmetry; apply app_nil_r | auto].
    + apply (Hafter (writer ++ [NewLine]) [NewLine]); auto.
Qed.

Lemma declarationsWritten_standard p id leading printer ss trailing :
  leading = [] \/ leading = [BlankLine] \/ leading = [NewLine] ->
  trailing = BlankLine \/ trailing = NewLine ->
  declarationsWritten p id ([] ++ leading ++ [PrintTexts printer ss] ++ [trailing])
  = declarationsOf p (kindOfPrinter printer) id ss.
Proof.
  intros [->|[->| ->]] [->| ->]; simpl; apply app_nil_r.
Qed.

Lemma writeOfKind_standard K n ss :
  exists opts, forall writer info,
    writeOfKind K n ss writer info
    = _standardWrite writer info (printTexts (printerOfKind K n) ss) opts.
Proof. destruct K; eexists; intros; reflexivity. Qed.

Lemma kindOfPrinter_printerOfKind K n : kindOfPrinter (printerOfKind K n) = syntaxKindOf K.
Proof. destruct K; reflexivity. Qed.

(** What the write callback of a kind wrote is re-parsed into one declaration
    of the kind per structure. *)
Lemma writeOfKind_written K n ss info text p id :
  writeOfKind K n ss [] info = Return text ->
  declarationsWritten p id text = declarationsOf p (syntaxKindOf K) id ss.
Proof.
  intros H. destruct (writeOfKind_standard K n ss) as [opts Hopts].
  rewrite Hopts in H.
  destruct (standardWrite_shape _ _ _ _ _ _ H) as (leading & trailing & -> & Hl & Ht).
  rewrite declarationsWritten_standard by assumption.
  rewrite kindOfPrinter_printerOfKind. reflexivity.
Qed.

(** The outcome and the state of a valid insertion of a kind. *)
Lemma insertOfKind_run K st i ss :
  canReadStatements (this st) = true ->
  (0 <= i <= Z.of_nat (List.length (statementsOf (this st))))%Z ->
  ss <> [] ->
  exists text,
    writeOfKind K (this st) ss [] (writeInfoAt (this st) (statementsOf (this st)) (Z.to_nat i))
    = Return text
    /\ insertOfKind K i ss st
       = (Return (declarationsOf (this st) (syntaxKindOf K)
                    (freshId (statementsOf (this st))) ss),
          {| this := withSyntaxList (this st)
                       (Some (spliceAt (Z.to_nat i)
                                (declarationsOf (this st) (syntaxKindOf K)
                                   (freshId (statementsOf (this st))) ss)
                                (statementsOf (this st))));
             insertions := insertions st
                           ++ [{| insertIndex := Z.to_nat i; newText := text |}] |}).
Proof.
  intros Hc Hi Hs.
  destruct (writeOfKind_total K (this st) ss []
              (writeInfoAt (this st) (statementsOf (this st)) (Z.to_nat i)) Hs) as [text Ht].
  exists text. split; [exact Ht|].
  rewrite insertOfKind_unfold.
  apply insertChildren_run; simpl; auto using verifyAndGetIndex_valid.
  exact (writeOfKind_written K _ ss _ text _ _ Ht).
Qed.

(** ** Claim C1: where inserted declarations land *)

Lemma writeOfKind_prints K n ss info text :
  writeOfKind K n ss [] info = Return text ->
  In (PrintTexts (printerOfKind K n) ss) text.
Proof.
  intros H. destruct (writeOfKind_standard K n ss) as [opts Hopts].
  rewrite Hopts in H.
  destruct (standardWrite_shape _ _ _ _ _ _ H) as (leading & trailing & -> & _ & _).
  simpl. apply in_or_app. right. left. reflexivity.
Qed.

(** C1. For each declaration kind, every container whose statements can be
    read, every index [i] between 0 and the statement count, and every
    non-empty list of structures, the insertion succeeds.  The write callback
    of the kind, handed the neighbours of the insertion point, wrote a text
    that prints the structures with the printer of the kind; that text is
    what was spliced in at [i], the declarations returned are the statements
    it holds, and the container has a body.  The declarations are one per
    structure, in the structures' order, and stand at the positions
    [i .. i+n-1] of the new statement list; the statements before [i] keep
    their positions, and each statement formerly at a position [j >= i]
    stands at [j + n]. *)
Theorem C1_insert_contiguous_in_order (K : DeclarationKind) (st : State) (i : Z)
  (ss : list Structure) :
  canReadStatements (this st) = true ->
  (0 <= i <= Z.of_nat (List.length (statementsOf (this st))))%Z ->
  ss <> [] ->
  exists nodes st' handed text,
    insertOfKind K i ss st = (Return nodes, st')
    /\ writeOfKind K (this st) ss [] handed = Return text
    /\ In (PrintTexts (printerOfKind K (this st)) ss) text
    /\ insertions st'
       = insertions st ++ [{| insertIndex := Z.to_nat i; newText := text |}]
    /\ nodes = declarationsWritten (this st) (freshId (statementsOf (this st))) text
    /\ hasBody (this st') = true
    /\ List.length nodes = List.length ss
    /\ List.length (statementsOf (this st'))
       = List.length (statementsOf (this st)) + List.length ss
    /\ (forall j s, nth_error ss j = Some s ->
          exists d,
            nth_error nodes j = Some d
            /\ nth_error (statementsOf (this st')) (Z.to_nat i + j) = Some d
            /\ d = declarationOf (this st) (syntaxKindOf K)
                     (freshId (statementsOf (this st)) + j) s
            /\ kind d = syntaxKindOf K
            /\ name d = sname s)
    /\ (forall j, j < Z.to_nat i ->
          nth_error (statementsOf (this st')) j = nth_error (statementsOf (this st)) j)
    /\ (forall j, Z.to_nat i <= j ->
          nth_error (statementsOf (this st')) (j + List.length ss)
          = nth_error (statementsOf (this st)) j).
Proof.
  intros Hc Hi Hs.
  destruct (insertOfKind_run K st i ss Hc Hi Hs) as (text & Hw & Hrun).
  eexists. eexists. eexists. exists text. split; [exact Hrun|].
  split; [exact Hw|]. split; [exact (writeOfKind_prints _ _ _ _ _ Hw)|].
  split; [reflexivity|].
  split; [symmetry; exact (writeOfKind_written K _ ss _ text _ _ Hw)|].
  split; [reflexivity|].
  assert (Hle : Z.to_nat i <= List.length (statementsOf (this st))) by lia.
  cbn [this]. rewrite !statementsOf_withSyntaxList.
  split; [apply declarationsOf_length|].
  split; [rewrite spliceAt_length, declarationsOf_length; reflexivity|].
  split; [|split].
  - intros j s Hj. eexists. rewrite declarationsOf_nth, Hj. simpl.
    split; [reflexivity|]. split; [|repeat split; reflexivity].
    rewrite spliceAt_inserted by exact Hle.
    rewrite declarationsOf_length.
    assert (Hlt : j < List.length ss) by (apply nth_error_Some; congruence).
    apply Nat.ltb_lt in Hlt. rewrite Hlt, declarationsOf_nth, Hj. reflexivity.
  - intros j Hj. apply spliceAt_before; assumption.
  - intros j Hj.
    rewrite <- (declarationsOf_length (this st) (syntaxKindOf K)
                  (freshId (statementsOf (this st))) ss).
    apply spliceAt_after; assumption.
Qed.

Lemma C1_insert_contiguous_in_order_witness :
  canReadStatements (this (sourceFileOf [classA; expressionX])) = true
  /\ (0 <= 1 <= Z.of_nat (List.length (statementsOf (this (sourceFileOf [classA; expressionX])))))%Z
  /\ [structureNamed "B"; structureNamed "C"] <> []
  /\ exists nodes st',
    insertOfKind Enums 1 [structureNamed "B"; structureNamed "C"]
      (sourceFileOf [classA; expressionX]) = (Return nodes, st')
    /\ List.length nodes = 2
    /\ nth_error (statementsOf (this st')) 0 = Some classA
    /\ nth_error (statementsOf (this st')) 3 = Some expressionX.
Proof.
  split; [reflexivity|]. split; [simpl; lia|]. split; [discriminate|].
  destruct (C1_insert_contiguous_in_order Enums (sourceFileOf [classA; expressionX]) 1
              [structureNamed "B"; structureNamed "C"])
    as (nodes & st' & handed & text
        & Hrun & _ & _ & _ & _ & _ & Hlen & _ & _ & Hbefore & Hafter);
    [reflexivity | simpl; lia | discriminate |].
  exists nodes, st'. split; [exact Hrun|]. split; [exact Hlen|]. split.
  - apply (Hbefore 0). simpl. lia.
  - apply (Hafter 1). simpl. lia.
Defined.

(** ** Claim C9: the separators written for a kind without a predicate *)

Lemma writeOfKind_noPredicate K n ss writer info :
  hasNoNewLinePredicate K = true ->
  writeOfKind K n ss writer info
  = Return (standardTrailing info (printTexts (printerOfKind K n) ss (standardLeading info writer))).
Proof.
  intros H. destruct K; try discriminate; simpl; apply standardWrite_noOptions.
Qed.

(** C9. [_standardWrite] without options writes a blank line before the
    structures when there is a previous member; without a previous member it
    writes a new line, and only when the insertion point is not the start of
    the file; after the structures it writes a blank line when there is a
    next member and a new line otherwise.  The insertion of classes, enums,
    interfaces and namespaces passes no options, so at every valid index of a
    container whose statements can be read the text it splices in is made of
    these calls around the printed structures. *)
Theorem C9_standard_write_separators (K : DeclarationKind) (st : State) (i : Z)
  (ss : list Structure) :
  hasNoNewLinePredicate K = true ->
  canReadStatements (this st) = true ->
  (0 <= i <= Z.of_nat (List.length (statementsOf (this st))))%Z ->
  ss <> [] ->
  (forall writer info writeStructures,
      _standardWrite writer info writeStructures noStandardWriteOptions
      = Return
          ((writeStructures
              (writer ++ match previousMember info with
                         | Some _ => [BlankLine]
                         | None => if isStartOfFile info then [] else [NewLine]
                         end))
             ++ [match nextMember info with Some _ => BlankLine | None => NewLine end]))
  /\ exists nodes st',
      insertOfKind K i ss st = (Return nodes, st')
      /\ insertions st'
         = insertions st
           ++ [{| insertIndex := Z.to_nat i;
                  newText :=
                    match previousMember
                            (writeInfoAt (this st) (statementsOf (this st)) (Z.to_nat i)) with
                    | Some _ => [BlankLine]
                    | None => if TypeGuards.isSourceFile (this st) && (Z.to_nat i =? 0)
                              then [] else [NewLine]
                    end
                    ++ [PrintTexts (printerOfKind K (this st)) ss]
                    ++ [match nextMember
                                (writeInfoAt (this st) (statementsOf (this st)) (Z.to_nat i)) with
                        | Some _ => BlankLine
                        | None => NewLine
                        end] |}].
Proof.
  intros Hk Hc Hi Hs. split.
  - intros writer info writeStructures. rewrite standardWrite_noOptions.
    unfold standardTrailing, standardLeading, blankLine, newLine.
    destruct (previousMember info), (nextMember info), (isStartOfFile info);
      rewrite ?app_nil_r; reflexivity.
  - destruct (insertOfKind_run K st i ss Hc Hi Hs) as (text & Hw & Hrun).
    eexists. eexists. split; [exact Hrun|]. cbn [insertions]. do 3 f_equal.
    rewrite writeOfKind_noPredicate in Hw by exact Hk.
    injection Hw as <-.
    unfold standardTrailing, standardLeading, blankLine, newLine, printTexts.
    cbn [isStartOfFile writeInfoAt].
    destruct (previousMember _), (nextMember _),
      (TypeGuards.isSourceFile (this st) && (Z.to_nat i =? 0)); reflexivity.
Qed.

Lemma C9_standard_write_separators_witness :
  hasNoNewLinePredicate Classes = true
  /\ canReadStatements (this (sourceFileOf [])) = true
  /\ (0 <= 0 <= Z.of_nat (List.length (statementsOf (this (sourceFileOf [])))))%Z
  /\ [structureNamed "A"; structureNamed "B"] <> []
  /\ exists nodes st',
      insertOfKind Classes 0 [structureNamed "A"; structureNamed "B"] (sourceFileOf [])
      = (Return nodes, st')
      /\ insertions st'
         = [{| insertIndex := 0;
               newText := [PrintTexts (forClassDeclaration false)
                             [structureNamed "A"; structureNamed "B"];
                           NewLine] |}].
Proof.
  split; [reflexivity|]. split; [reflexivity|]. split; [simpl; lia|].
  split; [discriminate|].
  destruct (C9_standard_write_separators Classes (sourceFileOf []) 0
              [structureNamed "A"; structureNamed "B"])
    as (_ & nodes & st' & Hrun & Hins);
    [reflexivity | reflexivity | simpl; lia | discriminate |].
  exists nodes, st'. split; [exact Hrun | exact Hins].
Defined.

(** ** Claim C3: the separators written around inserted functions *)

Lemma writeInfoAt_previous_not_start parent children i p :
  previousMember (writeInfoAt parent children i) = Some p ->
  isStartOfFile (writeInfoAt parent children i) = false.
Proof.
  unfold writeInfoAt. simpl. destruct (i =? 0); [discriminate|].
  intros _. apply andb_false_r.
Qed.





(** ** Claim C4: a bad range removes nothing *)

Lemma throwIfRangeOutOfRange_bad (s e len : Z) :
  (e < s \/ s < 0 \/ len <= s \/ e < 0 \/ len <= e)%Z ->
  throwIfRangeOutOfRange (s, e) (0%Z, len) = Throw OutOfBounds.
Proof.
  intros H. unfold throwIfRangeOutOfRange. cbn [fst snd].
  destruct (Z.ltb_spec e s); [reflexivity|].
  destruct (Z.ltb_spec s 0); [reflexivity|].
  destruct (Z.leb_spec len s); [reflexivity|]. cbn [orb].
  destruct (Z.ltb_spec e 0); [reflexivity|].
  destruct (Z.leb_spec len e); [reflexivity|]. lia.
Qed.

Lemma removeStatements_bad_range st (s e : Z) :
  (e < s \/ s < 0 \/ Z.of_nat (List.length (statementsOf (this st))) <= s
   \/ e < 0 \/ Z.of_nat (List.length (statementsOf (this st))) <= e)%Z ->
  exists err,
    removeStatements (s, e) st = (Throw err, st)
    /\ (canReadStatements (this st) = true -> err = OutOfBounds).
Proof.
  intros H. destruct (canReadStatements (this st)) eqn:Hc.
  - exists OutOfBounds. split; [|reflexivity].
    unfold removeStatements. rewrite (bind_Return _ (getStatements_container st Hc)).
    cbn [fst snd]. unfold bind, liftOutcome.
    rewrite throwIfRangeOutOfRange_bad by exact H. reflexivity.
  - destruct (isStatementContainer (this st)) eqn:Ec.
    + exists TypeError. split; [|discriminate].
      unfold removeStatements. apply bind_Throw.
      unfold getStatements. apply bind_Throw.
      exact (getCompilerStatements_undefined st Ec Hc).
    + destruct (getStatements_other st Ec) as [m Hm].
      exists (NotImplemented m). split; [|discriminate].
      unfold removeStatements. apply bind_Throw. exact Hm.
Qed.

(** C4. [removeStatements] fails and leaves the container and its text as
    they were whenever the start of the range is greater than its end or
    either bound lies outside [0, length): the range is checked before
    anything is deleted.  On every container whose statements can be read the
    error is the out-of-bounds error; elsewhere it is the error of the read of
    the statements.  In particular [removeStatements([2, 0])] fails so on any
    container. *)
Theorem C4_removeStatements_bad_range_fails (st : State) (startIndex endIndex : Z) :
  (endIndex < startIndex \/ startIndex < 0
   \/ Z.of_nat (List.length (statementsOf (this st))) <= startIndex
   \/ endIndex < 0
   \/ Z.of_nat (List.length (statementsOf (this st))) <= endIndex)%Z ->
  (exists err,
      removeStatements (startIndex, endIndex) st = (Throw err, st)
      /\ (canReadStatements (this st) = true -> err = OutOfBounds))
  /\ (exists err,
      removeStatements (2%Z, 0%Z) st = (Throw err, st)
      /\ (canReadStatements (this st) = true -> err = OutOfBounds)).
Proof.
  intros H. split.
  - apply removeStatements_bad_range. exact H.
  - apply removeStatements_bad_range. lia.
Qed.

Lemma C4_removeStatements_bad_range_fails_witness :
  (5 < 1 \/ 1 < 0
   \/ Z.of_nat (List.length (statementsOf (this (sourceFileOf [classA; expressionX])))) <= 1
   \/ 5 < 0
   \/ Z.of_nat (List.length (statementsOf (this (sourceFileOf [classA; expressionX])))) <= 5)%Z
  /\ removeStatements (1%Z, 5%Z) (sourceFileOf [classA; expressionX])
     = (Throw OutOfBounds, sourceFileOf [classA; expressionX])
  /\ removeStatements (2%Z, 0%Z) (sourceFileOf [classA; expressionX])
     = (Throw OutOfBounds, sourceFileOf [classA; expressionX]).
Proof.
  assert (H : (5 < 1 \/ 1 < 0
   \/ Z.of_nat (List.length (statementsOf (this (sourceFileOf [classA; expressionX])))) <= 1
   \/ 5 < 0
   \/ Z.of_nat (List.length (statementsOf (this (sourceFileOf [classA; expressionX])))) <= 5)%Z)
    by (simpl; lia).
  split; [exact H|].
  destruct (C4_removeStatements_bad_range_fails (sourceFileOf [classA; expressionX]) 1 5 H)
    as ((e1 & H1 & E1) & (e2 & H2 & E2)).
  rewrite (E1 eq_refl) in H1. rewrite (E2 eq_refl) in H2.
  split; [exact H1 | exact H2].
Defined.

(** ** Claim C7: lookups by name or by find function *)

Lemma getNodeByNameOrFindFunction_find items x :
  getNodeByNameOrFindFunction items x = find (matchesNameOrFindFunction x) items.
Proof.
  unfold getNodeByNameOrFindFunction. destruct x as [s|f]; [|reflexivity].
  induction items as [|a items IH]; simpl; [reflexivity|].
  rewrite IH.
  replace (TypeGuards.hasName a
           && match name a with Some n => String.eqb n s | None => false end)
    with (match name a with Some m => String.eqb m s | None => false end)
    by (unfold TypeGuards.hasName; destruct (name a); reflexivity).
  reflexivity.
Qed.

Lemma find_None_iff {A} (f : A -> bool) l :
  find f l = None <-> forall a, In a l -> f a = false.
Proof.
  split.
  - intros H a Ha. exact (find_none f l H a Ha).
  - induction l as [|a l IH]; intros H; simpl; [reflexivity|].
    rewrite (H a (or_introl eq_refl)). apply IH. intros b Hb. apply H. right. exact Hb.
Qed.

Lemma getItemsOfKind_frame K st :
  exists items, getItemsOfKind K st = (Return items, st).
Proof.
  destruct K; simpl;
    try (match goal with
         | |- exists items, ?g st = _ =>
             first [ rewrite (getAllOfKind_filter Classes st : g st = _)
                   | rewrite (getAllOfKind_filter Enums st : g st = _)
                   | rewrite (getAllOfKind_filter Functions st : g st = _)
                   | rewrite (getAllOfKind_filter Interfaces st : g st = _)
                   | rewrite (getAllOfKind_filter Namespaces st : g st = _)
                   | rewrite (getAllOfKind_filter TypeAliases st : g st = _) ]
         end; eexists; reflexivity).
  unfold getVariableDeclarations.
  rewrite (bind_Return _ (getAllOfKind_filter VariableStatements st : getVariableStatements st = _)).
  eexists; reflexivity.
Qed.

Lemma getItemsOfKind_direct K D st :
  declarationKindOf K = Some D ->
  getItemsOfKind K st = (Return (filter (visibleOfKind D) (statementsOf (this st))), st).
Proof.
  destruct K; simpl; intros H; try discriminate; injection H as <-;
    first [ exact (getAllOfKind_filter Classes st)
          | exact (getAllOfKind_filter Enums st)
          | exact (getAllOfKind_filter Functions st)
          | exact (getAllOfKind_filter Interfaces st)
          | exact (getAllOfKind_filter Namespaces st)
          | exact (getAllOfKind_filter TypeAliases st) ].
Qed.

Lemma getOfKind_run K x st items :
  getItemsOfKind K st = (Return items, st) ->
  getOfKind K x st = (Return (find (matchesNameOrFindFunction x) items), st).
Proof.
  intros H.
  destruct K; simpl in *;
    unfold getClass, getEnum, getFunction, getInterface, getNamespace, getTypeAlias,
      getVariableDeclaration;
    rewrite (bind_Return _ H); unfold ret;
    rewrite getNodeByNameOrFindFunction_find; reflexivity.
Qed.

Lemma getOfKindOrThrow_run K x st items :
  getItemsOfKind K st = (Return items, st) ->
  getOfKindOrThrow K x st
  = (throwIfNullOrUndefined (find (matchesNameOrFindFunction x) items)
       (getNotFoundErrorMessageForNameOrFindFunction (findNameOf K) x), st).
Proof.
  intros H. pose proof (getOfKind_run K x st items H) as Hg.
  destruct K; simpl in *;
    unfold getClassOrThrow, getEnumOrThrow, getFunctionOrThrow, getInterfaceOrThrow,
      getNamespaceOrThrow, getTypeAliasOrThrow, getVariableDeclarationOrThrow;
    rewrite (bind_Return _ Hg); reflexivity.
Qed.

(** C7, as stated, fails for functions: in a source file holding only the
    overload signature [function f(): void;], [getFunction("f")] returns
    nothing although a direct child of kind function declaration is named
    [f]. *)
Lemma C7_counterexample_overload_signature :
  ~ (outcome (getFunction (Name "f") (sourceFileOf [overloadSignatureF])) = Return None
     <-> (forall n, In n (statementsOf (this (sourceFileOf [overloadSignatureF]))) ->
                    kind n = SyntaxKind.FunctionDeclaration ->
                    matchesNameOrFindFunction (Name "f") n = false)).
Proof.
  intros [H _].
  specialize (H eq_refl overloadSignatureF (or_introl eq_refl) eq_refl).
  discriminate H.
Qed.

(** C7, amended. For every kind with a lookup, [getK(x)] changes nothing and
    returns nothing exactly when no declaration that [getKs()] returns
    matches [x]: a string matches a declaration with that declared name and
    never one without a name, a find function matches what it accepts.
    [getKs()] returns the direct children of the kind and, for functions,
    only those that are ambient or have a body.  [getKOrThrow(x)] throws the
    not-found error in exactly that case, and returns a declaration exactly
    when [getK(x)] returns that same declaration. *)
Theorem C7_lookup_among_returned_declarations (K : LookupKind) (x : NameOrFindFunction)
  (st : State) :
  exists items,
    getItemsOfKind K st = (Return items, st)
    /\ (forall D, declarationKindOf K = Some D ->
                  items = filter (visibleOfKind D) (statementsOf (this st)))
    /\ (exists found, getOfKind K x st = (Return found, st))
    /\ (getOfKind K x st = (Return None, st)
        <-> forall n, In n items -> matchesNameOrFindFunction x n = false)
    /\ (getOfKindOrThrow K x st
        = (Throw (NotFound (getNotFoundErrorMessageForNameOrFindFunction (findNameOf K) x)), st)
        <-> forall n, In n items -> matchesNameOrFindFunction x n = false)
    /\ (forall n, getOfKindOrThrow K x st = (Return n, st)
                  <-> getOfKind K x st = (Return (Some n), st))
    /\ (forall s n, In n items -> name n = None ->
                    matchesNameOrFindFunction (Name s) n = false)
    /\ (forall s n, name n = Some s -> matchesNameOrFindFunction (Name s) n = true).
Proof.
  destruct (getItemsOfKind_frame K st) as [items Hitems].
  exists items. split; [exact Hitems|].
  rewrite (getOfKind_run K x st items Hitems), (getOfKindOrThrow_run K x st items Hitems).
  split; [|split; [|split; [|split; [|split; [|split]]]]].
  - intros D HD. rewrite (getItemsOfKind_direct K D st HD) in Hitems. congruence.
  - eexists; reflexivity.
  - rewrite <- find_None_iff. split; [intros H; congruence | intros ->; reflexivity].
  - rewrite <- find_None_iff.
    destruct (find (matchesNameOrFindFunction x) items); simpl;
      split; intros H; congruence.
  - intros n. destruct (find (matchesNameOrFindFunction x) items); simpl;
      split; intros H; congruence.
  - intros s n _ Hn. simpl. rewrite Hn. reflexivity.
  - intros s n Hn. simpl. rewrite Hn. apply String.eqb_refl.
Qed.

(** ** Claim C8: reads never create a body *)

Lemma bodyable_isStatementContainer n :
  TypeGuards.isBodyableNode n = true -> isStatementContainer n = true.
Proof.
  intros H. unfold isStatementContainer. rewrite H.
  rewrite !orb_true_r. reflexivity.
Qed.

Lemma engine_keeps_body opts st :
  isStatementContainer (this st) = true ->
  hasBody (this st) = true ->
  hasBody (this (snd (insertIntoBracesOrSourceFileWithGetChildren getStatements opts st))) = true.
Proof.
  intros Hc Hb.
  assert (Hr : canReadStatements (this st) = true).
  { apply canReadStatements_iff. rewrite Hb, orb_true_r. auto. }
  unfold insertIntoBracesOrSourceFileWithGetChildren.
  destruct (structures opts) as [|s ss]; [exact Hb|].
  rewrite (bind_Return _ (getStatements_container st Hr)).
  rewrite (bind_Return _ (getChildSyntaxListOrThrow_body st Hb)).
  unfold bind at 1. unfold liftOutcome at 1.
  destruct (verifyAndGetIndex _ _) as [i|e]; [|exact Hb].
  unfold bind at 1. unfold getThis at 1.
  unfold bind at 1. unfold liftOutcome at 1.
  destruct (writeOf opts _ _) as [text|e]; [|exact Hb].
  unfold bind, setThis, recordInsertion, liftOutcome. cbn [this insertions].
  destruct (getRangeFromArray _ _ _ _); reflexivity.
Qed.

Lemma insertChildText_keeps_body parseStatements i text st :
  hasBody (this st) = true ->
  TypeGuards.isBodyableNode (this st) = true ->
  hasBody (this (snd (insertChildText parseStatements OwnSyntaxList i text st))) = true.
Proof.
  intros Hb _. unfold insertChildText.
  unfold bind at 1. unfold getThis at 1.
  unfold bind at 1. unfold liftOutcome at 1.
  destruct (verifyAndGetIndex _ _) as [i'|e]; [|exact Hb].
  reflexivity.
Qed.

Lemma insertStatements_owner_bodied st :
  TypeGuards.isBodiedNode (this st) || TypeGuards.isBodyableNode (this st) = true ->
  hasBody (this st) = true ->
  insertStatements_getChildSyntaxList st = (Return OwnSyntaxList, st).
Proof.
  destruct st as [[id k nm amb [l|] ds] ins]; [|discriminate].
  destruct k; simpl; try discriminate; intros _ _; reflexivity.
Qed.

Lemma insertStatements_owner_bodyable st :
  TypeGuards.isBodyableNode (this st) = true ->
  hasBody (this st) = true ->
  insertStatements_getChildSyntaxList st = (Return OwnSyntaxList, st).
Proof.
  intros H. apply insertStatements_owner_bodied. rewrite H. apply orb_true_r.
Qed.

(** C8. On a bodyable container that has no body, every read returns an
    empty list or nothing and leaves the container as it was, still without
    a body: [getStatements], [getCompilerStatements], [getKs] of each kind,
    the variable declarations, and the lookups.  The mutating entry points
    [insertStatements] and [_insertChildren] leave the container with a
    body, as they create one first. *)
Theorem C8_reads_leave_bodyless (parseStatements : CodeBlockWriter -> list Node)
  (st : State) :
  TypeGuards.isBodyableNode (this st) = true ->
  hasBody (this st) = false ->
  getStatements st = (Return [], st)
  /\ getCompilerStatements st = (Return [], st)
  /\ (forall K, getAllOfKind K st = (Return [], st))
  /\ getVariableDeclarations st = (Return [], st)
  /\ (forall K x, getOfKind K x st = (Return None, st))
  /\ (forall f, getStatement f st = (Return None, st))
  /\ (forall k, getStatementByKind k st = (Return None, st))
  /\ (forall f, getVariableStatement f st = (Return None, st))
  /\ (forall i text,
         hasBody (this (snd (insertStatements parseStatements i text st))) = true)
  /\ (forall opts, hasBody (this (snd (_insertChildren opts st))) = true).
Proof.
  intros Hb Hn.
  assert (Hc : canReadStatements (this st) = true) by (apply bodyable_canReadStatements; exact Hb).
  assert (Hs : statementsOf (this st) = []).
  { unfold hasBody, getBody in Hn. unfold statementsOf.
    destruct (syntaxList (this st)); [discriminate | reflexivity]. }
  assert (Hall : forall K, getAllOfKind K st = (Return [], st)).
  { intros K. rewrite getAllOfKind_filter, Hs. reflexivity. }
  assert (Hstm : getStatements st = (Return [], st)).
  { rewrite getStatements_container, Hs by exact Hc. reflexivity. }
  assert (Hcs : getCompilerStatements st = (Return [], st)).
  { rewrite getCompilerStatements_container, Hs by exact Hc. reflexivity. }
  assert (Hvd : getVariableDeclarations st = (Return [], st)).
  { unfold getVariableDeclarations.
    rewrite (bind_Return _ (Hall VariableStatements : getVariableStatements st = _)).
    reflexivity. }
  assert (Hbody : hasBody (this (withThis st (ensureBody (this st)))) = true).
  { simpl. apply ensureBody_hasBody. exact Hb. }
  assert (Hable : TypeGuards.isBodyableNode (this (withThis st (ensureBody (this st)))) = true).
  { simpl. unfold TypeGuards.isBodyableNode in *. rewrite ensureBody_kind. exact Hb. }
  repeat split; auto.
  - intros K x. apply getOfKind_run with (items := []).
    destruct K; simpl; first [exact Hvd | apply (Hall Classes) | apply (Hall Enums)
      | apply (Hall Functions) | apply (Hall Interfaces) | apply (Hall Namespaces)
      | apply (Hall TypeAliases)].
  - intros f. unfold getStatement. rewrite (bind_Return _ Hstm). reflexivity.
  - intros k. unfold getStatementByKind. rewrite (bind_Return _ Hcs). reflexivity.
  - intros f. unfold getVariableStatement.
    rewrite (bind_Return _ (Hall VariableStatements : getVariableStatements st = _)).
    reflexivity.
  - intros i text. unfold insertStatements.
    rewrite (bind_Return _ (addBodyIfNotExists_run st)).
    rewrite (bind_Return _ (insertStatements_owner_bodyable _ Hable Hbody)).
    apply insertChildText_keeps_body; assumption.
  - intros opts. unfold _insertChildren.
    rewrite (bind_Return _ (addBodyIfNotExists_run st)).
    apply engine_keeps_body; [|exact Hbody].
    apply bodyable_isStatementContainer. exact Hable.
Qed.

Lemma C8_reads_leave_bodyless_witness :
  TypeGuards.isBodyableNode (this functionWithoutBody) = true
  /\ hasBody (this functionWithoutBody) = false
  /\ getStatements functionWithoutBody = (Return [], functionWithoutBody)
  /\ getClasses functionWithoutBody = (Return [], functionWithoutBody)
  /\ getFunction (Name "f") functionWithoutBody = (Return None, functionWithoutBody)
  /\ hasBody (this (snd (insertStatements oneStatementParser 0 (Text "x;") functionWithoutBody)))
     = true.
Proof.
  split; [reflexivity|]. split; [reflexivity|].
  destruct (C8_reads_leave_bodyless oneStatementParser functionWithoutBody eq_refl eq_refl)
    as (H1 & _ & H3 & _ & H5 & _ & _ & _ & H9 & _).
  split; [exact H1|]. split; [exact (H3 Classes)|].
  split; [exact (H5 AFunction (Name "f"))|]. exact (H9 0%Z (Text "x;")).
Defined.

(** ** Removing declarations *)

Lemma removeStatementedNodeChildren_run nodes st :
  removeStatementedNodeChildren nodes st
  = (Return tt, mapStatements (filter (fun s => negb (isOneOf nodes s))) st).
Proof. reflexivity. Qed.

Lemma mapStatements_compose f g st :
  mapStatements f (mapStatements g st) = mapStatements (fun l => f (g l)) st.
Proof.
  unfold mapStatements, withThis. simpl.
  destruct (syntaxList (this st)); reflexivity.
Qed.

Lemma mapStatements_ext f g st :
  (forall l, syntaxList (this st) = Some l -> f l = g l) ->
  mapStatements f st = mapStatements g st.
Proof.
  intros H. unfold mapStatements.
  destruct (syntaxList (this st)) as [l|]; simpl; [rewrite (H l eq_refl)|]; reflexivity.
Qed.

Lemma mapStatements_same f st :
  (forall l, syntaxList (this st) = Some l -> f l = l) -> mapStatements f st = st.
Proof.
  destruct st as [[id k nm amb [l|] ds] ins]; intros H; unfold mapStatements, withThis,
    withSyntaxList; simpl; [rewrite (H l eq_refl)|]; reflexivity.
Qed.

Lemma mapStatements_statementsOf f st :
  f [] = [] -> statementsOf (this (mapStatements f st)) = f (statementsOf (this st)).
Proof.
  intros H. unfold mapStatements, statementsOf. simpl.
  destruct (syntaxList (this st)); simpl; congruence.
Qed.

Lemma mapStatements_sameContainer f st : sameContainer (this st) (this (mapStatements f st)).
Proof.
  unfold sameContainer, mapStatements, TypeGuards.isBodyableNode, hasBody, getBody. simpl.
  destruct (syntaxList (this st)); simpl; auto.
Qed.

Lemma isOneOf_cons d ds a :
  isOneOf (d :: ds) a = (nodeId a =? nodeId d) || isOneOf ds a.
Proof. reflexivity. Qed.

Lemma forEach_remove ds : forall st,
  forEach ds remove st
  = (Return tt, mapStatements (filter (fun s => negb (isOneOf ds s))) st).
Proof.
  induction ds as [|d ds IH]; intros st; simpl.
  - unfold ret. rewrite mapStatements_same; [reflexivity|].
    intros l _. induction l as [|a l IHl]; simpl; [|rewrite IHl]; reflexivity.
  - unfold remove. rewrite (bind_Return _ (removeStatementedNodeChildren_run [d] st)).
    rewrite IH, mapStatements_compose. f_equal.
    apply mapStatements_ext. intros l _.
    induction l as [|a l IHl]; simpl; [reflexivity|].
    rewrite !isOneOf_cons. change (isOneOf [] a) with false. rewrite orb_false_r.
    destruct (nodeId a =? nodeId d); simpl; [exact IHl|].
    destruct (isOneOf ds a); simpl; [exact IHl | rewrite IHl; reflexivity].
Qed.

(** ** Distinct statements *)

Lemma existsb_eqb_In i l : existsb (Nat.eqb i) l = true <-> In i l.
Proof.
  rewrite existsb_exists. split.
  - intros (x & Hx & E). apply Nat.eqb_eq in E. subst. exact Hx.
  - intros H. exists i. split; [exact H | apply Nat.eqb_refl].
Qed.

Lemma distinctIds_NoDup l : distinctIds l = true <-> NoDup l.
Proof.
  induction l as [|a l IH]; simpl.
  - split; [constructor | reflexivity].
  - rewrite andb_true_iff, negb_true_iff, IH. split.
    + intros [H1 H2]. constructor; [|exact H2].
      intros Hin. apply existsb_eqb_In in Hin. congruence.
    + intros H. inversion H as [|x xs Hn Hd]; subst. split; [|exact Hd].
      destruct (existsb (Nat.eqb a) l) eqn:E; [|reflexivity].
      apply existsb_eqb_In in E. contradiction.
Qed.

Lemma NoDup_map_injective {A B} (f : A -> B) l :
  NoDup (map f l) -> forall a b, In a l -> In b l -> f a = f b -> a = b.
Proof.
  induction l as [|x l IH]; simpl; intros H a b Ha Hb E; [contradiction|].
  inversion H as [|y ys Hn Hd]; subst.
  destruct Ha as [<-|Ha], Hb as [<-|Hb]; auto.
  - exfalso. apply Hn. rewrite E. apply in_map. exact Hb.
  - exfalso. apply Hn. rewrite <- E. apply in_map. exact Ha.
Qed.

Lemma NoDup_map_filter {A B} (f : A -> B) (p : A -> bool) l :
  NoDup (map f l) -> NoDup (map f (filter p l)).
Proof.
  induction l as [|x l IH]; simpl; intros H; [constructor|].
  inversion H as [|y ys Hn Hd]; subst.
  destruct (p x); simpl; [|auto].
  constructor; [|auto].
  intros Hin. apply Hn. apply in_map_iff in Hin. destruct Hin as (a & E & Ha).
  apply filter_In in Ha. rewrite <- E. apply in_map. tauto.
Qed.

Lemma isOneOf_In ds s : isOneOf ds s = true <-> exists d, In d ds /\ nodeId d = nodeId s.
Proof.
  unfold isOneOf. rewrite existsb_eqb_In, in_map_iff.
  split; intros (d & H1 & H2); exists d; tauto.
Qed.

Lemma isOneOf_filter (p : Node -> bool) l s :
  NoDup (map nodeId l) -> In s l -> isOneOf (filter p l) s = p s.
Proof.
  intros Hd Hs. destruct (p s) eqn:E.
  - apply isOneOf_In. exists s. split; [apply filter_In; tauto | reflexivity].
  - destruct (isOneOf (filter p l) s) eqn:E'; [|reflexivity].
    apply isOneOf_In in E'. destruct E' as (d & Hin & Hid).
    apply filter_In in Hin. destruct Hin as [Hin Hp].
    rewrite (NoDup_map_injective nodeId l Hd d s Hin Hs Hid) in Hp. congruence.
Qed.

Lemma filter_isOneOf_filter (p : Node -> bool) l :
  NoDup (map nodeId l) ->
  filter (fun s => negb (isOneOf (filter p l) s)) l = filter (fun s => negb (p s)) l.
Proof.
  intros Hd. apply filter_ext_in. intros s Hs. rewrite isOneOf_filter; auto.
Qed.

Lemma filter_isOneOf_all l : filter (fun s => negb (isOneOf l s)) l = [].
Proof.
  assert (H : forall ds, (forall s, In s l -> In s ds) ->
                         filter (fun s => negb (isOneOf ds s)) l = []).
  { induction l as [|a l IH]; intros ds Hin; simpl; [reflexivity|].
    replace (isOneOf ds a) with true.
    - simpl. apply IH. intros s Hs. apply Hin. right. exact Hs.
    - symmetry. apply isOneOf_In. exists a. split; [apply Hin; left|]; reflexivity. }
  apply H. auto.
Qed.

Lemma declarationsOf_ids p k ss : forall id,
  map nodeId (declarationsOf p k id ss) = seq id (List.length ss).
Proof.
  induction ss as [|s ss IH]; intros id; simpl; [|rewrite IH]; reflexivity.
Qed.

Lemma NoDup_fresh_seq ids n : NoDup ids -> NoDup (ids ++ seq (S (list_max ids)) n).
Proof.
  intros H. apply NoDup_app; [exact H | apply seq_NoDup |].
  intros a Ha Hs. apply in_seq in Hs.
  assert (Hle : list_max ids <= list_max ids) by lia.
  apply list_max_le in Hle. rewrite Forall_forall in Hle.
  specialize (Hle a Ha). lia.
Qed.

Lemma NoDup_append_declarations p k ss l :
  NoDup (map nodeId l) ->
  NoDup (map nodeId (l ++ declarationsOf p k (freshId l) ss)).
Proof.
  intros H. rewrite map_app, declarationsOf_ids. apply NoDup_fresh_seq. exact H.
Qed.

(** ** Well-formed containers *)

Lemma wellFormedContainer_iff n :
  wellFormedContainer n = true
  <-> isStatementContainer n = true
      /\ TypeGuards.isBodyableNode n || hasBody n = true
      /\ NoDup (map nodeId (statementsOf n)).
Proof.
  unfold wellFormedContainer, distinctStatements.
  rewrite !andb_true_iff, distinctIds_NoDup. tauto.
Qed.

Lemma sameContainer_refl n : sameContainer n n.
Proof. unfold sameContainer. auto. Qed.

Lemma sameContainer_trans a b c : sameContainer a b -> sameContainer b c -> sameContainer a c.
Proof.
  unfold sameContainer. intros (H1 & H2 & H3) (H4 & H5 & H6).
  repeat split; try congruence. auto.
Qed.

Lemma sameContainer_container a b :
  sameContainer a b -> isStatementContainer b = isStatementContainer a.
Proof. intros (H & _). apply isStatementContainer_kind. exact H. Qed.

Lemma sameContainer_canReadStatements a b :
  sameContainer a b -> canReadStatements a = true -> canReadStatements b = true.
Proof.
  intros Hs H. apply canReadStatements_iff in H. destruct H as [Hc Hb].
  apply canReadStatements_iff.
  split; [rewrite (sameContainer_container _ _ Hs); exact Hc | apply Hs; exact Hb].
Qed.

Lemma wellFormedContainer_canReadStatements n :
  wellFormedContainer n = true -> canReadStatements n = true.
Proof.
  intros H. apply wellFormedContainer_iff in H. destruct H as (Hc & Hb & _).
  apply canReadStatements_iff. auto.
Qed.

Lemma sameContainer_guards a b :
  sameContainer a b ->
  TypeGuards.isBodiedNode b = TypeGuards.isBodiedNode a
  /\ TypeGuards.isBodyableNode b = TypeGuards.isBodyableNode a.
Proof.
  intros (H & _). unfold TypeGuards.isBodiedNode, TypeGuards.isBodyableNode.
  rewrite H. split; reflexivity.
Qed.

Lemma sameContainer_ensureBody n : sameContainer n (ensureBody n).
Proof.
  unfold sameContainer. rewrite ensureBody_kind, ensureBody_ambient.
  repeat split. intros H. unfold ensureBody.
  destruct (TypeGuards.isBodyableNode n && negb (hasBody n)) eqn:E; [|exact H].
  apply orb_true_r.
Qed.

Lemma sameContainer_withSyntaxList n l : sameContainer n (withSyntaxList n (Some l)).
Proof. unfold sameContainer. repeat split. intros _. apply orb_true_r. Qed.

(** ** Adding at the end *)

Lemma spliceAt_end (nodes children : list Node) :
  spliceAt (List.length children) nodes children = children ++ nodes.
Proof. unfold spliceAt. rewrite firstn_all, skipn_all, app_nil_r. reflexivity. Qed.

Lemma addOfKind_insert K ss st :
  canReadStatements (this st) = true ->
  addOfKind K ss st
  = insertOfKind K (Z.of_nat (List.length (statementsOf (this st)))) ss st.
Proof.
  intros Hc. pose proof (getCompilerStatements_container st Hc) as H.
  destruct K; simpl;
    unfold addClasses, addEnums, addFunctions, addInterfaces, addNamespaces,
      addTypeAliases, addVariableStatements;
    rewrite (bind_Return _ H); reflexivity.
Qed.

Lemma addOfKind_run K ss st :
  canReadStatements (this st) = true ->
  exists st',
    addOfKind K ss st
    = (Return (declarationsOf (this st) (syntaxKindOf K)
                 (freshId (statementsOf (this st))) ss), st')
    /\ sameContainer (this st) (this st')
    /\ statementsOf (this st')
       = statementsOf (this st)
         ++ declarationsOf (this st) (syntaxKindOf K) (freshId (statementsOf (this st))) ss.
Proof.
  intros Hc. rewrite addOfKind_insert by exact Hc.
  destruct ss as [|s ss].
  - exists (withThis st (ensureBody (this st))).
    rewrite insertOfKind_unfold. unfold _insertChildren.
    rewrite (bind_Return _ (addBodyIfNotExists_run st)).
    split; [reflexivity|]. simpl this.
    split; [apply sameContainer_ensureBody|].
    rewrite ensureBody_statementsOf, app_nil_r. reflexivity.
  - destruct (insertOfKind_run K st (Z.of_nat (List.length (statementsOf (this st)))) (s :: ss) Hc)
      as (text & _ & Hrun); [lia | discriminate |].
    rewrite Nat2Z.id, spliceAt_end in Hrun.
    eexists. split; [exact Hrun|]. cbn [this].
    split; [apply sameContainer_withSyntaxList | reflexivity].
Qed.

(** ** One kind of [set] *)

Lemma reconcileKind_parent p q S l K :
  ambient p = ambient q -> reconcileKind p S l K = reconcileKind q S l K.
Proof.
  intros H. unfold reconcileKind. destruct (listOf S K); [|reflexivity].
  rewrite (declarationsOf_parent p q _ _ H). reflexivity.
Qed.

Lemma reconcileBlock_run S K st :
  wellFormedContainer (this st) = true ->
  exists st',
    reconcileBlock S K st = (Return tt, st')
    /\ sameContainer (this st) (this st')
    /\ statementsOf (this st') = reconcileKind (this st) S (statementsOf (this st)) K
    /\ wellFormedContainer (this st') = true.
Proof.
  intros Hwf. pose proof Hwf as Hwf'.
  apply wellFormedContainer_iff in Hwf'. destruct Hwf' as (Hc & Hb & Hd).
  unfold reconcileBlock, reconcileKind. destruct (listOf S K) as [ss|].
  - rewrite (bind_Return _ (getAllOfKind_filter K st)).
    rewrite (bind_Return _ (forEach_remove _ st)).
    set (st1 := mapStatements _ st).
    pose proof (mapStatements_sameContainer
                  (filter (fun s => negb (isOneOf (filter (visibleOfKind K) (statementsOf (this st))) s)))
                  st) as Hsame.
    fold st1 in Hsame.
    assert (Hst1 : statementsOf (this st1)
                   = filter (fun n => negb (visibleOfKind K n)) (statementsOf (this st))).
    { unfold st1. rewrite mapStatements_statementsOf by reflexivity.
      apply filter_isOneOf_filter. exact Hd. }
    assert (Hc1 : canReadStatements (this st1) = true).
    { apply (sameContainer_canReadStatements _ _ Hsame).
      apply wellFormedContainer_canReadStatements. exact Hwf. }
    destruct (addOfKind_run K ss st1 Hc1) as (st2 & Hadd & Hsame2 & Hst2).
    rewrite (bind_Return _ Hadd). exists st2.
    split; [reflexivity|].
    assert (Hsame02 : sameContainer (this st) (this st2))
      by (eapply sameContainer_trans; eassumption).
    split; [exact Hsame02|].
    assert (Hamb : ambient (this st1) = ambient (this st)) by (apply Hsame).
    rewrite Hst1 in Hst2.
    rewrite (declarationsOf_parent _ _ _ _ Hamb) in Hst2.
    split; [exact Hst2|].
    apply wellFormedContainer_iff.
    split; [rewrite (sameContainer_container _ _ Hsame02); exact Hc|].
    split; [apply Hsame02; exact Hb|].
    rewrite Hst2. apply NoDup_append_declarations, NoDup_map_filter. exact Hd.
  - exists st. split; [reflexivity|]. split; [apply sameContainer_refl|].
    split; [reflexivity | exact Hwf].
Qed.

Lemma set_declarations_blocks S :
  set_declarations S
  = (reconcileBlock S Classes ;;; reconcileBlock S Enums ;;; reconcileBlock S Functions ;;;
     reconcileBlock S Interfaces ;;; reconcileBlock S Namespaces ;;;
     reconcileBlock S TypeAliases).
Proof. reflexivity. Qed.

Lemma reconcileBlocks_run S p ks : forall st,
  wellFormedContainer (this st) = true ->
  ambient p = ambient (this st) ->
  exists st',
    fold_right (fun K m => reconcileBlock S K ;;; m) (ret tt) ks st = (Return tt, st')
    /\ sameContainer (this st) (this st')
    /\ statementsOf (this st') = fold_left (reconcileKind p S) ks (statementsOf (this st))
    /\ wellFormedContainer (this st') = true.
Proof.
  induction ks as [|K ks IH]; intros st Hwf Hp; simpl.
  - exists st. split; [reflexivity|]. split; [apply sameContainer_refl|].
    split; [reflexivity | exact Hwf].
  - destruct (reconcileBlock_run S K st Hwf) as (st1 & Hrun & Hsame & Hst & Hwf1).
    rewrite (bind_Return _ Hrun).
    assert (Hp1 : ambient p = ambient (this st1)).
    { rewrite Hp. symmetry. apply Hsame. }
    destruct (IH st1 Hwf1 Hp1) as (st2 & Hrun2 & Hsame2 & Hst2 & Hwf2).
    exists st2. split; [exact Hrun2|].
    split; [eapply sameContainer_trans; eassumption|].
    split; [|exact Hwf2].
    rewrite Hst2, Hst. rewrite (reconcileKind_parent _ p) by (symmetry; exact Hp).
    reflexivity.
Qed.

Lemma set_declarations_run S st :
  wellFormedContainer (this st) = true ->
  exists st',
    set_declarations S st = (Return tt, st')
    /\ sameContainer (this st) (this st')
    /\ statementsOf (this st') = reconcileAll (this st) S (statementsOf (this st))
    /\ wellFormedContainer (this st') = true.
Proof.
  intros Hwf.
  destruct (reconcileBlocks_run S (this st) kindsInOrder st Hwf eq_refl)
    as (st' & Hrun & Hsame & Hst & Hwf').
  exists st'. split; [|auto].
  rewrite set_declarations_blocks. rewrite <- Hrun. simpl.
  unfold bind. 
  repeat match goal with
         | |- context [reconcileBlock ?S ?K ?s] => destruct (reconcileBlock S K s) as [[[]|?] ?]
         end; reflexivity.
Qed.

(** ** The first and the last part of [set] *)

Lemma withThis_this st : withThis st (this st) = st.
Proof. destruct st; reflexivity. Qed.

Lemma slice_all {A} (l : list A) :
  l <> [] -> slice 0 (Z.of_nat (List.length l) - 1 + 1) l = l.
Proof.
  intros H. unfold slice.
  assert (Hlen : (0 < Z.of_nat (List.length l))%Z) by (destruct l; [congruence | simpl; lia]).
  replace (Z.of_nat (List.length l) - 1 + 1)%Z with (Z.of_nat (List.length l)) by lia.
  replace (0 <? 0)%Z with false by reflexivity.
  replace (Z.of_nat (List.length l) <? 0)%Z with false by (symmetry; apply Z.ltb_ge; lia).
  rewrite !Z.min_l by lia. rewrite Z.sub_0_r, Z.max_l by lia.
  rewrite Nat2Z.id. simpl. apply firstn_all.
Qed.

Lemma bodied_isStatementContainer n :
  TypeGuards.isBodiedNode n || TypeGuards.isBodyableNode n = true ->
  isStatementContainer n = true.
Proof.
  destruct n as [id k nm amb sl ds]. destruct k; simpl; try discriminate; reflexivity.
Qed.

Lemma removeStatements_all st :
  canReadStatements (this st) = true ->
  statementsOf (this st) <> [] ->
  removeStatements (0%Z, (Z.of_nat (List.length (statementsOf (this st))) - 1)%Z) st
  = (Return tt, withThis st (withSyntaxList (this st) (Some []))).
Proof.
  intros Hc Hne. unfold removeStatements.
  rewrite (bind_Return _ (getStatements_container st Hc)). cbn [fst snd].
  assert (Hlen : (0 < Z.of_nat (List.length (statementsOf (this st))))%Z)
    by (destruct (statementsOf (this st)); [congruence | simpl; lia]).
  assert (Hr : throwIfRangeOutOfRange
                 (0%Z, (Z.of_nat (List.length (statementsOf (this st))) - 1)%Z)
                 (0%Z, Z.of_nat (List.length (statementsOf (this st)))) = Return tt).
  { unfold throwIfRangeOutOfRange. cbn [fst snd].
    destruct (Z.ltb_spec (Z.of_nat (List.length (statementsOf (this st))) - 1) 0); [lia|].
    replace (0 <? 0)%Z with false by reflexivity.
    destruct (Z.leb_spec (Z.of_nat (List.length (statementsOf (this st)))) 0); [lia|].
    cbn [orb].
    destruct (Z.leb_spec (Z.of_nat (List.length (statementsOf (this st))))
                (Z.of_nat (List.length (statementsOf (this st))) - 1)); [lia|].
    reflexivity. }
  unfold bind at 1. unfold liftOutcome at 1. rewrite Hr.
  rewrite slice_all by exact Hne.
  rewrite removeStatementedNodeChildren_run. f_equal.
  unfold mapStatements. unfold statementsOf in *.
  destruct (syntaxList (this st)) as [l|]; [|congruence]. simpl.
  rewrite filter_isOneOf_all. reflexivity.
Qed.

Lemma set_removeBodyText_run S st :
  canReadStatements (this st) = true ->
  set_removeBodyText S st = (Return tt, withThis st (afterBodyTextRemoval S (this st))).
Proof.
  intros Hc. unfold set_removeBodyText, afterBodyTextRemoval.
  unfold bind at 1. unfold getThis at 1.
  destruct (TypeGuards.isBodiedNode (this st) || TypeGuards.isBodyableNode (this st));
    [|unfold ret; rewrite withThis_this; reflexivity].
  destruct (bodyTextValue S) as [text|].
  - rewrite (bind_Return _ (getCompilerStatements_container st Hc)).
    destruct (statementsOf (this st)) as [|a l] eqn:E.
    + simpl. unfold ret. rewrite withThis_this. reflexivity.
    + replace (0 <? Z.of_nat (List.length (a :: l)))%Z with true
        by (symmetry; apply Z.ltb_lt; simpl; lia).
      replace (0 <? List.length (a :: l)) with true by reflexivity.
      rewrite <- E. apply removeStatements_all; [exact Hc | congruence].
  - destruct (TypeGuards.isBodyableNode (this st) && hasOwnBodyText S);
      [reflexivity | unfold ret; rewrite withThis_this; reflexivity].
Qed.

Lemma afterBodyTextRemoval_sameContainer S n : sameContainer n (afterBodyTextRemoval S n).
Proof.
  unfold afterBodyTextRemoval.
  destruct (TypeGuards.isBodiedNode n || TypeGuards.isBodyableNode n);
    [|apply sameContainer_refl].
  destruct (bodyTextValue S).
  - destruct (0 <? List.length (statementsOf n));
      [apply sameContainer_withSyntaxList | apply sameContainer_refl].
  - destruct (TypeGuards.isBodyableNode n && hasOwnBodyText S) eqn:E;
      [|apply sameContainer_refl].
    apply andb_true_iff in E. destruct E as [E _].
    unfold sameContainer. repeat split. intros _.
    unfold TypeGuards.isBodyableNode in *. simpl. rewrite E. reflexivity.
Qed.

Lemma afterBodyTextRemoval_statements S n :
  statementsOf (afterBodyTextRemoval S n)
  = if clearsBody S n then [] else statementsOf n.
Proof.
  unfold afterBodyTextRemoval, clearsBody.
  destruct (TypeGuards.isBodiedNode n || TypeGuards.isBodyableNode n); [|reflexivity].
  simpl. destruct (bodyTextValue S).
  - destruct (statementsOf n) eqn:E; simpl; [exact E | reflexivity].
  - destruct (TypeGuards.isBodyableNode n && hasOwnBodyText S); reflexivity.
Qed.

Lemma afterBodyTextRemoval_wellFormed S n :
  wellFormedContainer n = true -> wellFormedContainer (afterBodyTextRemoval S n) = true.
Proof.
  intros H. apply wellFormedContainer_iff in H. destruct H as (Hc & Hb & Hd).
  pose proof (afterBodyTextRemoval_sameContainer S n) as Hs.
  apply wellFormedContainer_iff.
  split; [rewrite (sameContainer_container _ _ Hs); exact Hc|].
  split; [apply Hs; exact Hb|].
  rewrite afterBodyTextRemoval_statements. destruct (clearsBody S n); [constructor | exact Hd].
Qed.

Lemma insertChildText_own_end parseStatements text st :
  insertChildText parseStatements OwnSyntaxList
    (Z.of_nat (List.length (statementsOf (this st)))) text st
  = (Return (renumber (freshId (statementsOf (this st)))
               (parseStatements (printTextFromStringOrWriter [] text))),
     {| this := withSyntaxList (this st)
                  (Some (statementsOf (this st)
                         ++ renumber (freshId (statementsOf (this st)))
                              (parseStatements (printTextFromStringOrWriter [] text))));
        insertions := insertions st
                      ++ [{| insertIndex := List.length (statementsOf (this st));
                             newText := printTextFromStringOrWriter [] text |}] |}).
Proof.
  unfold insertChildText. unfold bind at 1. unfold getThis at 1. cbn [childrenOfOwner].
  unfold bind at 1. unfold liftOutcome at 1.
  rewrite verifyAndGetIndex_valid by lia. rewrite Nat2Z.id.
  run. rewrite spliceAt_end. reflexivity.
Qed.

Lemma addStatements_bodied_run parseStatements text st :
  canReadStatements (this st) = true ->
  TypeGuards.isBodiedNode (this st) || TypeGuards.isBodyableNode (this st) = true ->
  addStatements parseStatements text st
  = (Return (renumber (freshId (statementsOf (this st)))
               (parseStatements (printTextFromStringOrWriter [] text))),
     {| this := withSyntaxList (this st)
                  (Some (statementsOf (this st)
                         ++ renumber (freshId (statementsOf (this st)))
                              (parseStatements (printTextFromStringOrWriter [] text))));
        insertions := insertions st
                      ++ [{| insertIndex := List.length (statementsOf (this st));
                             newText := printTextFromStringOrWriter [] text |}] |}).
Proof.
  intros Hc Hg. unfold addStatements.
  pose proof (proj2 (proj1 (canReadStatements_iff _) Hc)) as Hb.
  rewrite (bind_Return _ (getCompilerStatements_container st Hc)).
  unfold insertStatements.
  rewrite (bind_Return _ (addBodyIfNotExists_run st)).
  pose proof (sameContainer_ensureBody (this st)) as Hs.
  assert (Hg' : TypeGuards.isBodiedNode (this (withThis st (ensureBody (this st))))
                || TypeGuards.isBodyableNode (this (withThis st (ensureBody (this st)))) = true).
  { simpl. destruct (sameContainer_guards _ _ Hs) as [-> ->]. exact Hg. }
  assert (Hb' : hasBody (this (withThis st (ensureBody (this st)))) = true).
  { simpl. unfold ensureBody.
    destruct (TypeGuards.isBodyableNode (this st)) eqn:E1;
      destruct (hasBody (this st)) eqn:E2; simpl; auto; discriminate. }
  rewrite (bind_Return _ (insertStatements_owner_bodied _ Hg' Hb')).
  pose proof (insertChildText_own_end parseStatements text
                (withThis st (ensureBody (this st)))) as Hrun.
  simpl this in Hrun. rewrite ensureBody_statementsOf in Hrun.
  rewrite Hrun. rewrite withSyntaxList_ensureBody. reflexivity.
Qed.

Lemma set_bodyText_run parseStatements S st :
  wellFormedContainer (this st) = true ->
  exists st',
    set_bodyText parseStatements S st = (Return tt, st')
    /\ sameContainer (this st) (this st')
    /\ statementsOf (this st')
       = statementsOf (this st)
         ++ bodyStatements parseStatements S (this st) (statementsOf (this st)).
Proof.
  intros Hwf. apply wellFormedContainer_canReadStatements in Hwf. rename Hwf into Hc.
  unfold set_bodyText, bodyStatements.
  unfold bind at 1. unfold getThis at 1.
  destruct (TypeGuards.isBodiedNode (this st) || TypeGuards.isBodyableNode (this st)) eqn:Hg;
    [|exists st; rewrite app_nil_r; split; [reflexivity|]; split;
      [apply sameContainer_refl | reflexivity]].
  destruct (bodyTextValue S) as [text|];
    [|exists st; rewrite app_nil_r; split; [reflexivity|]; split;
      [apply sameContainer_refl | reflexivity]].
  rewrite (bind_Return _ (getCompilerStatements_container st Hc)).
  rewrite (bind_Return _ (addStatements_bodied_run parseStatements _ st Hc Hg)).
  eexists. split; [reflexivity|]. cbn [this].
  split; [apply sameContainer_withSyntaxList | reflexivity].
Qed.

Lemma reconcileAll_parent p q S l :
  ambient p = ambient q -> reconcileAll p S l = reconcileAll q S l.
Proof.
  intros H. unfold reconcileAll. generalize kindsInOrder. intros ks. revert l.
  induction ks as [|K ks IH]; intros l; simpl; [reflexivity|].
  rewrite (reconcileKind_parent p q S l K H). apply IH.
Qed.

Lemma bodyStatements_parent parseStatements S p q l :
  sameContainer p q ->
  bodyStatements parseStatements S q l = bodyStatements parseStatements S p l.
Proof.
  intros H. unfold bodyStatements.
  destruct (sameContainer_guards _ _ H) as [-> ->]. reflexivity.
Qed.

(** The outcome of [set] and the statements it leaves. *)
Lemma set_run parseStatements S st :
  wellFormedContainer (this st) = true ->
  exists st',
    set parseStatements S st = (Return tt, st')
    /\ sameContainer (this st) (this st')
    /\ statementsOf (this st')
       = reconcileAll (this st) S (statementsOf (afterBodyTextRemoval S (this st)))
         ++ bodyStatements parseStatements S (this st)
              (reconcileAll (this st) S (statementsOf (afterBodyTextRemoval S (this st)))).
Proof.
  intros Hwf. pose proof (wellFormedContainer_canReadStatements _ Hwf) as Hc.
  unfold set.
  rewrite (bind_Return _ (set_removeBodyText_run S st Hc)).
  unfold callBaseSet. unfold bind at 1. unfold ret at 1.
  set (st1 := withThis st (afterBodyTextRemoval S (this st))).
  assert (Hs1 : sameContainer (this st) (this st1))
    by apply afterBodyTextRemoval_sameContainer.
  assert (Hwf1 : wellFormedContainer (this st1) = true)
    by (apply afterBodyTextRemoval_wellFormed; exact Hwf).
  destruct (set_declarations_run S st1 Hwf1) as (st2 & Hrun2 & Hs2 & Hst2 & Hwf2).
  rewrite (bind_Return _ Hrun2).
  destruct (set_bodyText_run parseStatements S st2 Hwf2) as (st3 & Hrun3 & Hs3 & Hst3).
  exists st3. split; [exact Hrun3|].
  assert (Hs02 : sameContainer (this st) (this st2))
    by (eapply sameContainer_trans; eassumption).
  split; [eapply sameContainer_trans; eassumption|].
  rewrite Hst3, Hst2.
  rewrite (bodyStatements_parent parseStatements S _ _ _ Hs02).
  rewrite (reconcileAll_parent (this st1) (this st)) by (apply Hs1).
  reflexivity.
Qed.

(** ** What each kind sees after [set] *)

Lemma DeclarationKind_eq_dec (a b : DeclarationKind) : {a = b} + {a <> b}.
Proof. decide equality. Qed.

Lemma syntaxKindOf_injective a b : syntaxKindOf a = syntaxKindOf b -> a = b.
Proof. destruct a, b; simpl; intros H; try reflexivity; discriminate H. Qed.

Lemma visibleOfKind_kind K n : visibleOfKind K n = true -> kind n = syntaxKindOf K.
Proof.
  unfold visibleOfKind. intros H. apply andb_true_iff in H. destruct H as [H _].
  apply isKind_true. exact H.
Qed.

Lemma visibleOfKind_declarationOf K p id s :
  visibleOfKind K (declarationOf p (syntaxKindOf K) id s) = true.
Proof.
  unfold visibleOfKind. apply andb_true_iff. split; [apply isKind_true; reflexivity|].
  destruct K; try reflexivity.
  unfold isAmbient, isImplementation, hasBody, getBody, declarationOf. simpl.
  destruct (isNodeAmbientOrInAmbientContext p || declared s); reflexivity.
Qed.

Lemma visibleOfKind_other K K' n :
  K <> K' -> kind n = syntaxKindOf K' -> visibleOfKind K n = false.
Proof.
  intros Hne Hk. destruct (visibleOfKind K n) eqn:E; [|reflexivity].
  apply visibleOfKind_kind in E. exfalso. apply Hne.
  apply syntaxKindOf_injective. congruence.
Qed.

Lemma declarationsOf_kind p k ss : forall id n,
  In n (declarationsOf p k id ss) -> kind n = k.
Proof.
  induction ss as [|s ss IH]; intros id n; simpl; [contradiction|].
  intros [<-|H]; [reflexivity | exact (IH _ _ H)].
Qed.

Lemma filter_none {A} (f : A -> bool) l : (forall a, In a l -> f a = false) -> filter f l = [].
Proof.
  induction l as [|a l IH]; intros H; simpl; [reflexivity|].
  rewrite (H a (or_introl eq_refl)). apply IH.
  intros b Hb. apply H. right. exact Hb.
Qed.

Lemma filter_declarationsOf_same K p id ss :
  filter (visibleOfKind K) (declarationsOf p (syntaxKindOf K) id ss)
  = declarationsOf p (syntaxKindOf K) id ss.
Proof.
  revert id. induction ss as [|s ss IH]; intros id; simpl; [reflexivity|].
  rewrite visibleOfKind_declarationOf, IH. reflexivity.
Qed.

Lemma filter_declarationsOf_other K K' p id ss :
  K <> K' -> filter (visibleOfKind K) (declarationsOf p (syntaxKindOf K') id ss) = [].
Proof.
  intros Hne. apply filter_none. intros n Hn.
  apply (visibleOfKind_other K K'); [exact Hne | exact (declarationsOf_kind _ _ _ _ _ Hn)].
Qed.

Lemma view_reconcile_same K p S l ss :
  listOf S K = Some ss ->
  filter (visibleOfKind K) (reconcileKind p S l K)
  = declarationsOf p (syntaxKindOf K)
      (freshId (filter (fun n => negb (visibleOfKind K n)) l)) ss.
Proof.
  intros H. unfold reconcileKind. rewrite H. cbv zeta.
  rewrite filter_app, filter_declarationsOf_same.
  rewrite filter_none; [reflexivity|].
  intros n Hn. apply filter_In in Hn. destruct Hn as [_ Hn].
  apply negb_true_iff. exact Hn.
Qed.

Lemma view_reconcile_other K K' p S l :
  K <> K' ->
  filter (visibleOfKind K) (reconcileKind p S l K') = filter (visibleOfKind K) l.
Proof.
  intros Hne. unfold reconcileKind. destruct (listOf S K') as [ss|]; [|reflexivity].
  cbv zeta. rewrite filter_app, filter_declarationsOf_other, app_nil_r by exact Hne.
  induction l as [|a l IH]; simpl; [reflexivity|].
  destruct (visibleOfKind K' a) eqn:E'; simpl.
  - rewrite IH. rewrite (visibleOfKind_other K K' a Hne (visibleOfKind_kind K' a E')).
    reflexivity.
  - rewrite IH. reflexivity.
Qed.

Lemma view_reconcile_absent K p S l :
  listOf S K = None ->
  forall K', filter (visibleOfKind K) (reconcileKind p S l K') = filter (visibleOfKind K) l.
Proof.
  intros H K'. destruct (DeclarationKind_eq_dec K K') as [<-|Hne].
  - unfold reconcileKind. rewrite H. reflexivity.
  - apply view_reconcile_other. exact Hne.
Qed.

Lemma view_fold_untouched K p S ks : forall l,
  (~ In K ks \/ listOf S K = None) ->
  filter (visibleOfKind K) (fold_left (reconcileKind p S) ks l) = filter (visibleOfKind K) l.
Proof.
  induction ks as [|K' ks IH]; intros l H; simpl; [reflexivity|].
  rewrite IH.
  - destruct H as [H|H]; [|apply view_reconcile_absent; exact H].
    apply view_reconcile_other. intros ->. apply H. left. reflexivity.
  - destruct H as [H|H]; [left | right; exact H].
    intros Hin. apply H. right. exact Hin.
Qed.

Lemma view_fold_replaced K p S ss ks : forall l,
  NoDup ks -> In K ks -> listOf S K = Some ss ->
  exists id,
    filter (visibleOfKind K) (fold_left (reconcileKind p S) ks l)
    = declarationsOf p (syntaxKindOf K) id ss.
Proof.
  induction ks as [|K' ks IH]; intros l Hd Hin Hl; [contradiction|].
  inversion Hd as [|x xs Hn Hd']; subst. simpl.
  destruct (DeclarationKind_eq_dec K' K) as [->|Hne].
  - rewrite view_fold_untouched by (left; exact Hn).
    eexists. apply view_reconcile_same. exact Hl.
  - destruct Hin as [Hin|Hin]; [contradiction|].
    apply IH; assumption.
Qed.

Lemma kindsInOrder_NoDup : NoDup kindsInOrder.
Proof.
  unfold kindsInOrder.
  repeat (constructor; [simpl; intuition discriminate|]). constructor.
Qed.

Lemma listOf_Some_in S K ss : listOf S K = Some ss -> In K kindsInOrder.
Proof. destruct K; simpl; intros H; try discriminate; tauto. Qed.

Lemma in_fold_untouched p S n ks : forall l,
  In n l ->
  (forall K, listOf S K <> None -> kind n <> syntaxKindOf K) ->
  In n (fold_left (reconcileKind p S) ks l).
Proof.
  induction ks as [|K ks IH]; intros l Hin Hv; simpl; [exact Hin|].
  apply IH; [|exact Hv].
  unfold reconcileKind. destruct (listOf S K) as [ss|] eqn:E; [|exact Hin].
  apply in_or_app. left. apply filter_In. split; [exact Hin|].
  destruct (visibleOfKind K n) eqn:Ev; [|reflexivity].
  exfalso. apply (Hv K); [congruence | exact (visibleOfKind_kind K n Ev)].
Qed.

(** ** Claim C2: [set] replaces the kinds it lists *)

(** C2, as stated, fails in two ways.  On [function h() { class A {} x; }]
    a [set] that gives only a body text removes the class [A], although the
    structure has no list of classes.  On a source file that holds only the
    overload signature [function f(): void;] a [set] that gives a list of
    functions leaves that function declaration where it was, although the
    list of its kind is present: [getFunctions] does not return it, so it is
    not removed. *)
Lemma C2_counterexample_unlisted_removed_listed_kept :
  ~ (listOf (bodyTextOnly "y;") Classes = None ->
     outcome (getClasses
                (finalState (set oneStatementParser (bodyTextOnly "y;") functionWithBody)))
     = outcome (getClasses functionWithBody))
  /\ ~ (listOf (functionsOnly [structureNamed "g"]) Functions <> None ->
        forall n,
          In n (statementsOf (this (sourceFileOf [overloadSignatureF]))) ->
          kind n = syntaxKindOf Functions ->
          ~ In n (statementsOf
                    (this (finalState
                             (set oneStatementParser (functionsOnly [structureNamed "g"])
                                (sourceFileOf [overloadSignatureF])))))).
Proof.
  split.
  - intros H. specialize (H eq_refl). vm_compute in H. discriminate H.
  - intros H.
    assert (Hl : listOf (functionsOnly [structureNamed "g"]) Functions <> None)
      by discriminate.
    apply (H Hl overloadSignatureF (or_introl eq_refl) eq_refl).
    vm_compute. left. reflexivity.
Qed.

(** C2, amended. On a well-formed container [set] succeeds, and its
    statements are then a declarations part followed by the statements of the
    body text, which only a bodied or bodyable container given a body text
    has.  For each kind whose list is present, the declarations [getKs]
    returned are removed and the list is added: what [getKs] returns from the
    declarations part is exactly the declarations of that list, in order.
    Unless [set] clears the body first (on a bodied or bodyable container, when
    the body text is given, or, for a bodyable one, present and null), for
    each kind whose list is absent what [getKs] returns from the declarations
    part is what it returned before, and every statement whose syntax kind is
    not that of a listed kind stays.  When the body is cleared first, the
    declarations part holds the declarations of the lists and nothing else. *)
Theorem C2_set_replaces_listed_kinds (parseStatements : CodeBlockWriter -> list Node)
  (S : StatementedNodeStructure) (st : State) :
  wellFormedContainer (this st) = true ->
  exists st' decls,
    set parseStatements S st = (Return tt, st')
    /\ statementsOf (this st') = decls ++ bodyStatements parseStatements S (this st) decls
    /\ (forall K,
           getAllOfKind K st'
           = (Return (filter (visibleOfKind K) decls
                      ++ filter (visibleOfKind K)
                           (bodyStatements parseStatements S (this st) decls)), st'))
    /\ (bodyTextValue S = None -> bodyStatements parseStatements S (this st) decls = [])
    /\ (forall K ss, listOf S K = Some ss ->
           exists id,
             filter (visibleOfKind K) decls
             = declarationsOf (this st) (syntaxKindOf K) id ss)
    /\ (clearsBody S (this st) = false ->
        (forall K, listOf S K = None ->
                   filter (visibleOfKind K) decls
                   = filter (visibleOfKind K) (statementsOf (this st)))
        /\ (forall n, In n (statementsOf (this st)) ->
                      (forall K, listOf S K <> None -> kind n <> syntaxKindOf K) ->
                      In n decls))
    /\ (clearsBody S (this st) = true -> decls = reconcileAll (this st) S []).
Proof.
  intros Hwf.
  destruct (set_run parseStatements S st Hwf) as (st' & Hrun & Hsame & Hst).
  exists st'. eexists. split; [exact Hrun|]. split; [exact Hst|].
  rewrite afterBodyTextRemoval_statements.
  split; [|split; [|split; [|split]]].
  - intros K. rewrite getAllOfKind_filter, Hst, filter_app.
    rewrite afterBodyTextRemoval_statements. reflexivity.
  - intros Hn. unfold bodyStatements. rewrite Hn.
    destruct (_ || _); reflexivity.
  - intros K ss Hl. unfold reconcileAll.
    apply view_fold_replaced;
      [apply kindsInOrder_NoDup | exact (listOf_Some_in S K ss Hl) | exact Hl].
  - intros Hcl. rewrite Hcl. split.
    + intros K Hl. unfold reconcileAll. apply view_fold_untouched. right. exact Hl.
    + intros n Hin Hv. unfold reconcileAll. apply in_fold_untouched; assumption.
  - intros Hcl. rewrite Hcl. reflexivity.
Qed.

Lemma C2_set_replaces_listed_kinds_witness :
  wellFormedContainer (this (sourceFileOf [classA; expressionX])) = true
  /\ exists st',
      set oneStatementParser (classesOnly [structureNamed "B"])
        (sourceFileOf [classA; expressionX]) = (Return tt, st')
      /\ exists id,
          outcome (getClasses st')
          = Return [declarationOf (this (sourceFileOf [classA; expressionX]))
                      SyntaxKind.ClassDeclaration id (structureNamed "B")].
Proof.
  split; [reflexivity|].
  destruct (C2_set_replaces_listed_kinds oneStatementParser (classesOnly [structureNamed "B"])
              (sourceFileOf [classA; expressionX]) eq_refl)
    as (st' & decls & Hrun & _ & Hview & Hbody & Hlisted & _).
  exists st'. split; [exact Hrun|].
  destruct (Hlisted Classes [structureNamed "B"] eq_refl) as [id Hid].
  exists id. pose proof (Hview Classes) as Hc. simpl getAllOfKind in Hc.
  rewrite Hc. rewrite (Hbody eq_refl), Hid. reflexivity.
Defined.

(** ** Claim C10: a body text clears the container first *)

(** C10. On a bodied or bodyable container with at least one statement,
    [set] with a body text that is not null first removes every statement by
    [removeStatements([0, count - 1])], whatever its kind and whatever lists
    the structure has; the lists and then the body text are applied to the
    emptied container.  The statements [set] leaves are the declarations of
    the lists, reconciled from no statement at all, followed by the statements
    of the body text: they do not depend on the statements that were there. *)
Theorem C10_set_bodyText_removes_all_first (parseStatements : CodeBlockWriter -> list Node)
  (S : StatementedNodeStructure) (st : State) (text : TextOrWriterFunction) :
  TypeGuards.isBodiedNode (this st) || TypeGuards.isBodyableNode (this st) = true ->
  statementsOf (this st) <> [] ->
  bodyTextValue S = Some text ->
  removeStatements (0%Z, (Z.of_nat (List.length (statementsOf (this st))) - 1)%Z) st
  = (Return tt, withThis st (withSyntaxList (this st) (Some [])))
  /\ set_removeBodyText S st
     = removeStatements (0%Z, (Z.of_nat (List.length (statementsOf (this st))) - 1)%Z) st
  /\ set parseStatements S st
     = (callBaseSet ;;; set_declarations S ;;; set_bodyText parseStatements S)
         (withThis st (withSyntaxList (this st) (Some [])))
  /\ exists st',
      set parseStatements S st = (Return tt, st')
      /\ statementsOf (this st')
         = reconcileAll (this st) S []
           ++ renumber (freshId (reconcileAll (this st) S []))
                (parseStatements
                   (printTextFromStringOrWriter
                      [ConditionalNewLine (0 <? List.length (reconcileAll (this st) S []))]
                      text)).
Proof.
  intros Hg Hne Hb.
  pose proof (bodied_isStatementContainer _ Hg) as Hc.
  pose proof (statements_canReadStatements _ Hc Hne) as Hr.
  pose proof (removeStatements_all st Hr Hne) as Hrm.
  assert (Hafter : afterBodyTextRemoval S (this st) = withSyntaxList (this st) (Some [])).
  { unfold afterBodyTextRemoval. rewrite Hg, Hb.
    destruct (statementsOf (this st)); [congruence | reflexivity]. }
  assert (Hfirst : set_removeBodyText S st
                   = (Return tt, withThis st (withSyntaxList (this st) (Some [])))).
  { rewrite set_removeBodyText_run by exact Hr. rewrite Hafter. reflexivity. }
  split; [exact Hrm|]. split; [rewrite Hfirst, Hrm; reflexivity|].
  split; [unfold set; rewrite (bind_Return _ Hfirst); reflexivity|].
  set (emptied := withThis st (withSyntaxList (this st) (Some []))).
  assert (Hwf : wellFormedContainer (this emptied) = true).
  { apply wellFormedContainer_iff. simpl.
    split; [rewrite (isStatementContainer_kind _ (this st)) by reflexivity; exact Hc|].
    split; [apply orb_true_r | constructor]. }
  destruct (set_declarations_run S emptied Hwf) as (st2 & Hrun2 & Hs2 & Hst2 & Hwf2).
  destruct (set_bodyText_run parseStatements S st2 Hwf2) as (st3 & Hrun3 & Hs3 & Hst3).
  exists st3. split.
  - unfold set. rewrite (bind_Return _ Hfirst).
    unfold callBaseSet. unfold bind at 1. unfold ret at 1.
    rewrite (bind_Return _ Hrun2). exact Hrun3.
  - rewrite Hst3, Hst2. cbn [emptied this withThis].
    rewrite statementsOf_withSyntaxList.
    rewrite (reconcileAll_parent _ (this st)) by reflexivity.
    unfold bodyStatements.
    destruct (sameContainer_guards _ _ Hs2) as [-> ->]. cbn [emptied this withThis].
    replace (TypeGuards.isBodiedNode (withSyntaxList (this st) (Some []))
             || TypeGuards.isBodyableNode (withSyntaxList (this st) (Some [])))
      with true by (symmetry; exact Hg).
    rewrite Hb. reflexivity.
Qed.

Lemma C10_set_bodyText_removes_all_first_witness :
  TypeGuards.isBodiedNode (this functionWithBody)
  || TypeGuards.isBodyableNode (this functionWithBody) = true
  /\ statementsOf (this functionWithBody) <> []
  /\ bodyTextValue (bodyTextOnly "y;") = Some (Text "y;")
  /\ removeStatements (0%Z, 1%Z) functionWithBody
     = (Return tt, withThis functionWithBody (withSyntaxList (this functionWithBody) (Some [])))
  /\ exists st',
      set oneStatementParser (bodyTextOnly "y;") functionWithBody = (Return tt, st')
      /\ statementsOf (this st')
         = [mkNode 1 SyntaxKind.ExpressionStatement None false None []].
Proof.
  split; [reflexivity|]. split; [discriminate|]. split; [reflexivity|].
  destruct (C10_set_bodyText_removes_all_first oneStatementParser (bodyTextOnly "y;")
              functionWithBody (Text "y;") eq_refl)
    as (Hrm & _ & _ & st' & Hrun & Hst); [discriminate | reflexivity |].
  split; [exact Hrm|]. exists st'. split; [exact Hrun | exact Hst].
Defined.

(** ** Scenarios of the specification *)

(** Two classes inserted into an empty document stand at the indices 0 and 1,
    and the text starts with the classes, as the point is the start of the
    file. *)
Example scenario_two_classes_in_empty_document :
  let r := insertClasses 0 [structureNamed "A"; structureNamed "B"] (sourceFileOf []) in
  map name (statementsOf (this (finalState r))) = [Some "A"%string; Some "B"%string]
  /\ map newText (insertions (finalState r))
     = [[PrintTexts (forClassDeclaration false) [structureNamed "A"; structureNamed "B"];
         NewLine]].
Proof. split; reflexivity. Qed.

(** Removing the middle one of three statements leaves the other two, in
    order. *)
Example scenario_remove_middle_statement :
  removeStatements (1%Z, 1%Z) (sourceFileOf [classA; expressionX; returnStatement])
  = (Return tt, sourceFileOf [classA; returnStatement]).
Proof. reflexivity. Qed.

(** Removing the range an insertion occupied restores the statements. *)
Example scenario_insert_then_remove :
  let r := insertEnums 1 [structureNamed "E"; structureNamed "F"]
             (sourceFileOf [classA; expressionX]) in
  statementsOf (this (finalState (removeStatements (1%Z, 2%Z) (finalState r))))
  = [classA; expressionX].
Proof. reflexivity. Qed.

(** An insertion index beyond the statement count is refused before anything
    is written. *)
Example scenario_insert_out_of_bounds :
  insertClasses 3 [structureNamed "A"] (sourceFileOf [classA; expressionX])
  = (Throw OutOfBounds, sourceFileOf [classA; expressionX]).
Proof. reflexivity. Qed.

(** * Further properties of the mixin *)

(** ** Node kinds without statements *)

Lemma insertOfKind_unsupported K i ss st :
  isStatementContainer (this st) = false -> ss <> [] ->
  exists message, insertOfKind K i ss st = (Throw (NotImplemented message), st).
Proof.
  intros Hc Hs. destruct (getStatements_other st Hc) as [m Hm]. exists m.
  rewrite insertOfKind_unfold. unfold _insertChildren.
  rewrite (bind_Return _ (addBodyIfNotExists_run st)).
  assert (He : ensureBody (this st) = this st).
  { unfold ensureBody. destruct (TypeGuards.isBodyableNode (this st)) eqn:E; [|reflexivity].
    rewrite (bodyable_isStatementContainer _ E) in Hc. discriminate. }
  rewrite He, withThis_this.
  unfold insertIntoBracesOrSourceFileWithGetChildren. cbn [structures].
  destruct ss; [congruence|]. apply bind_Throw. exact Hm.
Qed.

(** X1. On a node of a kind [getCompilerStatements] does not know, every
    method that needs the statements fails with the not-implemented error and
    leaves the node as it was: [getStatements], [getStatementByKind],
    [removeStatements], [removeStatement], [addStatements], every [addKs] and
    every [insertKs] of a non-empty list.  The [getKs] do not read the
    statements that way and still answer from the child syntax list. *)
Theorem X1_unsupported_kind_not_implemented (parseStatements : CodeBlockWriter -> list Node)
  (st : State) :
  isStatementContainer (this st) = false ->
  exists message,
    getCompilerStatements st = (Throw (NotImplemented message), st)
    /\ getStatements st = (Throw (NotImplemented message), st)
    /\ (forall k, getStatementByKind k st = (Throw (NotImplemented message), st))
    /\ (forall f, getStatement f st = (Throw (NotImplemented message), st))
    /\ (forall range, removeStatements range st = (Throw (NotImplemented message), st))
    /\ (forall i, removeStatement i st = (Throw (NotImplemented message), st))
    /\ (forall text, addStatements parseStatements text st
                     = (Throw (NotImplemented message), st))
    /\ (forall K ss, addOfKind K ss st = (Throw (NotImplemented message), st))
    /\ (forall K i ss, ss <> [] ->
                       insertOfKind K i ss st = (Throw (NotImplemented message), st))
    /\ (forall K, getAllOfKind K st
                  = (Return (filter (visibleOfKind K) (statementsOf (this st))), st)).
Proof.
  intros Hc. destruct (getCompilerStatements_other st Hc) as [m Hm]. exists m.
  assert (Hg : getStatements st = (Throw (NotImplemented m), st)).
  { unfold getStatements. apply bind_Throw. exact Hm. }
  split; [exact Hm|]. split; [exact Hg|].
  split; [intros k; unfold getStatementByKind; apply bind_Throw; exact Hm|].
  split; [intros f; unfold getStatement; apply bind_Throw; exact Hg|].
  split; [intros r; unfold removeStatements; apply bind_Throw; exact Hg|].
  split; [intros i; unfold removeStatement; apply bind_Throw; exact Hm|].
  split; [intros text; unfold addStatements; apply bind_Throw; exact Hm|].
  split.
  - intros K ss. destruct K; simpl;
      unfold addClasses, addEnums, addFunctions, addInterfaces, addNamespaces,
        addTypeAliases, addVariableStatements; apply bind_Throw; exact Hm.
  - split; [|intros K; apply getAllOfKind_filter].
    intros K i ss Hs. destruct (insertOfKind_unsupported K i ss st Hc Hs) as [m' Hm'].
    rewrite Hm'. rewrite insertOfKind_unfold in Hm'. unfold _insertChildren in Hm'.
    rewrite (bind_Return _ (addBodyIfNotExists_run st)) in Hm'.
    unfold insertIntoBracesOrSourceFileWithGetChildren in Hm'. cbn [structures] in Hm'.
    destruct ss; [congruence|].
    assert (He : withThis st (ensureBody (this st)) = st).
    { unfold ensureBody. destruct (TypeGuards.isBodyableNode (this st)) eqn:E.
      - rewrite (bodyable_isStatementContainer _ E) in Hc. discriminate.
      - apply withThis_this. }
    rewrite He in Hm'. rewrite (bind_Throw _ Hg) in Hm'. congruence.
Qed.

Lemma X1_unsupported_kind_not_implemented_witness :
  isStatementContainer (this classAsContainer) = false
  /\ exists message,
      getStatements classAsContainer = (Throw (NotImplemented message), classAsContainer)
      /\ addOfKind Enums [structureNamed "E"] classAsContainer
         = (Throw (NotImplemented message), classAsContainer).
Proof.
  split; [reflexivity|].
  destruct (X1_unsupported_kind_not_implemented oneStatementParser classAsContainer eq_refl)
    as (m & _ & H2 & _ & _ & _ & _ & _ & H8 & _).
  exists m. split; [exact H2 | exact (H8 Enums [structureNamed "E"])].
Defined.

(** ** The first match of a lookup *)

Lemma find_split {A} (f : A -> bool) l x :
  find f l = Some x ->
  exists before after,
    l = before ++ x :: after /\ f x = true /\ forall b, In b before -> f b = false.
Proof.
  induction l as [|a l IH]; simpl; [discriminate|].
  destruct (f a) eqn:E.
  - intros H. injection H as <-. exists [], l. repeat split; [exact E | contradiction].
  - intros H. destruct (IH H) as (before & after & -> & Hx & Hb).
    exists (a :: before), after. repeat split; [exact Hx|].
    intros b [<-|Hin]; [exact E | exact (Hb b Hin)].
Qed.

Lemma isKind_false_iff k n : SyntaxKind.eqb (kind n) k = false <-> kind n <> k.
Proof.
  unfold SyntaxKind.eqb. destruct (SyntaxKind.eq_dec (kind n) k); split; congruence.
Qed.

(** X2. On a container whose statements can be read,
    [getStatementByKind(kind)] changes nothing and returns the first statement
    of that syntax kind: there is none exactly when no statement has the kind,
    and otherwise no statement before the returned one has it.
    [getStatementByKindOrThrow] returns that same statement, and throws
    exactly when there is none. *)
Theorem X2_getStatementByKind_first (k : SyntaxKind.t) (st : State) :
  canReadStatements (this st) = true ->
  exists found,
    getStatementByKind k st = (Return found, st)
    /\ (found = None <-> forall s, In s (statementsOf (this st)) -> kind s <> k)
    /\ (forall s, found = Some s ->
          kind s = k
          /\ exists before after,
               statementsOf (this st) = before ++ s :: after
               /\ forall b, In b before -> kind b <> k)
    /\ getStatementByKindOrThrow k st
       = match found with
         | Some s => (Return s, st)
         | None =>
             (Throw (NotFound ("Expected to find a statement with syntax kind "
                               ++ getSyntaxKindName k ++ ".")), st)
         end.
Proof.
  intros Hc.
  assert (Hrun : getStatementByKind k st
                 = (Return (find (fun s => SyntaxKind.eqb (kind s) k) (statementsOf (this st))), st)).
  { unfold getStatementByKind.
    rewrite (bind_Return _ (getCompilerStatements_container st Hc)).
    unfold ret, getNodeFromCompilerNodeIfExists, getNodeFromCompilerNode.
    destruct (find _ _); reflexivity. }
  eexists. split; [exact Hrun|]. split; [|split].
  - rewrite find_None_iff. split; intros H s Hs.
    + apply isKind_false_iff. exact (H s Hs).
    + apply isKind_false_iff. exact (H s Hs).
  - intros s Hs. destruct (find_split _ _ _ Hs) as (before & after & Hl & Hk & Hb).
    split; [apply isKind_true; exact Hk|].
    exists before, after. split; [exact Hl|].
    intros b Hin. apply isKind_false_iff. exact (Hb b Hin).
  - unfold getStatementByKindOrThrow. rewrite (bind_Return _ Hrun).
    destruct (find _ _); reflexivity.
Qed.

Lemma X2_getStatementByKind_first_witness :
  canReadStatements (this (sourceFileOf [classA; expressionX; returnStatement])) = true
  /\ getStatementByKind SyntaxKind.ExpressionStatement
       (sourceFileOf [classA; expressionX; returnStatement])
     = (Return (Some expressionX), sourceFileOf [classA; expressionX; returnStatement]).
Proof.
  split; [reflexivity|].
  destruct (X2_getStatementByKind_first SyntaxKind.ExpressionStatement
              (sourceFileOf [classA; expressionX; returnStatement]) eq_refl)
    as (found & Hrun & _).
  pose proof Hrun as H. cbv in H. injection H as <-. exact Hrun.
Defined.

(** X3. When [getK(x)] returns a declaration, it is the first one in the
    order of [getKs()] that matches [x]: it matches, and no declaration that
    [getKs()] lists before it does. *)
Theorem X3_getK_returns_first_match (K : LookupKind) (x : NameOrFindFunction)
  (st : State) (n : Node) :
  getOfKind K x st = (Return (Some n), st) ->
  exists items before after,
    getItemsOfKind K st = (Return items, st)
    /\ items = before ++ n :: after
    /\ matchesNameOrFindFunction x n = true
    /\ (forall b, In b before -> matchesNameOrFindFunction x b = false).
Proof.
  intros H. destruct (getItemsOfKind_frame K st) as [items Hitems].
  rewrite (getOfKind_run K x st items Hitems) in H.
  assert (Hf : find (matchesNameOrFindFunction x) items = Some n) by congruence.
  destruct (find_split _ _ _ Hf) as (before & after & Hl & Hm & Hb).
  exists items, before, after. auto.
Qed.

Lemma X3_getK_returns_first_match_witness :
  getOfKind AClass (Name "A") (sourceFileOf [classA; expressionX])
  = (Return (Some classA), sourceFileOf [classA; expressionX])
  /\ exists items before after,
      getItemsOfKind AClass (sourceFileOf [classA; expressionX])
      = (Return items, sourceFileOf [classA; expressionX])
      /\ items = before ++ classA :: after
      /\ matchesNameOrFindFunction (Name "A") classA = true.
Proof.
  split; [reflexivity|].
  destruct (X3_getK_returns_first_match AClass (Name "A")
              (sourceFileOf [classA; expressionX]) classA eq_refl)
    as (items & before & after & H1 & H2 & H3 & _).
  exists items, before, after. auto.
Defined.

(** ** Removing a range of statements *)

Lemma NoDup_app_disjoint {A} (l1 l2 : list A) x :
  NoDup (l1 ++ l2) -> In x l1 -> In x l2 -> False.
Proof.
  induction l1 as [|a l1 IH]; simpl; intros H H1 H2; [contradiction|].
  inversion H as [|y ys Hn Hd]; subst.
  destruct H1 as [<-|H1]; [|exact (IH Hd H1 H2)].
  apply Hn. apply in_or_app. right. exact H2.
Qed.

Lemma filter_keep {A} (f : A -> bool) l : (forall a, In a l -> f a = true) -> filter f l = l.
Proof.
  induction l as [|a l IH]; intros H; simpl; [reflexivity|].
  rewrite (H a (or_introl eq_refl)), IH; [reflexivity|].
  intros b Hb. apply H. right. exact Hb.
Qed.

Lemma filter_remove_middle (a b c : list Node) :
  NoDup (map nodeId (a ++ b ++ c)) ->
  filter (fun s => negb (isOneOf b s)) (a ++ b ++ c) = a ++ c.
Proof.
  intros H. rewrite !filter_app, filter_isOneOf_all. simpl.
  rewrite !map_app in H.
  f_equal; apply filter_keep; intros x Hx; apply negb_true_iff;
    destruct (isOneOf b x) eqn:E; try reflexivity; exfalso;
    apply isOneOf_In in E; destruct E as (d & Hd & Hid).
  - apply (NoDup_app_disjoint _ _ (nodeId x) H); [apply in_map; exact Hx|].
    apply in_or_app. left. rewrite <- Hid. apply in_map. exact Hd.
  - apply NoDup_app_remove_l in H.
    apply (NoDup_app_disjoint _ _ (nodeId x) H);
      [rewrite <- Hid; apply in_map; exact Hd | apply in_map; exact Hx].
Qed.

Lemma slice_middle {A} (a b c : list A) :
  slice (Z.of_nat (List.length a)) (Z.of_nat (List.length a + List.length b) - 1 + 1)
    (a ++ b ++ c) = b.
Proof.
  unfold slice. rewrite !length_app.
  replace (Z.of_nat (List.length a + List.length b) - 1 + 1)%Z
    with (Z.of_nat (List.length a + List.length b)) by lia.
  replace (Z.of_nat (List.length a) <? 0)%Z with false by (symmetry; apply Z.ltb_ge; lia).
  replace (Z.of_nat (List.length a + List.length b) <? 0)%Z with false
    by (symmetry; apply Z.ltb_ge; lia).
  rewrite !Z.min_l by lia.
  replace (Z.max (Z.of_nat (List.length a + List.length b) - Z.of_nat (List.length a)) 0)
    with (Z.of_nat (List.length b)) by lia.
  rewrite !Nat2Z.id.
  rewrite skipn_app, skipn_all, Nat.sub_diag. simpl.
  rewrite firstn_app, firstn_all, Nat.sub_diag. simpl. apply app_nil_r.
Qed.

Lemma removeStatements_middle st (a b c : list Node) :
  isStatementContainer (this st) = true ->
  statementsOf (this st) = a ++ b ++ c ->
  b <> [] ->
  NoDup (map nodeId (a ++ b ++ c)) ->
  removeStatements (Z.of_nat (List.length a),
                    (Z.of_nat (List.length a + List.length b) - 1)%Z) st
  = (Return tt, mapStatements (filter (fun s => negb (isOneOf b s))) st)
  /\ statementsOf (this (mapStatements (filter (fun s => negb (isOneOf b s))) st)) = a ++ c.
Proof.
  intros Hc Hl Hb Hd. split.
  - assert (Hread : canReadStatements (this st) = true).
    { apply statements_canReadStatements; [exact Hc|].
      rewrite Hl. destruct a; [destruct b; [congruence | discriminate] | discriminate]. }
    unfold removeStatements. rewrite (bind_Return _ (getStatements_container st Hread)).
    cbn [fst snd]. rewrite Hl.
    assert (Hlen : 0 < List.length b) by (destruct b; [congruence | simpl; lia]).
    assert (Hr : throwIfRangeOutOfRange
                   (Z.of_nat (List.length a),
                    (Z.of_nat (List.length a + List.length b) - 1)%Z)
                   (0%Z, Z.of_nat (List.length (a ++ b ++ c))) = Return tt).
    { unfold throwIfRangeOutOfRange. cbn [fst snd]. rewrite !length_app.
      repeat match goal with
             | |- context [(?x <? ?y)%Z] => destruct (Z.ltb_spec x y); [lia|]
             | |- context [(?x <=? ?y)%Z] => destruct (Z.leb_spec x y); [lia|]
             end. reflexivity. }
    unfold bind at 1. unfold liftOutcome at 1. rewrite Hr.
    rewrite slice_middle. apply removeStatementedNodeChildren_run.
  - rewrite mapStatements_statementsOf by reflexivity. rewrite Hl.
    apply filter_remove_middle. exact Hd.
Qed.

Lemma range_split {A} (l : list A) (s e : nat) :
  s <= e -> e < List.length l ->
  l = firstn s l ++ firstn (e + 1 - s) (skipn s l) ++ skipn (e + 1) l
  /\ List.length (firstn s l) = s
  /\ List.length (firstn (e + 1 - s) (skipn s l)) = e + 1 - s.
Proof.
  intros Hse He. split; [|split].
  - rewrite <- (firstn_skipn s l) at 1. f_equal.
    rewrite <- (firstn_skipn (e + 1 - s) (skipn s l)) at 1. f_equal.
    rewrite skipn_skipn. f_equal. lia.
  - rewrite length_firstn. lia.
  - rewrite length_firstn, length_skipn. lia.
Qed.

Lemma removeStatements_valid_range (st : State) (startIndex endIndex : Z) :
  isStatementContainer (this st) = true ->
  distinctStatements (this st) = true ->
  (0 <= startIndex <= endIndex)%Z ->
  (endIndex < Z.of_nat (List.length (statementsOf (this st))))%Z ->
  exists f,
    removeStatements (startIndex, endIndex) st = (Return tt, mapStatements f st)
    /\ statementsOf (this (mapStatements f st))
       = firstn (Z.to_nat startIndex) (statementsOf (this st))
         ++ skipn (Z.to_nat endIndex + 1) (statementsOf (this st)).
Proof.
  intros Hc Hd Hse He.
  apply distinctIds_NoDup in Hd.
  destruct (range_split (statementsOf (this st)) (Z.to_nat startIndex) (Z.to_nat endIndex))
    as (Hl & Ha & Hb); [lia | lia |].
  set (a := firstn (Z.to_nat startIndex) (statementsOf (this st))) in *.
  set (b := firstn (Z.to_nat endIndex + 1 - Z.to_nat startIndex)
              (skipn (Z.to_nat startIndex) (statementsOf (this st)))) in *.
  set (c := skipn (Z.to_nat endIndex + 1) (statementsOf (this st))) in *.
  assert (Hne : b <> []) by (intros E; rewrite E in Hb; simpl in Hb; lia).
  rewrite Hl in Hd.
  destruct (removeStatements_middle st a b c Hc Hl Hne Hd) as [Hrun Hst].
  rewrite Ha, Hb in Hrun.
  replace (Z.of_nat (Z.to_nat startIndex)) with startIndex in Hrun by lia.
  replace (Z.of_nat (Z.to_nat startIndex + (Z.to_nat endIndex + 1 - Z.to_nat startIndex)) - 1)%Z
    with endIndex in Hrun by lia.
  eexists. split; [exact Hrun | exact Hst].
Qed.

(** X4. On a container whose statements are distinct objects,
    [removeStatements([start, end])] with 0 <= start <= end < count succeeds
    and removes exactly the statements at the positions [start .. end]: the
    statements before [start] and after [end] remain, in order, the count
    drops by [end - start + 1], and no text is inserted. *)
Theorem X4_removeStatements_removes_range (st : State) (startIndex endIndex : Z) :
  isStatementContainer (this st) = true ->
  distinctStatements (this st) = true ->
  (0 <= startIndex <= endIndex)%Z ->
  (endIndex < Z.of_nat (List.length (statementsOf (this st))))%Z ->
  exists st',
    removeStatements (startIndex, endIndex) st = (Return tt, st')
    /\ statementsOf (this st')
       = firstn (Z.to_nat startIndex) (statementsOf (this st))
         ++ skipn (Z.to_nat endIndex + 1) (statementsOf (this st))
    /\ List.length (statementsOf (this st')) + (Z.to_nat endIndex - Z.to_nat startIndex + 1)
       = List.length (statementsOf (this st))
    /\ insertions st' = insertions st
    /\ sameContainer (this st) (this st').
Proof.
  intros Hc Hd Hse He.
  destruct (removeStatements_valid_range st startIndex endIndex Hc Hd Hse He)
    as (f & Hrun & Hst).
  exists (mapStatements f st). split; [exact Hrun|]. split; [exact Hst|].
  split; [|split; [reflexivity | apply mapStatements_sameContainer]].
  rewrite Hst, length_app, length_firstn, length_skipn. lia.
Qed.

Lemma X4_removeStatements_removes_range_witness :
  isStatementContainer (this (sourceFileOf [classA; expressionX; returnStatement])) = true
  /\ distinctStatements (this (sourceFileOf [classA; expressionX; returnStatement])) = true
  /\ (0 <= 0 <= 1)%Z
  /\ (1 < Z.of_nat (List.length
                      (statementsOf (this (sourceFileOf [classA; expressionX; returnStatement])))))%Z
  /\ exists st',
      removeStatements (0%Z, 1%Z) (sourceFileOf [classA; expressionX; returnStatement])
      = (Return tt, st')
      /\ statementsOf (this st') = [returnStatement].
Proof.
  split; [reflexivity|]. split; [reflexivity|]. split; [lia|]. split; [simpl; lia|].
  destruct (X4_removeStatements_removes_range
              (sourceFileOf [classA; expressionX; returnStatement]) 0 1)
    as (st' & Hrun & Hst & _); [reflexivity | reflexivity | lia | simpl; lia |].
  exists st'. split; [exact Hrun | exact Hst].
Defined.

Lemma verifyAndGetIndex_too_large i m :
  (0 <= i)%Z -> (m < i)%Z -> verifyAndGetIndex i m = Throw OutOfBounds.
Proof.
  intros H0 H. unfold verifyAndGetIndex.
  assert (E0 : (i <? 0)%Z = false) by (apply Z.ltb_ge; lia).
  assert (E1 : (m <? i)%Z = true) by (apply Z.ltb_lt; lia).
  rewrite E0. cbv zeta. rewrite E0, E1. reflexivity.
Qed.

Lemma verifyAndGetIndex_none i : verifyAndGetIndex i (-1) = Throw OutOfBounds.
Proof.
  unfold verifyAndGetIndex. destruct (Z.ltb_spec i 0) as [H|H]; cbv zeta.
  - replace (-1 + 1 + i <? 0)%Z with true by (symmetry; apply Z.ltb_lt; lia). reflexivity.
  - replace (i <? 0)%Z with false by (symmetry; apply Z.ltb_ge; lia).
    replace (-1 <? i)%Z with true by (symmetry; apply Z.ltb_lt; lia). reflexivity.
Qed.

(** X5. On a container whose statements can be read and are distinct
    objects, [removeStatement(index)] with 0 <= index < count is
    [removeStatements([index, index])] and removes exactly the statement at
    that position.  An index at or beyond the count is refused with the
    out-of-bounds error, and on a container without statements every index
    is; the container is then left as it was. *)
Theorem X5_removeStatement_removes_one (st : State) :
  canReadStatements (this st) = true ->
  distinctStatements (this st) = true ->
  (forall i, (0 <= i < Z.of_nat (List.length (statementsOf (this st))))%Z ->
     removeStatement i st = removeStatements (i, i) st
     /\ exists st',
          removeStatement i st = (Return tt, st')
          /\ statementsOf (this st')
             = firstn (Z.to_nat i) (statementsOf (this st))
               ++ skipn (Z.to_nat i + 1) (statementsOf (this st)))
  /\ (forall i, (Z.of_nat (List.length (statementsOf (this st))) <= i)%Z ->
                removeStatement i st = (Throw OutOfBounds, st))
  /\ (statementsOf (this st) = [] ->
      forall i, removeStatement i st = (Throw OutOfBounds, st)).
Proof.
  intros Hr Hd.
  pose proof (getCompilerStatements_container st Hr) as Hcs.
  pose proof (proj1 (proj1 (canReadStatements_iff _) Hr)) as Hc.
  split; [|split].
  - intros i Hi.
    assert (Heq : removeStatement i st = removeStatements (i, i) st).
    { unfold removeStatement. rewrite (bind_Return _ Hcs).
      unfold bind at 1. unfold liftOutcome at 1.
      rewrite verifyAndGetIndex_valid by lia.
      replace (Z.of_nat (Z.to_nat i)) with i by lia. reflexivity. }
    split; [exact Heq|]. rewrite Heq.
    destruct (removeStatements_valid_range st i i Hc Hd) as (f & Hrun & Hst);
      [lia | lia |].
    exists (mapStatements f st). split; [exact Hrun | exact Hst].
  - intros i Hi. unfold removeStatement. rewrite (bind_Return _ Hcs).
    unfold bind at 1. unfold liftOutcome at 1.
    rewrite verifyAndGetIndex_too_large by lia. reflexivity.
  - intros He i. unfold removeStatement. rewrite (bind_Return _ Hcs).
    unfold bind at 1. unfold liftOutcome at 1. rewrite He. simpl List.length.
    change (Z.of_nat 0 - 1)%Z with (-1)%Z. rewrite verifyAndGetIndex_none. reflexivity.
Qed.

Lemma X5_removeStatement_removes_one_witness :
  canReadStatements (this (sourceFileOf [classA; expressionX; returnStatement])) = true
  /\ distinctStatements (this (sourceFileOf [classA; expressionX; returnStatement])) = true
  /\ (exists st',
        removeStatement 1 (sourceFileOf [classA; expressionX; returnStatement])
        = (Return tt, st')
        /\ statementsOf (this st') = [classA; returnStatement])
  /\ removeStatement 3 (sourceFileOf [classA; expressionX; returnStatement])
     = (Throw OutOfBounds, sourceFileOf [classA; expressionX; returnStatement]).
Proof.
  split; [reflexivity|]. split; [reflexivity|].
  destruct (X5_removeStatement_removes_one
              (sourceFileOf [classA; expressionX; returnStatement]) eq_refl eq_refl)
    as (H1 & H2 & _).
  split.
  - destruct (H1 1%Z) as (_ & st' & Hrun & Hst); [simpl; lia|].
    exists st'. split; [exact Hrun | exact Hst].
  - apply H2. simpl. lia.
Defined.

(** ** Inserting and removing again *)

Lemma NoDup_splice p k ss (l : list Node) i :
  NoDup (map nodeId l) ->
  NoDup (map nodeId (firstn i l ++ declarationsOf p k (freshId l) ss ++ skipn i l)).
Proof.
  intros H.
  apply (Permutation_NoDup (l := map nodeId (l ++ declarationsOf p k (freshId l) ss)));
    [|apply NoDup_append_declarations; exact H].
  apply Permutation_map.
  rewrite <- (firstn_skipn i l) at 1.
  rewrite <- app_assoc. apply Permutation_app_head. apply Permutation_app_comm.
Qed.

(** X6. On a container whose statements can be read and are distinct
    objects, inserting a
    non-empty list of structures of a kind at a valid index [i] and then
    removing the range [i .. i+n-1] the insertion occupies succeeds and gives
    back the statements the container had, in their order. *)
Theorem X6_insert_then_remove_restores (K : DeclarationKind) (st : State) (i : Z)
  (ss : list Structure) :
  canReadStatements (this st) = true ->
  distinctStatements (this st) = true ->
  (0 <= i <= Z.of_nat (List.length (statementsOf (this st))))%Z ->
  ss <> [] ->
  exists nodes st1 st2,
    insertOfKind K i ss st = (Return nodes, st1)
    /\ removeStatements (i, (i + Z.of_nat (List.length ss) - 1)%Z) st1 = (Return tt, st2)
    /\ statementsOf (this st2) = statementsOf (this st).
Proof.
  intros Hc Hd Hi Hs. apply distinctIds_NoDup in Hd.
  destruct (insertOfKind_run K st i ss Hc Hi Hs) as (text & _ & Hrun).
  set (old := statementsOf (this st)) in *.
  set (nodes := declarationsOf (this st) (syntaxKindOf K) (freshId old) ss) in *.
  set (st1 := {| this := withSyntaxList (this st) (Some (spliceAt (Z.to_nat i) nodes old));
                 insertions := insertions st
                               ++ [{| insertIndex := Z.to_nat i; newText := text |}] |}) in *.
  assert (Hc1 : isStatementContainer (this st1) = true).
  { simpl. rewrite (isStatementContainer_kind _ (this st)) by reflexivity.
    exact (proj1 (proj1 (canReadStatements_iff _) Hc)). }
  assert (Hne : nodes <> []).
  { intros E. apply (f_equal (@List.length Node)) in E. unfold nodes in E.
    rewrite declarationsOf_length in E. destruct ss; [congruence | discriminate]. }
  destruct (removeStatements_middle st1 (firstn (Z.to_nat i) old) nodes
              (skipn (Z.to_nat i) old) Hc1 eq_refl Hne) as [Hrm Hst].
  { apply NoDup_splice. exact Hd. }
  assert (Hle : Z.to_nat i <= List.length old) by lia.
  rewrite length_firstn, (Nat.min_l _ _ Hle) in Hrm.
  unfold nodes in Hrm at 1. rewrite declarationsOf_length in Hrm.
  replace (Z.of_nat (Z.to_nat i)) with i in Hrm by lia.
  replace (Z.of_nat (Z.to_nat i + List.length ss) - 1)%Z
    with (i + Z.of_nat (List.length ss) - 1)%Z in Hrm by lia.
  exists nodes, st1. eexists. split; [exact Hrun|]. split; [exact Hrm|].
  rewrite Hst. apply firstn_skipn.
Qed.

Lemma X6_insert_then_remove_restores_witness :
  canReadStatements (this (sourceFileOf [classA; expressionX])) = true
  /\ distinctStatements (this (sourceFileOf [classA; expressionX])) = true
  /\ (0 <= 1 <= Z.of_nat (List.length (statementsOf (this (sourceFileOf [classA; expressionX])))))%Z
  /\ [structureNamed "E"; structureNamed "F"] <> []
  /\ exists nodes st1 st2,
      insertOfKind Enums 1 [structureNamed "E"; structureNamed "F"]
        (sourceFileOf [classA; expressionX]) = (Return nodes, st1)
      /\ removeStatements (1%Z, 2%Z) st1 = (Return tt, st2)
      /\ statementsOf (this st2) = [classA; expressionX].
Proof.
  split; [reflexivity|]. split; [reflexivity|]. split; [simpl; lia|]. split; [discriminate|].
  destruct (X6_insert_then_remove_restores Enums (sourceFileOf [classA; expressionX]) 1
              [structureNamed "E"; structureNamed "F"])
    as (nodes & st1 & st2 & H1 & H2 & H3); [reflexivity | reflexivity | simpl; lia | discriminate |].
  exists nodes, st1, st2. split; [exact H1|]. split; [exact H2 | exact H3].
Defined.

(** ** An insertion that is refused *)

(** X7. On a container whose statements can be read, an [insertKs] of a
    non-empty list at an index greater than the statement count is refused
    with the out-of-bounds error: the statements
    are the same and no text is inserted.  The body was ensured before the
    index was looked at, so a bodyable container that had no body now has an
    empty one. *)
Theorem X7_insert_beyond_count_refused (K : DeclarationKind) (st : State) (i : Z)
  (ss : list Structure) :
  canReadStatements (this st) = true ->
  (Z.of_nat (List.length (statementsOf (this st))) < i)%Z ->
  ss <> [] ->
  insertOfKind K i ss st = (Throw OutOfBounds, withThis st (ensureBody (this st)))
  /\ statementsOf (ensureBody (this st)) = statementsOf (this st)
  /\ insertions (withThis st (ensureBody (this st))) = insertions st
  /\ (TypeGuards.isBodyableNode (this st) = true -> hasBody (ensureBody (this st)) = true)
  /\ (TypeGuards.isBodyableNode (this st) = false -> ensureBody (this st) = this st).
Proof.
  intros Hc Hi Hs. split; [|split; [|split; [|split]]].
  - rewrite insertOfKind_unfold. unfold _insertChildren.
    rewrite (bind_Return _ (addBodyIfNotExists_run st)).
    unfold insertIntoBracesOrSourceFileWithGetChildren. cbn [structures].
    destruct ss as [|s ss]; [congruence|].
    destruct (ensureBody_canReadStatements _ Hc) as [Hc' Hb'].
    rewrite (bind_Return _ (getStatements_container
                              (withThis st (ensureBody (this st))) Hc')).
    rewrite (bind_Return _ (getChildSyntaxListOrThrow_body
                              (withThis st (ensureBody (this st))) Hb')).
    simpl this. rewrite ensureBody_statementsOf. cbn [index].
    unfold bind at 1. unfold liftOutcome at 1.
    rewrite verifyAndGetIndex_too_large by lia. reflexivity.
  - apply ensureBody_statementsOf.
  - reflexivity.
  - apply ensureBody_hasBody.
  - intros H. unfold ensureBody. rewrite H. reflexivity.
Qed.

Lemma X7_insert_beyond_count_refused_witness :
  canReadStatements (this functionWithoutBody) = true
  /\ (Z.of_nat (List.length (statementsOf (this functionWithoutBody))) < 1)%Z
  /\ [structureNamed "A"] <> []
  /\ outcome (insertOfKind Classes 1 [structureNamed "A"] functionWithoutBody)
     = Throw OutOfBounds
  /\ hasBody (this (finalState (insertOfKind Classes 1 [structureNamed "A"] functionWithoutBody)))
     = true.
Proof.
  split; [reflexivity|]. split; [simpl; lia|]. split; [discriminate|].
  destruct (X7_insert_beyond_count_refused Classes functionWithoutBody 1 [structureNamed "A"])
    as (Hrun & _ & _ & Hb & _); [reflexivity | simpl; lia | discriminate |].
  rewrite Hrun. split; [reflexivity|]. apply Hb. reflexivity.
Defined.

(** ** Separators of type aliases and variable statements *)

Lemma sameKindWrite_separators K n ss writer info :
  joinsSameKind K = true ->
  (forall p, previousMember info = Some p -> isStartOfFile info = false) ->
  writeOfKind K n ss writer info
  = Return
      (writer
       ++ match previousMember info with
          | Some p => if TypeGuards.isKind (syntaxKindOf K) p then [NewLine] else [BlankLine]
          | None => if isStartOfFile info then [] else [NewLine]
          end
       ++ [PrintTexts (printerOfKind K n) ss]
       ++ [match nextMember info with
           | Some q => if TypeGuards.isKind (syntaxKindOf K) q then NewLine else BlankLine
           | None => NewLine
           end]).
Proof.
  intros HK Hwf.
  destruct K; try discriminate; simpl;
    unfold typeAliasWrite, variableStatementWrite, _standardWrite, newLineWanted,
      TypeGuards.isTypeAliasDeclaration, TypeGuards.isVariableStatement,
      blankLine, newLine, printTexts;
    cbn [previousNewLine nextNewLine];
    (destruct (previousMember info) as [p|] eqn:Ep;
     [rewrite (Hwf p eq_refl); cbn [negb];
      destruct (TypeGuards.isKind _ p)
     | destruct (isStartOfFile info); cbn [negb]]);
    destruct (nextMember info) as [q|];
    try destruct (TypeGuards.isKind _ q);
    rewrite <- ?app_assoc, ?app_nil_r; reflexivity.
Qed.

(** X8. At every valid insertion of type aliases, and likewise of variable
    statements, into a container whose statements can be read, the inserted
    text begins with a single new line when the
    previous member is of the same kind and with a blank line when it is of
    another kind; it ends with a single new line when the next member is of
    the same kind or when there is none, and with a blank line when the next
    member is of another kind.  Without a previous member it begins with a
    new line, unless the point is the start of the file. *)
Theorem X8_same_kind_separators (K : DeclarationKind) (st : State) (i : Z)
  (ss : list Structure) :
  joinsSameKind K = true ->
  canReadStatements (this st) = true ->
  (0 <= i <= Z.of_nat (List.length (statementsOf (this st))))%Z ->
  ss <> [] ->
  exists nodes st',
    insertOfKind K i ss st = (Return nodes, st')
    /\ insertions st'
       = insertions st
         ++ [{| insertIndex := Z.to_nat i;
                newText :=
                  match previousMember
                          (writeInfoAt (this st) (statementsOf (this st)) (Z.to_nat i)) with
                  | Some p =>
                      if TypeGuards.isKind (syntaxKindOf K) p then [NewLine] else [BlankLine]
                  | None =>
                      if TypeGuards.isSourceFile (this st) && (Z.to_nat i =? 0)
                      then [] else [NewLine]
                  end
                  ++ [PrintTexts (printerOfKind K (this st)) ss]
                  ++ [match nextMember
                              (writeInfoAt (this st) (statementsOf (this st)) (Z.to_nat i)) with
                      | Some q =>
                          if TypeGuards.isKind (syntaxKindOf K) q then NewLine else BlankLine
                      | None => NewLine
                      end] |}].
Proof.
  intros HK Hc Hi Hs.
  destruct (insertOfKind_run K st i ss Hc Hi Hs) as (text & Hw & Hrun).
  rewrite sameKindWrite_separators in Hw;
    [|exact HK | intros p; apply writeInfoAt_previous_not_start].
  injection Hw as <-.
  eexists. eexists. split; [exact Hrun|]. reflexivity.
Qed.

Lemma X8_same_kind_separators_witness :
  joinsSameKind TypeAliases = true
  /\ canReadStatements (this (sourceFileOf [typeAliasT; classA])) = true
  /\ (0 <= 1 <= Z.of_nat (List.length (statementsOf (this (sourceFileOf [typeAliasT; classA])))))%Z
  /\ [structureNamed "U"] <> []
  /\ exists nodes st',
      insertOfKind TypeAliases 1 [structureNamed "U"] (sourceFileOf [typeAliasT; classA])
      = (Return nodes, st')
      /\ insertions st'
         = [{| insertIndex := 1;
               newText := [NewLine;
                           PrintTexts forTypeAliasDeclaration [structureNamed "U"];
                           BlankLine] |}].
Proof.
  split; [reflexivity|]. split; [reflexivity|]. split; [simpl; lia|]. split; [discriminate|].
  destruct (X8_same_kind_separators TypeAliases (sourceFileOf [typeAliasT; classA]) 1
              [structureNamed "U"])
    as (nodes & st' & Hrun & Hins); [reflexivity | reflexivity | simpl; lia | discriminate |].
  exists nodes, st'. split; [exact Hrun | exact Hins].
Defined.

(** ** Variable declarations *)

Lemma fold_left_app_flat_map {A B} (f : A -> list B) l : forall init,
  fold_left (fun acc a => acc ++ f a) l init = init ++ flat_map f l.
Proof.
  induction l as [|a l IH]; intros init; simpl; [symmetry; apply app_nil_r|].
  rewrite IH, app_assoc. reflexivity.
Qed.

(** X9. [getVariableDeclarations] changes nothing and returns the
    declarations of the variable statements among the direct children, one
    statement after the other in statement order: a declaration is returned
    exactly when it belongs to such a statement, and a container without
    variable statements has none. *)
Theorem X9_getVariableDeclarations_flattens (st : State) :
  exists ds,
    getVariableDeclarations st = (Return ds, st)
    /\ ds = flat_map getDeclarations
              (filter TypeGuards.isVariableStatement (statementsOf (this st)))
    /\ (forall d, In d ds <->
                  exists vs, In vs (statementsOf (this st))
                             /\ kind vs = SyntaxKind.VariableStatement
                             /\ In d (declarations vs))
    /\ ((forall s, In s (statementsOf (this st)) -> kind s <> SyntaxKind.VariableStatement) ->
        ds = []).
Proof.
  assert (Hrun : getVariableDeclarations st
                 = (Return (flat_map getDeclarations
                              (filter TypeGuards.isVariableStatement (statementsOf (this st)))),
                    st)).
  { unfold getVariableDeclarations.
    rewrite (bind_Return _ (getAllOfKind_filter VariableStatements st
                            : getVariableStatements st = _)).
    unfold ret. rewrite fold_left_app_flat_map. simpl.
    rewrite (filter_ext (visibleOfKind VariableStatements) TypeGuards.isVariableStatement);
      [reflexivity|].
    intros a. unfold visibleOfKind. apply andb_true_r. }
  eexists. split; [exact Hrun|]. split; [reflexivity|]. split.
  - intros d. rewrite in_flat_map. split.
    + intros (vs & Hvs & Hd). apply filter_In in Hvs. destruct Hvs as [Hin Hk].
      exists vs. repeat split; [exact Hin | apply isKind_true; exact Hk | exact Hd].
    + intros (vs & Hin & Hk & Hd). exists vs. split; [|exact Hd].
      apply filter_In. split; [exact Hin | apply isKind_true; exact Hk].
  - intros H. rewrite filter_none; [reflexivity|].
    intros s Hs. apply isKind_false_iff. exact (H s Hs).
Qed.

(** ** [set] on little or nothing *)

Lemma listOf_all_None S :
  (forall K, listOf S K = None) ->
  classes S = None /\ enums S = None /\ functions S = None
  /\ interfaces S = None /\ namespaces S = None /\ typeAliases S = None.
Proof.
  intros H. repeat split;
    [exact (H Classes) | exact (H Enums) | exact (H Functions)
     | exact (H Interfaces) | exact (H Namespaces) | exact (H TypeAliases)].
Qed.

Lemma set_declarations_nothing S st :
  (forall K, listOf S K = None) -> set_declarations S st = (Return tt, st).
Proof.
  intros H. destruct (listOf_all_None S H) as (H1 & H2 & H3 & H4 & H5 & H6).
  unfold set_declarations. rewrite H1, H2, H3, H4, H5, H6. reflexivity.
Qed.

(** X10. A [set] whose structure has no list changes nothing and does not
    fail, on any node, when the structure has no [bodyText] key either or when
    the node is neither bodied nor bodyable. *)
Theorem X10_set_without_lists_is_identity (parseStatements : CodeBlockWriter -> list Node)
  (S : StatementedNodeStructure) (st : State) :
  (forall K, listOf S K = None) ->
  bodyText S = None
  \/ TypeGuards.isBodiedNode (this st) || TypeGuards.isBodyableNode (this st) = false ->
  set parseStatements S st = (Return tt, st).
Proof.
  intros Hl Hb. unfold set.
  assert (H1 : set_removeBodyText S st = (Return tt, st)).
  { unfold set_removeBodyText. unfold bind at 1. unfold getThis at 1.
    destruct (TypeGuards.isBodiedNode (this st) || TypeGuards.isBodyableNode (this st)) eqn:E;
      [|reflexivity].
    destruct Hb as [Hb|Hb]; [|discriminate].
    unfold bodyTextValue, hasOwnBodyText. rewrite Hb, andb_false_r. reflexivity. }
  assert (H3 : set_bodyText parseStatements S st = (Return tt, st)).
  { unfold set_bodyText. unfold bind at 1. unfold getThis at 1.
    destruct (TypeGuards.isBodiedNode (this st) || TypeGuards.isBodyableNode (this st)) eqn:E;
      [|reflexivity].
    destruct Hb as [Hb|Hb]; [|discriminate].
    unfold bodyTextValue. rewrite Hb. reflexivity. }
  rewrite (bind_Return _ H1). unfold callBaseSet. unfold bind at 1. unfold ret at 1.
  rewrite (bind_Return _ (set_declarations_nothing S st Hl)). exact H3.
Qed.

Lemma X10_set_without_lists_is_identity_witness :
  (forall K, listOf (bodyTextOnly "y;") K = None)
  /\ (bodyText (bodyTextOnly "y;") = None
      \/ TypeGuards.isBodiedNode (this (sourceFileOf [classA; expressionX]))
         || TypeGuards.isBodyableNode (this (sourceFileOf [classA; expressionX])) = false)
  /\ set oneStatementParser (bodyTextOnly "y;") (sourceFileOf [classA; expressionX])
     = (Return tt, sourceFileOf [classA; expressionX]).
Proof.
  assert (H1 : forall K, listOf (bodyTextOnly "y;") K = None) by (intros K; destruct K; reflexivity).
  assert (H2 : bodyText (bodyTextOnly "y;") = None
      \/ TypeGuards.isBodiedNode (this (sourceFileOf [classA; expressionX]))
         || TypeGuards.isBodyableNode (this (sourceFileOf [classA; expressionX])) = false)
    by (right; reflexivity).
  split; [exact H1|]. split; [exact H2|].
  exact (X10_set_without_lists_is_identity oneStatementParser (bodyTextOnly "y;")
           (sourceFileOf [classA; expressionX]) H1 H2).
Defined.

(** X11. On a well-formed container that is neither bodied nor bodyable (a
    source file, a clause, a block), [set] ignores [bodyText]: it does what it
    does for the structure without that key, and leaves the lists reconciled
    from the statements that were there, with no body text appended. *)
Theorem X11_set_ignores_bodyText_elsewhere (parseStatements : CodeBlockWriter -> list Node)
  (S : StatementedNodeStructure) (st : State) :
  wellFormedContainer (this st) = true ->
  TypeGuards.isBodiedNode (this st) || TypeGuards.isBodyableNode (this st) = false ->
  set parseStatements S st = set parseStatements (withoutBodyText S) st
  /\ exists st',
      set parseStatements S st = (Return tt, st')
      /\ statementsOf (this st') = reconcileAll (this st) S (statementsOf (this st)).
Proof.
  intros Hwf Hg.
  assert (Hfirst : forall S', set_removeBodyText S' st = (Return tt, st)).
  { intros S'. unfold set_removeBodyText. unfold bind at 1. unfold getThis at 1.
    rewrite Hg. reflexivity. }
  destruct (set_declarations_run S st Hwf) as (st2 & Hrun2 & Hs2 & Hst2 & _).
  assert (Hlast : forall S', set_bodyText parseStatements S' st2 = (Return tt, st2)).
  { intros S'. unfold set_bodyText. unfold bind at 1. unfold getThis at 1.
    destruct (sameContainer_guards _ _ Hs2) as [-> ->]. rewrite Hg. reflexivity. }
  assert (Hset : forall S', set_declarations S' = set_declarations S ->
                            set parseStatements S' st = (Return tt, st2)).
  { intros S' E. unfold set. rewrite (bind_Return _ (Hfirst S')).
    unfold callBaseSet. unfold bind at 1. unfold ret at 1.
    rewrite E, (bind_Return _ Hrun2). apply Hlast. }
  split.
  - rewrite (Hset S eq_refl), (Hset (withoutBodyText S) eq_refl). reflexivity.
  - exists st2. split; [exact (Hset S eq_refl) | exact Hst2].
Qed.

Lemma X11_set_ignores_bodyText_elsewhere_witness :
  wellFormedContainer (this (sourceFileOf [classA; expressionX])) = true
  /\ TypeGuards.isBodiedNode (this (sourceFileOf [classA; expressionX]))
     || TypeGuards.isBodyableNode (this (sourceFileOf [classA; expressionX])) = false
  /\ set oneStatementParser (bodyTextOnly "y;") (sourceFileOf [classA; expressionX])
     = set oneStatementParser (withoutBodyText (bodyTextOnly "y;"))
         (sourceFileOf [classA; expressionX]).
Proof.
  split; [reflexivity|]. split; [reflexivity|].
  exact (proj1 (X11_set_ignores_bodyText_elsewhere oneStatementParser (bodyTextOnly "y;")
                  (sourceFileOf [classA; expressionX]) eq_refl eq_refl)).
Defined.

(** X12. A [set] whose structure has no list and has the [bodyText] key with
    the value undefined removes the body of a bodyable node, which then has
    no statements, and changes nothing on any other node. *)
Theorem X12_set_bodyText_undefined_removes_body
  (parseStatements : CodeBlockWriter -> list Node) (S : StatementedNodeStructure)
  (st : State) :
  (forall K, listOf S K = None) ->
  bodyText S = Some None ->
  set parseStatements S st
  = (Return tt,
     if TypeGuards.isBodyableNode (this st)
     then withThis st (withSyntaxList (this st) None) else st)
  /\ (TypeGuards.isBodyableNode (this st) = true ->
      hasBody (this (finalState (set parseStatements S st))) = false
      /\ getStatements (finalState (set parseStatements S st))
         = (Return [], finalState (set parseStatements S st))).
Proof.
  intros Hl Hb.
  assert (Hv : bodyTextValue S = None) by (unfold bodyTextValue; rewrite Hb; reflexivity).
  assert (Ho : hasOwnBodyText S = true) by (unfold hasOwnBodyText; rewrite Hb; reflexivity).
  assert (Hlast : forall st', set_bodyText parseStatements S st' = (Return tt, st')).
  { intros st'. unfold set_bodyText. unfold bind at 1. unfold getThis at 1.
    rewrite Hv. destruct (_ || _); reflexivity. }
  assert (Hset : set parseStatements S st
                 = (Return tt,
                    if TypeGuards.isBodyableNode (this st)
                    then withThis st (withSyntaxList (this st) None) else st)).
  { unfold set.
    assert (Hfirst : set_removeBodyText S st
                     = (Return tt,
                        if TypeGuards.isBodyableNode (this st)
                        then withThis st (withSyntaxList (this st) None) else st)).
    { unfold set_removeBodyText. unfold bind at 1. unfold getThis at 1.
      rewrite Hv, Ho, andb_true_r.
      destruct (TypeGuards.isBodyableNode (this st)) eqn:E.
      - rewrite orb_true_r. reflexivity.
      - destruct (TypeGuards.isBodiedNode (this st)); reflexivity. }
    rewrite (bind_Return _ Hfirst). unfold callBaseSet. unfold bind at 1. unfold ret at 1.
    rewrite (bind_Return _ (set_declarations_nothing S _ Hl)). apply Hlast. }
  split; [exact Hset|].
  intros Hable. rewrite Hset, Hable. unfold finalState. cbn [snd].
  split; [reflexivity|].
  assert (Hable' : TypeGuards.isBodyableNode
                     (this (withThis st (withSyntaxList (this st) None))) = true) by exact Hable.
  rewrite getStatements_container
    by (apply bodyable_canReadStatements; exact Hable').
  reflexivity.
Qed.

Lemma X12_set_bodyText_undefined_removes_body_witness :
  (forall K, listOf bodyTextUndefined K = None)
  /\ bodyText bodyTextUndefined = Some None
  /\ set oneStatementParser bodyTextUndefined functionWithBody
     = (Return tt, functionWithoutBody).
Proof.
  assert (H1 : forall K, listOf bodyTextUndefined K = None) by (intros K; destruct K; reflexivity).
  split; [exact H1|]. split; [reflexivity|].
  exact (proj1 (X12_set_bodyText_undefined_removes_body oneStatementParser bodyTextUndefined
                  functionWithBody H1 eq_refl)).
Defined.

(** ** What the kinds see after an insertion *)

Lemma filter_firstn_skipn {A} (f : A -> bool) (l : list A) i :
  filter f (firstn i l) ++ filter f (skipn i l) = filter f l.
Proof. rewrite <- filter_app, firstn_skipn. reflexivity. Qed.

Lemma filter_spliceAt_other K K' p id ss i (l : list Node) :
  K' <> K ->
  filter (visibleOfKind K') (spliceAt i (declarationsOf p (syntaxKindOf K) id ss) l)
  = filter (visibleOfKind K') l.
Proof.
  intros Hne. unfold spliceAt.
  rewrite !filter_app, filter_declarationsOf_other by exact Hne.
  apply filter_firstn_skipn.
Qed.

Lemma filter_spliceAt_same K p id ss i (l : list Node) :
  filter (visibleOfKind K) (spliceAt i (declarationsOf p (syntaxKindOf K) id ss) l)
  = filter (visibleOfKind K) (firstn i l)
    ++ declarationsOf p (syntaxKindOf K) id ss
    ++ filter (visibleOfKind K) (skipn i l).
Proof. unfold spliceAt. rewrite !filter_app, filter_declarationsOf_same. reflexivity. Qed.

(** X13. After a valid insertion of a non-empty list of structures of a kind
    K into a container whose statements can be read, [getKs] returns the declarations it returned before together with the
    inserted ones, so its count grows by the number of structures, and the
    [getKs] of every other kind returns exactly what it returned before. *)
Theorem X13_insert_changes_one_view (K : DeclarationKind) (st : State) (i : Z)
  (ss : list Structure) :
  canReadStatements (this st) = true ->
  (0 <= i <= Z.of_nat (List.length (statementsOf (this st))))%Z ->
  ss <> [] ->
  exists nodes st',
    insertOfKind K i ss st = (Return nodes, st')
    /\ (forall K', K' <> K ->
          outcome (getAllOfKind K' st') = outcome (getAllOfKind K' st))
    /\ exists view,
        getAllOfKind K st' = (Return view, st')
        /\ List.length view
           = List.length (filter (visibleOfKind K) (statementsOf (this st))) + List.length ss
        /\ (forall d, In d view <->
                      In d nodes \/ In d (filter (visibleOfKind K) (statementsOf (this st)))).
Proof.
  intros Hc Hi Hs.
  destruct (insertOfKind_run K st i ss Hc Hi Hs) as (text & _ & Hrun).
  eexists. eexists. split; [exact Hrun|]. split.
  - intros K' Hne. rewrite !getAllOfKind_filter. unfold outcome. cbn [fst this].
    rewrite statementsOf_withSyntaxList, filter_spliceAt_other by exact Hne. reflexivity.
  - eexists. split; [apply getAllOfKind_filter|]. cbn [this].
    rewrite statementsOf_withSyntaxList, filter_spliceAt_same.
    split.
    + rewrite !length_app, declarationsOf_length.
      rewrite <- (filter_firstn_skipn (visibleOfKind K) (statementsOf (this st)) (Z.to_nat i)).
      rewrite length_app. lia.
    + intros d.
      rewrite <- (filter_firstn_skipn (visibleOfKind K) (statementsOf (this st)) (Z.to_nat i)).
      rewrite !in_app_iff. tauto.
Qed.

Lemma X13_insert_changes_one_view_witness :
  canReadStatements (this (sourceFileOf [classA; expressionX])) = true
  /\ (0 <= 0 <= Z.of_nat (List.length (statementsOf (this (sourceFileOf [classA; expressionX])))))%Z
  /\ [structureNamed "E"] <> []
  /\ exists nodes st',
      insertOfKind Enums 0 [structureNamed "E"] (sourceFileOf [classA; expressionX])
      = (Return nodes, st')
      /\ outcome (getAllOfKind Classes st') = Return [classA].
Proof.
  split; [reflexivity|]. split; [simpl; lia|]. split; [discriminate|].
  destruct (X13_insert_changes_one_view Enums (sourceFileOf [classA; expressionX]) 0
              [structureNamed "E"])
    as (nodes & st' & Hrun & Hother & _); [reflexivity | simpl; lia | discriminate |].
  exists nodes, st'. split; [exact Hrun|].
  rewrite (Hother Classes) by discriminate. reflexivity.
Defined.

(** ** Finding what was inserted *)

Lemma insertOneOfKind_unfold D i s st :
  insertOneOfKind D i s st = bind (insertOfKind D i [s]) first st.
Proof. destruct D; reflexivity. Qed.

(** X14. After [insertK(i, structure)] at a valid index of a container whose
    statements can be read, with a structure named [x], the call has returned the declaration that now stands at
    position [i], and [getK(x)] finds a declaration of the kind named [x]:
    the inserted one, or one of that name that stands before it. *)
Theorem X14_inserted_declaration_is_found (K : LookupKind) (D : DeclarationKind)
  (st : State) (i : Z) (s : Structure) (x : string) :
  declarationKindOf K = Some D ->
  canReadStatements (this st) = true ->
  (0 <= i <= Z.of_nat (List.length (statementsOf (this st))))%Z ->
  sname s = Some x ->
  exists d st',
    insertOneOfKind D i s st = (Return (Some d), st')
    /\ nth_error (statementsOf (this st')) (Z.to_nat i) = Some d
    /\ name d = Some x
    /\ exists n,
        getOfKind K (Name x) st' = (Return (Some n), st')
        /\ name n = Some x
        /\ kind n = syntaxKindOf D
        /\ In n (statementsOf (this st')).
Proof.
  intros HK Hc Hi Hx.
  destruct (insertOfKind_run D st i [s] Hc Hi) as (text & _ & Hrun); [discriminate|].
  simpl declarationsOf in Hrun.
  set (d := declarationOf (this st) (syntaxKindOf D) (freshId (statementsOf (this st))) s) in *.
  exists d. eexists. split.
  { rewrite insertOneOfKind_unfold. rewrite (bind_Return _ Hrun). reflexivity. }
  cbn [this]. rewrite statementsOf_withSyntaxList.
  assert (Hle : Z.to_nat i <= List.length (statementsOf (this st))) by lia.
  assert (Hnth : nth_error (spliceAt (Z.to_nat i) [d] (statementsOf (this st))) (Z.to_nat i)
                 = Some d).
  { rewrite <- (Nat.add_0_r (Z.to_nat i)) at 2.
    rewrite spliceAt_inserted by exact Hle. reflexivity. }
  split; [exact Hnth|]. split; [exact Hx|].
  match goal with
  | |- exists n, getOfKind K (Name x) ?st1 = _ /\ _ => set (st' := st1)
  end.
  pose proof (getItemsOfKind_direct K D st' HK) as Hitems.
  rewrite (getOfKind_run K (Name x) st' _ Hitems).
  assert (Hin : In d (filter (visibleOfKind D) (statementsOf (this st')))).
  { apply filter_In. split; [|apply visibleOfKind_declarationOf].
    unfold st'. cbn [this]. rewrite statementsOf_withSyntaxList.
    exact (nth_error_In _ _ Hnth). }
  assert (Hm : matchesNameOrFindFunction (Name x) d = true).
  { simpl. rewrite Hx. apply String.eqb_refl. }
  destruct (find (matchesNameOrFindFunction (Name x))
              (filter (visibleOfKind D) (statementsOf (this st')))) as [n|] eqn:Ef.
  - exists n. split; [reflexivity|].
    apply find_some in Ef. destruct Ef as [Hn Hmn].
    apply filter_In in Hn. destruct Hn as [Hn Hv].
    split; [|split; [apply visibleOfKind_kind; exact Hv|]].
    + simpl in Hmn. destruct (name n) as [m|]; [|discriminate].
      apply String.eqb_eq in Hmn. congruence.
    + unfold st' in Hn. cbn [this] in Hn. rewrite statementsOf_withSyntaxList in Hn. exact Hn.
  - exfalso. rewrite find_None_iff in Ef. rewrite (Ef d Hin) in Hm. discriminate.
Qed.

Lemma X14_inserted_declaration_is_found_witness :
  declarationKindOf AnInterface = Some Interfaces
  /\ canReadStatements (this (sourceFileOf [classA; expressionX])) = true
  /\ (0 <= 2 <= Z.of_nat (List.length (statementsOf (this (sourceFileOf [classA; expressionX])))))%Z
  /\ sname (structureNamed "I") = Some "I"%string
  /\ exists d st',
      insertOneOfKind Interfaces 2 (structureNamed "I") (sourceFileOf [classA; expressionX])
      = (Return (Some d), st')
      /\ exists n,
          getOfKind AnInterface (Name "I") st' = (Return (Some n), st')
          /\ name n = Some "I"%string.
Proof.
  split; [reflexivity|]. split; [reflexivity|]. split; [simpl; lia|]. split; [reflexivity|].
  destruct (X14_inserted_declaration_is_found AnInterface Interfaces
              (sourceFileOf [classA; expressionX]) 2 (structureNamed "I") "I")
    as (d & st' & Hrun & _ & _ & n & Hget & Hname & _);
    [reflexivity | reflexivity | simpl; lia | reflexivity |].
  exists d, st'. split; [exact Hrun|]. exists n. split; [exact Hget | exact Hname].
Defined.

(** ** Inserting a list in two parts *)

Lemma spliceAt_nothing i (l : list Node) : spliceAt i [] l = l.
Proof. unfold spliceAt. simpl. apply firstn_skipn. Qed.

(** The outcome and the statements of a valid insertion, the list of
    structures being empty or not. *)
Lemma insertOfKind_statements K st i ss :
  canReadStatements (this st) = true ->
  (0 <= i <= Z.of_nat (List.length (statementsOf (this st))))%Z ->
  exists st',
    insertOfKind K i ss st
    = (Return (declarationsOf (this st) (syntaxKindOf K)
                 (freshId (statementsOf (this st))) ss), st')
    /\ sameContainer (this st) (this st')
    /\ statementsOf (this st')
       = spliceAt (Z.to_nat i)
           (declarationsOf (this st) (syntaxKindOf K) (freshId (statementsOf (this st))) ss)
           (statementsOf (this st)).
Proof.
  intros Hc Hi. destruct ss as [|s ss].
  - exists (withThis st (ensureBody (this st))).
    rewrite insertOfKind_unfold. unfold _insertChildren.
    rewrite (bind_Return _ (addBodyIfNotExists_run st)).
    split; [reflexivity|]. simpl this.
    split; [apply sameContainer_ensureBody|].
    rewrite ensureBody_statementsOf. simpl. symmetry. apply spliceAt_nothing.
  - destruct (insertOfKind_run K st i (s :: ss) Hc Hi) as (text & _ & Hrun); [discriminate|].
    eexists. split; [exact Hrun|]. cbn [this].
    split; [apply sameContainer_withSyntaxList | reflexivity].
Qed.

Lemma declarationsOf_app p k a b : forall id,
  declarationsOf p k id (a ++ b)
  = declarationsOf p k id a ++ declarationsOf p k (id + List.length a) b.
Proof.
  induction a as [|s a IH]; intros id; simpl.
  - rewrite Nat.add_0_r. reflexivity.
  - rewrite IH. do 3 f_equal. lia.
Qed.

Lemma list_max_seq s n : list_max (seq s n) = match n with 0 => 0 | S n' => s + n' end.
Proof.
  revert s. induction n as [|n IH]; intros s; [reflexivity|].
  change (seq s (S n)) with (s :: seq (S s) n). simpl list_max.
  rewrite IH. destruct n; lia.
Qed.

Lemma freshId_spliceAt p k a i (l : list Node) :
  freshId (spliceAt i (declarationsOf p k (freshId l) a) l) = freshId l + List.length a.
Proof.
  unfold freshId, spliceAt.
  rewrite !map_app, !list_max_app, declarationsOf_ids, list_max_seq.
  assert (H : list_max (map nodeId l)
              = Nat.max (list_max (map nodeId (firstn i l)))
                  (list_max (map nodeId (skipn i l)))).
  { rewrite <- list_max_app, <- map_app, firstn_skipn. reflexivity. }
  destruct (List.length a); lia.
Qed.

Lemma spliceAt_spliceAt i (A B l : list Node) :
  i <= List.length l ->
  spliceAt (i + List.length A) B (spliceAt i A l) = spliceAt i (A ++ B) l.
Proof.
  intros Hi. unfold spliceAt.
  assert (Hlen : i + List.length A = List.length (firstn i l ++ A)).
  { rewrite length_app, length_firstn. lia. }
  rewrite (app_assoc (firstn i l) A). rewrite Hlen.
  rewrite firstn_app, firstn_all, Nat.sub_diag.
  rewrite skipn_app, skipn_all, Nat.sub_diag. simpl.
  rewrite app_nil_r, <- !app_assoc. reflexivity.
Qed.

(** X15. On a container whose statements can be read, inserting the
    structures [a ++ b] of a kind at a valid index [i] leaves the same statements as inserting [a] at [i] and then [b] at
    [i + length a]: all three insertions succeed, and the declarations the
    single insertion returns are those of the first followed by those of the
    second. *)
Theorem X15_insert_in_two_parts (K : DeclarationKind) (st : State) (i : Z)
  (a b : list Structure) :
  canReadStatements (this st) = true ->
  (0 <= i <= Z.of_nat (List.length (statementsOf (this st))))%Z ->
  exists nodesA stA nodesB stB nodes stAB,
    insertOfKind K i a st = (Return nodesA, stA)
    /\ insertOfKind K (i + Z.of_nat (List.length a)) b stA = (Return nodesB, stB)
    /\ insertOfKind K i (a ++ b) st = (Return nodes, stAB)
    /\ nodes = nodesA ++ nodesB
    /\ statementsOf (this stB) = statementsOf (this stAB).
Proof.
  intros Hc Hi.
  destruct (insertOfKind_statements K st i a Hc Hi) as (stA & HrunA & HsA & HstA).
  assert (HcA : canReadStatements (this stA) = true)
    by (exact (sameContainer_canReadStatements _ _ HsA Hc)).
  assert (HlenA : List.length (statementsOf (this stA))
                  = List.length (statementsOf (this st)) + List.length a).
  { rewrite HstA, spliceAt_length, declarationsOf_length. reflexivity. }
  destruct (insertOfKind_statements K stA (i + Z.of_nat (List.length a)) b HcA)
    as (stB & HrunB & HsB & HstB); [lia|].
  destruct (insertOfKind_statements K st i (a ++ b) Hc Hi) as (stAB & HrunAB & _ & HstAB).
  do 6 eexists. split; [exact HrunA|]. split; [exact HrunB|]. split; [exact HrunAB|].
  assert (Hamb : ambient (this stA) = ambient (this st)) by apply HsA.
  assert (Hfresh : freshId (statementsOf (this stA))
                   = freshId (statementsOf (this st)) + List.length a).
  { rewrite HstA. apply freshId_spliceAt. }
  rewrite (declarationsOf_parent _ _ _ _ Hamb), Hfresh.
  split; [apply declarationsOf_app|].
  rewrite HstB, HstAB.
  rewrite (declarationsOf_parent _ _ _ _ Hamb), Hfresh, declarationsOf_app, HstA.
  replace (Z.to_nat (i + Z.of_nat (List.length a)))
    with (Z.to_nat i + List.length
                         (declarationsOf (this st) (syntaxKindOf K)
                            (freshId (statementsOf (this st))) a))
    by (rewrite declarationsOf_length; lia).
  apply spliceAt_spliceAt. lia.
Qed.

Lemma X15_insert_in_two_parts_witness :
  canReadStatements (this (sourceFileOf [classA; expressionX])) = true
  /\ (0 <= 1 <= Z.of_nat (List.length (statementsOf (this (sourceFileOf [classA; expressionX])))))%Z
  /\ exists nodesA stA nodesB stB nodes stAB,
      insertOfKind Enums 1 [structureNamed "E"] (sourceFileOf [classA; expressionX])
      = (Return nodesA, stA)
      /\ insertOfKind Enums 2 [structureNamed "F"] stA = (Return nodesB, stB)
      /\ insertOfKind Enums 1 [structureNamed "E"; structureNamed "F"]
           (sourceFileOf [classA; expressionX]) = (Return nodes, stAB)
      /\ statementsOf (this stB) = statementsOf (this stAB).
Proof.
  split; [reflexivity|]. split; [simpl; lia|].
  destruct (X15_insert_in_two_parts Enums (sourceFileOf [classA; expressionX]) 1
              [structureNamed "E"] [structureNamed "F"])
    as (nodesA & stA & nodesB & stB & nodes & stAB & H1 & H2 & H3 & _ & H5);
    [reflexivity | simpl; lia |].
  exists nodesA, stA, nodesB, stB, nodes, stAB. auto.
Defined.

(** ** Statements inserted as text *)

Lemma insertChildText_run parseStatements owner i text st :
  (0 <= i <= Z.of_nat (List.length (childrenOfOwner owner (this st))))%Z ->
  insertChildText parseStatements owner i text st
  = (Return (renumber (freshId (childrenOfOwner owner (this st)))
               (parseStatements (printTextFromStringOrWriter [] text))),
     {| this := withChildrenOfOwner owner (this st)
                  (spliceAt (Z.to_nat i)
                     (renumber (freshId (childrenOfOwner owner (this st)))
                        (parseStatements (printTextFromStringOrWriter [] text)))
                     (childrenOfOwner owner (this st)));
        insertions := insertions st
                      ++ [{| insertIndex := Z.to_nat i;
                             newText := printTextFromStringOrWriter [] text |}] |}).
Proof.
  intros Hi. unfold insertChildText. unfold bind at 1. unfold getThis at 1.
  unfold bind at 1. unfold liftOutcome at 1.
  rewrite verifyAndGetIndex_valid by exact Hi. reflexivity.
Qed.

Lemma insertStatements_owner_own st :
  hasBody (this st) = true ->
  insertsIntoBlock (this st) = false ->
  insertStatements_getChildSyntaxList st = (Return OwnSyntaxList, st).
Proof.
  destruct st as [[id k nm amb [l|] ds] ins]; [|discriminate].
  intros _. unfold insertsIntoBlock, insertStatements_getChildSyntaxList,
    getChildSyntaxListOrThrow. run.
  destruct (TypeGuards.isCaseClause _ || TypeGuards.isDefaultClause _); [|reflexivity].
  simpl. unfold statementsOf. simpl. destruct l as [|b l]; [reflexivity|].
  unfold TypeGuards.isBlock. simpl. intros ->. reflexivity.
Qed.

Lemma insertsIntoBlock_ensureBody n : insertsIntoBlock (ensureBody n) = insertsIntoBlock n.
Proof.
  unfold insertsIntoBlock, TypeGuards.isCaseClause, TypeGuards.isDefaultClause,
    TypeGuards.isKind.
  rewrite ensureBody_kind, ensureBody_statementsOf. reflexivity.
Qed.

(** X16. On a node that is bodyable or has a body, and that is not a clause
    starting with a block, [insertStatements(i, text)] at an index between 0
    and the statement count succeeds: the statements the written text parses
    to are returned, as new objects, and are spliced in at [i]; so they stand
    at the positions [i ..], the statements before [i] keep their positions,
    those from [i] on move up by the number inserted, the written text is
    recorded at [i], and the node has a body afterwards. *)
Theorem X16_insertStatements_positions (parseStatements : CodeBlockWriter -> list Node)
  (st : State) (i : Z) (text : TextOrWriterFunction) :
  TypeGuards.isBodyableNode (this st) || hasBody (this st) = true ->
  insertsIntoBlock (this st) = false ->
  (0 <= i <= Z.of_nat (List.length (statementsOf (this st))))%Z ->
  exists nodes st',
    insertStatements parseStatements i text st = (Return nodes, st')
    /\ nodes = renumber (freshId (statementsOf (this st)))
                 (parseStatements (printTextFromStringOrWriter [] text))
    /\ statementsOf (this st') = spliceAt (Z.to_nat i) nodes (statementsOf (this st))
    /\ insertions st'
       = insertions st
         ++ [{| insertIndex := Z.to_nat i;
                newText := printTextFromStringOrWriter [] text |}]
    /\ List.length nodes
       = List.length (parseStatements (printTextFromStringOrWriter [] text))
    /\ hasBody (this st') = true
    /\ List.length (statementsOf (this st'))
       = List.length (statementsOf (this st)) + List.length nodes
    /\ (forall j, j < List.length nodes ->
          nth_error (statementsOf (this st')) (Z.to_nat i + j) = nth_error nodes j)
    /\ (forall j, j < Z.to_nat i ->
          nth_error (statementsOf (this st')) j = nth_error (statementsOf (this st)) j)
    /\ (forall j, Z.to_nat i <= j ->
          nth_error (statementsOf (this st')) (j + List.length nodes)
          = nth_error (statementsOf (this st)) j).
Proof.
  intros Hb Hblock Hi.
  assert (Hb' : hasBody (this (withThis st (ensureBody (this st)))) = true).
  { simpl. unfold ensureBody.
    destruct (TypeGuards.isBodyableNode (this st)) eqn:E1;
      destruct (hasBody (this st)) eqn:E2; simpl; auto; discriminate. }
  assert (Hblock' : insertsIntoBlock (this (withThis st (ensureBody (this st)))) = false).
  { simpl. rewrite insertsIntoBlock_ensureBody. exact Hblock. }
  unfold insertStatements.
  rewrite (bind_Return _ (addBodyIfNotExists_run st)).
  rewrite (bind_Return _ (insertStatements_owner_own _ Hb' Hblock')).
  rewrite insertChildText_run
    by (cbn [childrenOfOwner this withThis]; rewrite ensureBody_statementsOf; exact Hi).
  cbn [childrenOfOwner withChildrenOfOwner this withThis].
  rewrite ensureBody_statementsOf.
  eexists. eexists. split; [reflexivity|]. cbn [this].
  rewrite statementsOf_withSyntaxList.
  assert (Hlen : forall id l, List.length (renumber id l) = List.length l).
  { intros id l. revert id. induction l as [|a l IH]; intros id; simpl; [|rewrite IH]; reflexivity. }
  assert (Hle : Z.to_nat i <= List.length (statementsOf (this st))) by lia.
  split; [reflexivity|]. split; [reflexivity|]. split; [reflexivity|].
  split; [apply Hlen|]. split; [reflexivity|].
  split; [apply spliceAt_length|]. split; [|split].
  - intros j Hj. rewrite spliceAt_inserted by exact Hle.
    apply Nat.ltb_lt in Hj. rewrite Hj. reflexivity.
  - intros j Hj. apply spliceAt_before; assumption.
  - intros j Hj. apply spliceAt_after; assumption.
Qed.

Lemma X16_insertStatements_positions_witness :
  TypeGuards.isBodyableNode (this functionWithoutBody) || hasBody (this functionWithoutBody)
  = true
  /\ insertsIntoBlock (this functionWithoutBody) = false
  /\ (0 <= 0 <= Z.of_nat (List.length (statementsOf (this functionWithoutBody))))%Z
  /\ exists nodes st',
      insertStatements oneStatementParser 0 (Text "x;") functionWithoutBody
      = (Return nodes, st')
      /\ List.length nodes = 1
      /\ hasBody (this st') = true.
Proof.
  split; [reflexivity|]. split; [reflexivity|]. split; [simpl; lia|].
  destruct (X16_insertStatements_positions oneStatementParser functionWithoutBody 0 (Text "x;"))
    as (nodes & st' & Hrun & _ & _ & _ & Hlen & Hb & _);
    [reflexivity | reflexivity | simpl; lia |].
  exists nodes, st'. split; [exact Hrun|]. split; [exact Hlen | exact Hb].
Defined.

(** ** A clause that starts with a block *)

Lemma insertStatements_owner_block st block rest bs :
  TypeGuards.isCaseClause (this st) || TypeGuards.isDefaultClause (this st) = true ->
  syntaxList (this st) = Some (block :: rest) ->
  TypeGuards.isBlock block = true ->
  syntaxList block = Some bs ->
  insertStatements_getChildSyntaxList st = (Return FirstChildBlock, st).
Proof.
  destruct st as [[id k nm amb sl ds] ins]. simpl. intros Hk -> Hb Hs.
  unfold insertStatements_getChildSyntaxList, getChildSyntaxListOrThrow. run.
  rewrite Hk. unfold getFirstChildIfKind. unfold TypeGuards.isBlock in Hb. rewrite Hb.
  rewrite Hs. reflexivity.
Qed.

Lemma clause_ensureBody n :
  TypeGuards.isCaseClause n || TypeGuards.isDefaultClause n = true -> ensureBody n = n.
Proof.
  destruct n as [id k nm amb sl ds]. destruct k; simpl; try discriminate; reflexivity.
Qed.

Lemma clause_isStatementContainer n :
  TypeGuards.isCaseClause n || TypeGuards.isDefaultClause n = true ->
  isStatementContainer n = true.
Proof.
  destruct n as [id k nm amb sl ds]. destruct k; simpl; try discriminate; reflexivity.
Qed.

(** X17. On a case or default clause whose first statement is a block,
    [insertStatements] works on the statements of that block: the index is
    checked against their count and the parsed statements are spliced in
    among them, while the clause keeps its own statements, the block first.
    [addStatements] still passes the clause's own statement count as the
    index: it is refused with the out-of-bounds error, the clause unchanged,
    when the block has fewer statements than the clause, and otherwise it
    inserts at that index of the block. *)
Theorem X17_clause_block_insertion (parseStatements : CodeBlockWriter -> list Node)
  (st : State) (block : Node) (rest bs : list Node) (text : TextOrWriterFunction) :
  TypeGuards.isCaseClause (this st) || TypeGuards.isDefaultClause (this st) = true ->
  syntaxList (this st) = Some (block :: rest) ->
  TypeGuards.isBlock block = true ->
  syntaxList block = Some bs ->
  (forall i, (0 <= i <= Z.of_nat (List.length bs))%Z ->
     exists nodes st',
       insertStatements parseStatements i text st = (Return nodes, st')
       /\ nodes = renumber (freshId bs) (parseStatements (printTextFromStringOrWriter [] text))
       /\ statementsOf (this st')
          = withSyntaxList block (Some (spliceAt (Z.to_nat i) nodes bs)) :: rest)
  /\ (forall i, (Z.of_nat (List.length bs) < i)%Z ->
        insertStatements parseStatements i text st = (Throw OutOfBounds, st))
  /\ addStatements parseStatements text st
     = insertStatements parseStatements (Z.of_nat (S (List.length rest))) text st
  /\ (List.length bs <= List.length rest ->
      addStatements parseStatements text st = (Throw OutOfBounds, st)).
Proof.
  intros Hk Hsl Hb Hbs.
  assert (Hchildren : childrenOfOwner FirstChildBlock (this st) = bs).
  { unfold childrenOfOwner, statementsOf. rewrite Hsl, Hbs. reflexivity. }
  assert (Hstart : forall i,
    insertStatements parseStatements i text st
    = insertChildText parseStatements FirstChildBlock i text st).
  { intros i. unfold insertStatements.
    rewrite (bind_Return _ (addBodyIfNotExists_run st)).
    rewrite (clause_ensureBody _ Hk), withThis_this.
    rewrite (bind_Return _ (insertStatements_owner_block st block rest bs Hk Hsl Hb Hbs)).
    reflexivity. }
  assert (Hhigh : forall i, (Z.of_nat (List.length bs) < i)%Z ->
    insertStatements parseStatements i text st = (Throw OutOfBounds, st)).
  { intros i Hi. rewrite Hstart. unfold insertChildText.
    unfold bind at 1. unfold getThis at 1. rewrite Hchildren.
    unfold bind at 1. unfold liftOutcome at 1.
    rewrite verifyAndGetIndex_too_large by lia. reflexivity. }
  assert (Hadd : addStatements parseStatements text st
     = insertStatements parseStatements (Z.of_nat (S (List.length rest))) text st).
  { unfold addStatements.
    assert (Hr : canReadStatements (this st) = true).
    { apply statements_canReadStatements; [exact (clause_isStatementContainer _ Hk)|].
      unfold statementsOf. rewrite Hsl. discriminate. }
    rewrite (bind_Return _ (getCompilerStatements_container st Hr)).
    unfold statementsOf. rewrite Hsl. reflexivity. }
  split; [|split; [exact Hhigh | split; [exact Hadd|]]].
  - intros i Hi. rewrite Hstart.
    rewrite insertChildText_run by (rewrite Hchildren; exact Hi).
    rewrite Hchildren. eexists. eexists. split; [reflexivity|]. split; [reflexivity|].
    cbn [this]. unfold withChildrenOfOwner, statementsOf. rewrite Hsl. reflexivity.
  - intros Hle. rewrite Hadd. apply Hhigh. lia.
Qed.

Lemma X17_clause_block_insertion_witness :
  TypeGuards.isCaseClause (this caseClauseWithEmptyBlock)
  || TypeGuards.isDefaultClause (this caseClauseWithEmptyBlock) = true
  /\ syntaxList (this caseClauseWithEmptyBlock)
     = Some [mkNode 1 SyntaxKind.Block None false (Some []) []]
  /\ TypeGuards.isBlock (mkNode 1 SyntaxKind.Block None false (Some []) []) = true
  /\ syntaxList (mkNode 1 SyntaxKind.Block None false (Some []) []) = Some []
  /\ addStatements oneStatementParser (Text "y;") caseClauseWithEmptyBlock
     = (Throw OutOfBounds, caseClauseWithEmptyBlock)
  /\ exists nodes st',
      insertStatements oneStatementParser 0 (Text "y;") caseClauseWithEmptyBlock
      = (Return nodes, st')
      /\ List.length (statementsOf (this st')) = 1.
Proof.
  split; [reflexivity|]. split; [reflexivity|]. split; [reflexivity|]. split; [reflexivity|].
  destruct (X17_clause_block_insertion oneStatementParser caseClauseWithEmptyBlock
              (mkNode 1 SyntaxKind.Block None false (Some []) []) [] [] (Text "y;")
              eq_refl eq_refl eq_refl eq_refl) as (Hin & _ & _ & Hadd).
  split; [apply Hadd; simpl; lia|].
  destruct (Hin 0%Z) as (nodes & st' & Hrun & _ & Hst); [simpl; lia|].
  exists nodes, st'. split; [exact Hrun|]. rewrite Hst. reflexivity.
Defined.

(** ** Ensuring the body *)

(** X18. [addBodyIfNotExists] never fails and never changes the statements;
    it changes a node only when the node is bodyable and has no body, which
    then has an empty one; and running it a second time changes nothing
    more. *)
Theorem X18_addBodyIfNotExists_idempotent (st : State) :
  exists st',
    addBodyIfNotExists st = (Return tt, st')
    /\ addBodyIfNotExists st' = (Return tt, st')
    /\ statementsOf (this st') = statementsOf (this st)
    /\ insertions st' = insertions st
    /\ (TypeGuards.isBodyableNode (this st) = true -> hasBody (this st') = true)
    /\ (TypeGuards.isBodyableNode (this st) = false \/ hasBody (this st) = true -> st' = st)
    /\ (TypeGuards.isBodyableNode (this st) = true -> hasBody (this st) = false ->
        syntaxList (this st') = Some []).
Proof.
  exists (withThis st (ensureBody (this st))).
  split; [apply addBodyIfNotExists_run|].
  assert (Hidem : ensureBody (ensureBody (this st)) = ensureBody (this st)).
  { unfold ensureBody at 1. 
    destruct (TypeGuards.isBodyableNode (ensureBody (this st))) eqn:E; [|reflexivity].
    assert (E' : TypeGuards.isBodyableNode (this st) = true).
    { unfold TypeGuards.isBodyableNode in *. rewrite ensureBody_kind in E. exact E. }
    rewrite (ensureBody_hasBody _ E'). reflexivity. }
  split.
  { rewrite addBodyIfNotExists_run. unfold withThis. simpl. rewrite Hidem. reflexivity. }
  split; [apply ensureBody_statementsOf|]. split; [reflexivity|].
  split; [apply ensureBody_hasBody|]. split.
  - intros H. unfold ensureBody.
    destruct H as [H|H]; rewrite H; rewrite ?andb_false_r; simpl; apply withThis_this.
  - intros H1 H2. simpl. unfold ensureBody. rewrite H1, H2. reflexivity.
Qed.

(** ** A body without a statement list *)

Lemma arrowFunction_ensureBody n :
  kind n = SyntaxKind.ArrowFunction -> ensureBody n = n.
Proof.
  intros H. unfold ensureBody, TypeGuards.isBodyableNode. rewrite H. reflexivity.
Qed.

(** X19. On an arrow function whose body is an expression, the statements
    that [getCompilerStatements] hands on are undefined, as the branch of the
    bodied nodes reads them off the body without looking: every method that
    then reads them fails with a TypeError and leaves the node as it was,
    [getStatements], [getStatement], [getStatementByKind], [removeStatements],
    [removeStatement], [addStatements], every [addKs], every [insertKs] of a
    non-empty list and a [set] with a body text.  An [insertKs] of an empty
    list reads nothing and returns no declaration. *)
Theorem X19_expression_body_type_error (parseStatements : CodeBlockWriter -> list Node)
  (st : State) :
  kind (this st) = SyntaxKind.ArrowFunction ->
  syntaxList (this st) = None ->
  compilerStatementsOrUndefined st = (Return None, st)
  /\ getStatements st = (Throw TypeError, st)
  /\ (forall f, getStatement f st = (Throw TypeError, st))
  /\ (forall k, getStatementByKind k st = (Throw TypeError, st))
  /\ (forall range, removeStatements range st = (Throw TypeError, st))
  /\ (forall i, removeStatement i st = (Throw TypeError, st))
  /\ (forall text, addStatements parseStatements text st = (Throw TypeError, st))
  /\ (forall K ss, addOfKind K ss st = (Throw TypeError, st))
  /\ (forall K i ss, ss <> [] -> insertOfKind K i ss st = (Throw TypeError, st))
  /\ (forall K i, insertOfKind K i [] st = (Return [], st))
  /\ (forall S text, bodyTextValue S = Some text ->
                     set parseStatements S st = (Throw TypeError, st)).
Proof.
  intros Hk Hs.
  assert (Hu : compilerStatementsOrUndefined st = (Return None, st)).
  { destruct st as [[id k nm amb sl ds] ins]. simpl in Hk, Hs. subst. reflexivity. }
  assert (Hm : getCompilerStatements st = (Throw TypeError, st)).
  { unfold getCompilerStatements. rewrite (bind_Return _ Hu). reflexivity. }
  assert (Hg : getStatements st = (Throw TypeError, st)).
  { unfold getStatements. apply bind_Throw. exact Hm. }
  assert (He : withThis st (ensureBody (this st)) = st).
  { rewrite (arrowFunction_ensureBody _ Hk). apply withThis_this. }
  split; [exact Hu|]. split; [exact Hg|].
  split; [intros f; unfold getStatement; apply bind_Throw; exact Hg|].
  split; [intros k; unfold getStatementByKind; apply bind_Throw; exact Hm|].
  split; [intros r; unfold removeStatements; apply bind_Throw; exact Hg|].
  split; [intros i; unfold removeStatement; apply bind_Throw; exact Hm|].
  split; [intros text; unfold addStatements; apply bind_Throw; exact Hm|].
  split; [|split; [|split]].
  - intros K ss. destruct K; simpl;
      unfold addClasses, addEnums, addFunctions, addInterfaces, addNamespaces,
        addTypeAliases, addVariableStatements; apply bind_Throw; exact Hm.
  - intros K i ss Hne. rewrite insertOfKind_unfold. unfold _insertChildren.
    rewrite (bind_Return _ (addBodyIfNotExists_run st)), He.
    unfold insertIntoBracesOrSourceFileWithGetChildren. cbn [structures].
    destruct ss; [congruence|]. apply bind_Throw. exact Hg.
  - intros K i. rewrite insertOfKind_unfold. unfold _insertChildren.
    rewrite (bind_Return _ (addBodyIfNotExists_run st)), He. reflexivity.
  - intros S text Hb. unfold set. apply bind_Throw.
    unfold set_removeBodyText. unfold bind at 1. unfold getThis at 1.
    unfold TypeGuards.isBodiedNode. rewrite Hk, Hb. cbn [orb].
    apply bind_Throw. exact Hm.
Qed.

Lemma X19_expression_body_type_error_witness :
  kind (this arrowFunctionWithExpressionBody) = SyntaxKind.ArrowFunction
  /\ syntaxList (this arrowFunctionWithExpressionBody) = None
  /\ getStatements arrowFunctionWithExpressionBody
     = (Throw TypeError, arrowFunctionWithExpressionBody)
  /\ insertOfKind Classes 0 [structureNamed "A"] arrowFunctionWithExpressionBody
     = (Throw TypeError, arrowFunctionWithExpressionBody).
Proof.
  split; [reflexivity|]. split; [reflexivity|].
  destruct (X19_expression_body_type_error oneStatementParser arrowFunctionWithExpressionBody
              eq_refl eq_refl) as (_ & H2 & _ & _ & _ & _ & _ & _ & H9 & _).
  split; [exact H2|]. apply H9. discriminate.
Defined.
